(** * ShoreSquad: a shallow embedding of the front-end script

    The repository ships three revisions of one browser script:
    - [src/js/app.js]          (Open-Meteo weather, module [OpenMeteo]);
    - [src/unnamed/part_000]   (NEA 24-hour forecast, module [Nea24h]);
    - [src/unnamed/part_001]   (NEA forecast + readings, module [NeaPair]).

    The crew roster, the statistics counters and the persistence adapter
    are the same text in the three revisions and are embedded once; the
    weather pipeline and the loader differ and live in one module per
    revision.  Handlers are state transformers over a [World] (the global
    [AppState], [localStorage], the elements of the page and the console)
    that either complete or throw. *)

From Stdlib Require Import ZArith QArith Qround String Ascii List Lia Bool.
From Stdlib Require Import DecimalString DecimalZ.
From stdpp Require Import gmap strings.

Open Scope string_scope.

(** ** JavaScript values *)

#[local] Set Warnings "-register-all".

(** What [JSON.parse] and [response.json()] can hand to the script, plus
    [undefined] for absent properties.  Numbers are rationals: the script
    only tests them for zero and orders them. *)
Inductive JsVal : Type :=
| JUndefined
| JNull
| JBool (b : bool)
| JNum (q : Q)
| JStr (s : string)
| JArr (items : list JsVal)
| JObj (fields : list (string * JsVal)).

Inductive Exn : Type :=
| TypeError (what : string)
| SyntaxError
| QuotaExceededError
| NetworkError
| Error (message : string).

(** How an evaluation ends. *)
Inductive Completion (A : Type) : Type :=
| Normal (a : A)
| Throw (e : Exn).
Arguments Normal {A} a.
Arguments Throw {A} e.

Definition threw {A} (c : Completion A) : bool :=
  match c with Normal _ => false | Throw _ => true end.

(** ToBoolean. *)
Definition truthy (v : JsVal) : bool :=
  match v with
  | JUndefined | JNull => false
  | JBool b => b
  | JNum q => negb (Qeq_bool q 0)
  | JStr s => negb (String.eqb s EmptyString)
  | JArr _ | JObj _ => true
  end.

(** [a || b] *)
Definition js_or (a b : JsVal) : JsVal := if truthy a then a else b.

Definition nullish (v : JsVal) : bool :=
  match v with JUndefined | JNull => true | _ => false end.

Fixpoint lookup_field (k : string) (fields : list (string * JsVal)) : JsVal :=
  match fields with
  | [] => JUndefined
  | (k', v) :: rest => if String.eqb k k' then v else lookup_field k rest
  end.

(** [v.k] for a property name [k] that is no built-in of strings, arrays
    or numbers (the script reads data properties only). *)
Definition member (v : JsVal) (k : string) : Completion JsVal :=
  match v with
  | JUndefined | JNull => Throw (TypeError k)
  | JObj fields => Normal (lookup_field k fields)
  | _ => Normal JUndefined
  end.

(** [v?.k] *)
Definition opt_member (v : JsVal) (k : string) : Completion JsVal :=
  if nullish v then Normal JUndefined else member v k.

Definition char_at (s : string) (i : nat) : JsVal :=
  match String.get i s with
  | Some c => JStr (String c EmptyString)
  | None => JUndefined
  end.

(** [v[0]] *)
Definition first (v : JsVal) : Completion JsVal :=
  match v with
  | JUndefined | JNull => Throw (TypeError "0")
  | JArr items => Normal (nth 0 items JUndefined)
  | JStr s => Normal (char_at s 0)
  | JObj fields => Normal (lookup_field "0" fields)
  | _ => Normal JUndefined
  end.

(** [v?.[0]] *)
Definition opt_first (v : JsVal) : Completion JsVal :=
  if nullish v then Normal JUndefined else first v.

Definition cbind {A B} (c : Completion A) (k : A -> Completion B) : Completion B :=
  match c with
  | Normal a => k a
  | Throw e => Throw e
  end.

(** A chain of accesses: [v.a[0].b] is [path [Dot "a"; Zero; Dot "b"] v]
    and [v?.a?.[0]?.b] is [opt_path] of the same steps. *)
Inductive Step : Type :=
| Dot (k : string)
| Zero.

Definition step (s : Step) (v : JsVal) : Completion JsVal :=
  match s with
  | Dot k => member v k
  | Zero => first v
  end.

Definition opt_step (s : Step) (v : JsVal) : Completion JsVal :=
  if nullish v then Normal JUndefined else step s v.

Fixpoint path (steps : list Step) (v : JsVal) : Completion JsVal :=
  match steps with
  | [] => Normal v
  | s :: rest => cbind (step s v) (path rest)
  end.

Fixpoint opt_path (steps : list Step) (v : JsVal) : Completion JsVal :=
  match steps with
  | [] => Normal v
  | s :: rest => cbind (opt_step s v) (opt_path rest)
  end.

(** [e || d] for an expression [e] that may throw. *)
Definition or_else (e : Completion JsVal) (d : JsVal) : Completion JsVal :=
  cbind e (fun v => Normal (js_or v d)).

(** ** Strings *)

Definition lower_ascii (c : ascii) : ascii :=
  let n := nat_of_ascii c in
  if (65 <=? n)%nat && (n <=? 90)%nat then ascii_of_nat (n + 32) else c.

(** [String.prototype.toLowerCase] on the ASCII letters; bytes of other
    characters are kept. *)
Fixpoint lower (s : string) : string :=
  match s with
  | EmptyString => EmptyString
  | String c r => String (lower_ascii c) (lower r)
  end.

(** [v.toLowerCase()] *)
Definition toLowerCase (v : JsVal) : Completion string :=
  match v with
  | JStr s => Normal (lower s)
  | _ => Throw (TypeError "toLowerCase")
  end.

(** [text.includes(pat)] *)
Fixpoint includes (text pat : string) : bool :=
  String.prefix pat text ||
  match text with
  | EmptyString => false
  | String _ r => includes r pat
  end.

(** ** Weather glyphs *)

Module Glyph.
Definition thunderstorm : string := "⛈️".
Definition rain : string := "🌧️".
Definition cloud : string := "☁️".
Definition partly_cloudy : string := "⛅".
Definition sun : string := "☀️".
Definition wind : string := "💨".
Definition fog : string := "🌫️".
Definition snow : string := "❄️".
Definition generic : string := "🌤️".
End Glyph.

(** [getForecastEmoji] of part_000 and part_001 (same text in both). *)
Definition getForecastEmoji (forecastText : JsVal) : Completion string :=
  cbind (toLowerCase forecastText) (fun text =>
  if includes text "thundery" || includes text "thunder" then Normal Glyph.thunderstorm
  else if includes text "rain" || includes text "shower" then Normal Glyph.rain
  else if includes text "cloudy" || includes text "cloud" then Normal Glyph.cloud
  else if includes text "partly cloudy" then Normal Glyph.partly_cloudy
  else if includes text "clear" || includes text "sunny" then Normal Glyph.sun
  else if includes text "windy" || includes text "wind" then Normal Glyph.wind
  else Normal Glyph.generic).

(** [getWeatherEmoji]: WMO weather code to glyph.  The code is a number in
    the Open-Meteo schema; a value of another type fails every test
    ([===] is strict; the coercion of strings and arrays to numbers in
    the relational tests is not modelled). *)
Definition getWeatherEmoji (code : JsVal) : string :=
  match code with
  | JNum code =>
      if Qeq_bool code 0 then Glyph.sun
      else if Qeq_bool code 1 || Qeq_bool code 2 then Glyph.partly_cloudy
      else if Qeq_bool code 3 then Glyph.cloud
      else if Qle_bool 45 code && Qle_bool code 48 then Glyph.fog
      else if Qle_bool 51 code && Qle_bool code 77 then Glyph.rain
      else if Qle_bool 80 code && Qle_bool code 82 then Glyph.thunderstorm
      else if Qle_bool 85 code && Qle_bool code 86 then Glyph.snow
      else Glyph.generic
  | _ => Glyph.generic
  end.

(** ** Application data *)

Module Member.
(** A crew member as [handleCrewSubmit] builds it. *)
Record t : Type := Build { id : Z; name : string; role : string; joinedDate : string }.
End Member.

Module Stats.
Record t : Type :=
  Build { cleanups : Z; trash : Z; beaches : Z; crewMembers : Z }.
Definition with_crewMembers (n : Z) (s : t) : t :=
  Build (cleanups s) (trash s) (beaches s) n.
End Stats.

Module Location.
Record t : Type := Build { lat : Q; lng : Q; accuracy : Q }.
End Location.

Module AppState.
(** The global [AppState] object ([cleanups] and [theme] are never read
    by the modelled handlers and are left out; [weather] exists in
    part_000 only). *)
Record t : Type :=
  Build { crew : list Member.t; stats : Stats.t;
          userLocation : option Location.t; weather : JsVal }.
Definition with_crew c (a : t) := Build c (stats a) (userLocation a) (weather a).
Definition with_stats s (a : t) := Build (crew a) s (userLocation a) (weather a).
Definition with_weather v (a : t) := Build (crew a) (stats a) (userLocation a) v.
(** The object literal the script starts from on every page load. *)
Definition initial : t := Build [] (Stats.Build 0 0 0 0) None JNull.
End AppState.

Module AppConfig.
Definition crew : string := "shoresquad_crew".
Definition stats : string := "shoresquad_stats".
Definition weatherApiBase : string := "https://api.open-meteo.com/v1/forecast".
Definition nea24HourWeather : string :=
  "https://api.data.gov.sg/v1/environment/24-hour-weather-forecast".
Definition neaWeatherReadings : string :=
  "https://api.data.gov.sg/v1/environment/air-temperature".
Definition neaWeather4Day : string :=
  "https://api.data.gov.sg/v1/environment/4-day-weather-forecast".
(** part_000 only *)
Definition mockStats : Stats.t := Stats.Build 12 847 5 28.
End AppConfig.

(** ** The browser *)

(** [localStorage]: string slots and the room the origin is allowed. *)
Record Storage : Type := { slots : gmap string string; quota : nat }.

Definition used (m : gmap string string) : nat :=
  map_fold (fun k v n => (String.length k + String.length v + n)%nat) 0%nat m.

(** What an element shows.  A template literal is kept as the list of the
    values of its placeholders, in source order; the fixed text between
    them is the same on every call and is not recorded. *)
Inductive Markup : Type :=
| Shipped
| Text (v : JsVal)
| Template (holes : list JsVal)
| Cards (cards : list (list JsVal)).

Inductive LogLine : Type :=
| Log (text : string)
| Warn (text : string)
| LogError (text : string) (e : Exn).

(** A request: the endpoint and the values spliced into its query. *)
Record Request : Type := { endpoint : string; query : list JsVal }.

Module Response.
(** [body] is what [response.json()] resolves to; [None] when the body
    is not JSON and the promise rejects. *)
Record t : Type := Build { ok : bool; status : Z; body : option JsVal }.
End Response.

Inductive FetchOutcome : Type :=
| Rejected
| Responded (r : Response.t).

(** What the handlers read from outside the page. *)
Record Env : Type := {
  Date_now : Z;
  toISOString : Z -> string;
  toLocaleDateString : Z -> string;
  addDays : Z -> Z -> Z;
  formatDate : JsVal -> string;
  Math_random : Q;
  network : Request -> FetchOutcome
}.

Record World : Type := {
  app : AppState.t;
  localStorage : Storage;
  document : gmap string Markup;
  console : list LogLine;
  notifications : list string;
  requests : list Request
}.

Definition with_app (f : AppState.t -> AppState.t) (w : World) : World :=
  {| app := f (app w); localStorage := localStorage w; document := document w;
     console := console w; notifications := notifications w; requests := requests w |}.
Definition with_localStorage (s : Storage) (w : World) : World :=
  {| app := app w; localStorage := s; document := document w;
     console := console w; notifications := notifications w; requests := requests w |}.
Definition with_document (d : gmap string Markup) (w : World) : World :=
  {| app := app w; localStorage := localStorage w; document := d;
     console := console w; notifications := notifications w; requests := requests w |}.
Definition with_console (l : LogLine) (w : World) : World :=
  {| app := app w; localStorage := localStorage w; document := document w;
     console := console w ++ [l]; notifications := notifications w; requests := requests w |}.
Definition with_notification (n : string) (w : World) : World :=
  {| app := app w; localStorage := localStorage w; document := document w;
     console := console w; notifications := notifications w ++ [n]; requests := requests w |}.
Definition with_request (r : Request) (w : World) : World :=
  {| app := app w; localStorage := localStorage w; document := document w;
     console := console w; notifications := notifications w; requests := requests w ++ [r] |}.

(** A page load: the script starts over on the same store and the shipped
    page. *)
Definition reload (page : gmap string Markup) (w : World) : World :=
  {| app := AppState.initial; localStorage := localStorage w; document := page;
     console := []; notifications := []; requests := [] |}.

(** ** Handlers as state transformers that may throw *)

Definition M (A : Type) : Type := World -> World * Completion A.

Definition ret {A} (a : A) : M A := fun w => (w, Normal a).
Definition throw {A} (e : Exn) : M A := fun w => (w, Throw e).
Definition lift {A} (c : Completion A) : M A := fun w => (w, c).
Definition bind {A B} (c : M A) (k : A -> M B) : M B :=
  fun w =>
    match c w with
    | (w', Normal a) => k a w'
    | (w', Throw e) => (w', Throw e)
    end.
(** [try { body } catch (error) { handler }]: what [body] did before it
    threw stays done. *)
Definition try_catch {A} (body : M A) (handler : Exn -> M A) : M A :=
  fun w =>
    match body w with
    | (w', Normal a) => (w', Normal a)
    | (w', Throw e) => handler e w'
    end.
Definition gets {A} (f : World -> A) : M A := fun w => (w, Normal (f w)).
Definition modify (f : World -> World) : M unit := fun w => (f w, Normal tt).

Declare Scope js_scope.
Delimit Scope js_scope with js.
Notation "x ← y ; z" := (bind y (fun x => z))
  (at level 20, y at level 100, z at level 200, only parsing) : js_scope.
Notation "x ;; z" := (bind x (fun _ => z))
  (at level 100, z at level 200, only parsing, right associativity) : js_scope.
Open Scope js_scope.

Definition run {A} (c : M A) (w : World) : World := fst (c w).
Definition outcome {A} (c : M A) (w : World) : Completion A := snd (c w).

(** *** console *)
Definition console_log (text : string) : M unit := modify (with_console (Log text)).
Definition console_warn (text : string) : M unit := modify (with_console (Warn text)).
Definition console_error (text : string) (e : Exn) : M unit :=
  modify (with_console (LogError text e)).

(** *** localStorage *)
Definition getItem (k : string) : M (option string) :=
  gets (fun w => slots (localStorage w) !! k).

Definition setItem (k v : string) : M unit :=
  fun w =>
    let s := localStorage w in
    let m := <[k:=v]> (slots s) in
    if (used m <=? quota s)%nat
    then (with_localStorage {| slots := m; quota := quota s |} w, Normal tt)
    else (w, Throw QuotaExceededError).

(** [if (saved)] on the result of [getItem]: [null] and the empty string
    are falsy. *)
Definition saved_truthy (saved : option string) : bool :=
  match saved with
  | Some s => negb (String.eqb s EmptyString)
  | None => false
  end.

(** *** document *)

(** An element is handled by its id; [None] is [null]. *)
Definition getElementById (i : string) : M (option string) :=
  gets (fun w => match document w !! i with Some _ => Some i | None => None end).

(** [if (el)] *)
Definition found (el : option string) : bool :=
  match el with Some _ => true | None => false end.

(** [el.innerHTML = markup] and [el.textContent = v]; on [null] the
    assignment throws. *)
Definition assign (el : option string) (what : string) (m : Markup) : M unit :=
  match el with
  | Some i => modify (fun w => with_document (<[i:=m]> (document w)) w)
  | None => throw (TypeError what)
  end.
Definition set_innerHTML (el : option string) (m : Markup) : M unit :=
  assign el "innerHTML" m.
Definition set_textContent (el : option string) (v : JsVal) : M unit :=
  assign el "textContent" (Text v).

(** [el.id = j] *)
Definition set_id (el : option string) (j : string) : M unit :=
  match el with
  | Some i =>
      modify (fun w =>
        match document w !! i with
        | Some m => with_document (<[j:=m]> (delete i (document w))) w
        | None => w
        end)
  | None => throw (TypeError "id")
  end.

(** *** fetch *)
Definition fetch (env : Env) (r : Request) : M Response.t :=
  fun w =>
    (with_request r w,
     match network env r with
     | Rejected => Throw NetworkError
     | Responded resp => Normal resp
     end).

(** [await response.json()] *)
Definition json (resp : Response.t) : M JsVal :=
  match Response.body resp with
  | Some v => ret v
  | None => throw SyntaxError
  end.

(** ** JSON text of the two stored slots

    [JSON.stringify] of the roster and of the counters, written out for
    these two shapes, and [JSON.parse] as the reader of that text.  The
    slots belong to the page's origin and only [saveStateToStorage] writes
    them, so the reader accepts the compact text the writer produces; on
    any other text it fails, which the handlers see as the [SyntaxError]
    of [JSON.parse]. *)

Module JSON.

Definition dquote : ascii := "034"%char.
Definition backslash : ascii := "092"%char.

Definition hex_digit (n : nat) : ascii :=
  nth n ["0"; "1"; "2"; "3"; "4"; "5"; "6"; "7";
         "8"; "9"; "a"; "b"; "c"; "d"; "e"; "f"]%char "0"%char.

Definition hex_value (c : ascii) : option nat :=
  let n := nat_of_ascii c in
  if (48 <=? n)%nat && (n <=? 57)%nat then Some (n - 48)%nat
  else if (97 <=? n)%nat && (n <=? 102)%nat then Some (n - 87)%nat
  else if (65 <=? n)%nat && (n <=? 70)%nat then Some (n - 55)%nat
  else None.

Definition two (a b : ascii) : string := String a (String b EmptyString).

(** QuoteJSONString, one character. *)
Definition escape_char (c : ascii) : string :=
  if Ascii.eqb c dquote then two backslash dquote
  else if Ascii.eqb c backslash then two backslash backslash
  else if Ascii.eqb c "008" then two backslash "b"
  else if Ascii.eqb c "012" then two backslash "f"
  else if Ascii.eqb c "010" then two backslash "n"
  else if Ascii.eqb c "013" then two backslash "r"
  else if Ascii.eqb c "009" then two backslash "t"
  else if (nat_of_ascii c <? 32)%nat then
    String backslash
      ("u00" +:+ two (hex_digit (nat_of_ascii c / 16)) (hex_digit (nat_of_ascii c mod 16)))
  else String c EmptyString.

Fixpoint escape (s : string) : string :=
  match s with
  | EmptyString => EmptyString
  | String c r => escape_char c +:+ escape r
  end.

Definition quote (s : string) : string :=
  String dquote (escape s +:+ String dquote EmptyString).

Definition print_int (z : Z) : string := NilZero.string_of_int (Z.to_int z).

(** The property name with its colon. *)
Definition key (k : string) : string :=
  String dquote (k +:+ String dquote ":").

Definition stringify_member (m : Member.t) : string :=
  "{" +:+ key "id" +:+ print_int (Member.id m) +:+
  "," +:+ key "name" +:+ quote (Member.name m) +:+
  "," +:+ key "role" +:+ quote (Member.role m) +:+
  "," +:+ key "joinedDate" +:+ quote (Member.joinedDate m) +:+ "}".

Fixpoint stringify_members (l : list Member.t) : string :=
  match l with
  | [] => EmptyString
  | [m] => stringify_member m
  | m :: rest => stringify_member m +:+ "," +:+ stringify_members rest
  end.

(** [JSON.stringify(AppState.crew)] *)
Definition stringify_crew (l : list Member.t) : string :=
  "[" +:+ stringify_members l +:+ "]".

(** [JSON.stringify(AppState.stats)] *)
Definition stringify_stats (s : Stats.t) : string :=
  "{" +:+ key "cleanups" +:+ print_int (Stats.cleanups s) +:+
  "," +:+ key "trash" +:+ print_int (Stats.trash s) +:+
  "," +:+ key "beaches" +:+ print_int (Stats.beaches s) +:+
  "," +:+ key "crewMembers" +:+ print_int (Stats.crewMembers s) +:+ "}".

(** *** Reading *)

(** Drop the literal [lit] from the front of [s]. *)
Fixpoint expect (lit s : string) : option string :=
  match lit with
  | EmptyString => Some s
  | String a lit' =>
      match s with
      | String b s' => if Ascii.eqb a b then expect lit' s' else None
      | EmptyString => None
      end
  end.

Definition is_num_char (c : ascii) : bool :=
  let n := nat_of_ascii c in
  Ascii.eqb c "-" || ((48 <=? n)%nat && (n <=? 57)%nat).

(** Every character of [s] belongs to an integer literal. *)
Fixpoint all_num (s : string) : bool :=
  match s with
  | EmptyString => true
  | String c r => is_num_char c && all_num r
  end.

Fixpoint span_num (s : string) : string * string :=
  match s with
  | EmptyString => (EmptyString, EmptyString)
  | String c r =>
      if is_num_char c
      then let (tok, rest) := span_num r in (String c tok, rest)
      else (EmptyString, s)
  end.

(** An integer literal in the writer's form (no sign on zero, no
    leading zeros). *)
Definition read_int (s : string) : option (Z * string) :=
  let (tok, rest) := span_num s in
  match NilZero.int_of_string tok with
  | Some d =>
      let z := Z.of_int d in
      if String.eqb (print_int z) tok then Some (z, rest) else None
  | None => None
  end.

Definition consed (c : ascii) (r : option (string * string)) : option (string * string) :=
  match r with
  | Some (body, rest) => Some (String c body, rest)
  | None => None
  end.

(** The characters of a string literal after its opening quote, up to
    and including the closing one. *)
Fixpoint read_chars (s : string) : option (string * string) :=
  match s with
  | EmptyString => None
  | String c r =>
      if Ascii.eqb c dquote then Some (EmptyString, r)
      else if Ascii.eqb c backslash then
        match r with
        | EmptyString => None
        | String e r1 =>
            if Ascii.eqb e dquote then consed dquote (read_chars r1)
            else if Ascii.eqb e backslash then consed backslash (read_chars r1)
            else if Ascii.eqb e "/" then consed "/" (read_chars r1)
            else if Ascii.eqb e "b" then consed "008" (read_chars r1)
            else if Ascii.eqb e "f" then consed "012" (read_chars r1)
            else if Ascii.eqb e "n" then consed "010" (read_chars r1)
            else if Ascii.eqb e "r" then consed "013" (read_chars r1)
            else if Ascii.eqb e "t" then consed "009" (read_chars r1)
            else if Ascii.eqb e "u" then
              match r1 with
              | String "0" (String "0" (String h (String l r2))) =>
                  match hex_value h, hex_value l with
                  | Some hv, Some lv =>
                      if (16 * hv + lv <? 128)%nat
                      then consed (ascii_of_nat (16 * hv + lv)) (read_chars r2)
                      else None
                  | _, _ => None
                  end
              | _ => None
              end
            else None
        end
      else if (nat_of_ascii c <? 32)%nat then None
      else consed c (read_chars r)
  end.

Definition read_string (s : string) : option (string * string) :=
  match s with
  | String c r => if Ascii.eqb c dquote then read_chars r else None
  | EmptyString => None
  end.

Definition obind {A B} (o : option A) (k : A -> option B) : option B :=
  match o with Some a => k a | None => None end.

Definition read_member (s : string) : option (Member.t * string) :=
  obind (expect ("{" +:+ key "id") s) (fun s =>
  obind (read_int s) (fun '(i, s) =>
  obind (expect ("," +:+ key "name") s) (fun s =>
  obind (read_string s) (fun '(n, s) =>
  obind (expect ("," +:+ key "role") s) (fun s =>
  obind (read_string s) (fun '(r, s) =>
  obind (expect ("," +:+ key "joinedDate") s) (fun s =>
  obind (read_string s) (fun '(j, s) =>
  obind (expect "}" s) (fun s =>
  Some (Member.Build i n r j, s)))))))))).

(** Members separated by commas, up to the closing bracket; [fuel]
    bounds the number of members. *)
Fixpoint read_members (fuel : nat) (s : string) : option (list Member.t * string) :=
  match fuel with
  | O => None
  | S fuel' =>
      obind (read_member s) (fun '(m, s) =>
      match s with
      | String c s' =>
          if Ascii.eqb c "," then
            obind (read_members fuel' s') (fun '(l, s) => Some (m :: l, s))
          else if Ascii.eqb c "]" then Some ([m], s')
          else None
      | EmptyString => None
      end)
  end.

Definition parse_crew (s : string) : option (list Member.t) :=
  match s with
  | String "[" (String "]" EmptyString) => Some []
  | String "[" r =>
      match read_members (String.length r) r with
      | Some (l, EmptyString) => Some l
      | _ => None
      end
  | _ => None
  end.

Definition parse_stats (s : string) : option Stats.t :=
  obind (expect ("{" +:+ key "cleanups") s) (fun s =>
  obind (read_int s) (fun '(c, s) =>
  obind (expect ("," +:+ key "trash") s) (fun s =>
  obind (read_int s) (fun '(t, s) =>
  obind (expect ("," +:+ key "beaches") s) (fun s =>
  obind (read_int s) (fun '(b, s) =>
  obind (expect ("," +:+ key "crewMembers") s) (fun s =>
  obind (read_int s) (fun '(m, s) =>
  match s with
  | String "}" EmptyString => Some (Stats.Build c t b m)
  | _ => None
  end)))))))).

(** [JSON.parse(text)] inside a handler. *)
Definition parse {A} (reader : string -> option A) (text : string) : M A :=
  match reader text with
  | Some a => ret a
  | None => throw SyntaxError
  end.

End JSON.

(** ** The text shared by the three revisions *)

Module Script.

(** [saveStateToStorage] *)
Definition saveStateToStorage : M unit :=
  try_catch
    (crew ← gets (fun w => AppState.crew (app w)) ;
     setItem AppConfig.crew (JSON.stringify_crew crew) ;;
     stats ← gets (fun w => AppState.stats (app w)) ;
     setItem AppConfig.stats (JSON.stringify_stats stats))
    (fun error => console_error "Error saving state to storage:" error).

(** [loadStateFromStorage] of app.js and part_001; under [if (saved)] the
    text is [saved] itself. *)
Definition loadStateFromStorage : M unit :=
  try_catch
    (savedCrew ← getItem AppConfig.crew ;
     savedStats ← getItem AppConfig.stats ;
     (if saved_truthy savedCrew then
        crew ← JSON.parse JSON.parse_crew (default EmptyString savedCrew) ;
        modify (with_app (AppState.with_crew crew))
      else ret tt) ;;
     (if saved_truthy savedStats then
        stats ← JSON.parse JSON.parse_stats (default EmptyString savedStats) ;
        modify (with_app (AppState.with_stats stats))
      else ret tt))
    (fun error => console_error "Error loading state from storage:" error).

(** [showNotification]: the notice put on the page (its styling and its
    removal after three seconds are not modelled). *)
Definition showNotification (message : string) : M unit :=
  modify (with_notification message).

(** [hideCrewForm]: hides and resets the entry form, whose class list
    and fields are outside [World]; both calls are guarded by [?.]. *)
Definition hideCrewForm : M unit := ret tt.

Definition crew_card (member : Member.t) : list JsVal :=
  [JStr (Member.name member); JStr (Member.role member);
   JStr (Member.joinedDate member);
   JNum (inject_Z (Member.id member)); JStr (Member.name member)].

(** [renderCrewGrid] *)
Definition renderCrewGrid : M unit :=
  crewGrid ← getElementById "crew-grid" ;
  match crewGrid with
  | None => ret tt
  | Some _ =>
      crew ← gets (fun w => AppState.crew (app w)) ;
      set_innerHTML crewGrid (Cards (map crew_card crew))
  end.

(** [updateStats] of app.js and part_001: four unguarded assignments. *)
Definition updateStats : M unit :=
  stats ← gets (fun w => AppState.stats (app w)) ;
  el ← getElementById "cleanups-count" ;
  set_textContent el (JNum (inject_Z (Stats.cleanups stats))) ;;
  el ← getElementById "trash-count" ;
  set_textContent el (JNum (inject_Z (Stats.trash stats))) ;;
  el ← getElementById "crew-count" ;
  set_textContent el (JNum (inject_Z (Stats.crewMembers stats))) ;;
  el ← getElementById "impact-count" ;
  set_textContent el (JNum (inject_Z (Stats.beaches stats))).

Section Handlers.

(** The revisions differ in [updateStats]. *)
Variable updateStats : M unit.

(** [handleCrewSubmit(e)]; [name] and [role] are the fields of the
    submitted form. *)
Definition handleCrewSubmit (env : Env) (name role : string) : M unit :=
  let crewMember :=
    Member.Build (Date_now env) name role (toLocaleDateString env (Date_now env)) in
  modify (with_app (fun a => AppState.with_crew (AppState.crew a ++ [crewMember])%list a)) ;;
  modify (with_app (fun a =>
    AppState.with_stats
      (Stats.with_crewMembers (Z.of_nat (length (AppState.crew a))) (AppState.stats a)) a)) ;;
  saveStateToStorage ;;
  renderCrewGrid ;;
  updateStats ;;
  hideCrewForm ;;
  showNotification ("✓ " +:+ name +:+ " added to squad!").

(** [removeCrewMember(id)] *)
Definition removeCrewMember (id : Z) : M unit :=
  modify (with_app (fun a =>
    AppState.with_crew
      (List.filter (fun member => negb (Z.eqb (Member.id member) id)) (AppState.crew a)) a)) ;;
  modify (with_app (fun a =>
    AppState.with_stats
      (Stats.with_crewMembers (Z.of_nat (length (AppState.crew a))) (AppState.stats a)) a)) ;;
  saveStateToStorage ;;
  renderCrewGrid ;;
  updateStats ;;
  showNotification "✓ Crew member removed".

(** [handleScheduleCleanup] *)
Definition handleScheduleCleanup (env : Env) : M unit :=
  let randomItems := (Qfloor (Math_random env * 50) + 20)%Z in
  modify (with_app (fun a =>
    let s := AppState.stats a in
    AppState.with_stats
      (Stats.Build (Stats.cleanups s + 1) (Stats.trash s) (Stats.beaches s)
                   (Stats.crewMembers s)) a)) ;;
  modify (with_app (fun a =>
    let s := AppState.stats a in
    AppState.with_stats
      (Stats.Build (Stats.cleanups s) (Stats.trash s + randomItems) (Stats.beaches s)
                   (Stats.crewMembers s)) a)) ;;
  modify (with_app (fun a =>
    let s := AppState.stats a in
    AppState.with_stats
      (Stats.Build (Stats.cleanups s) (Stats.trash s) (Z.min (Stats.cleanups s) 5)
                   (Stats.crewMembers s)) a)) ;;
  saveStateToStorage ;;
  updateStats ;;
  showNotification
    ("✓ Cleanup scheduled! Expected to remove ~" +:+ JSON.print_int randomItems +:+ " items 🌊").

End Handlers.

(** [getDateString(daysOffset)]: the date part of the ISO text. *)
Fixpoint before_T (s : string) : string :=
  match s with
  | EmptyString => EmptyString
  | String c r => if Ascii.eqb c "T" then EmptyString else String c (before_T r)
  end.

Definition getDateString (env : Env) (daysOffset : Z) : string :=
  before_T (toISOString env (addDays env (Date_now env) daysOffset)).

(** [formatDateForDisplay(dateString)] *)
Definition formatDateForDisplay (env : Env) (dateString : JsVal) : JsVal :=
  JStr (formatDate env dateString).

Definition num (z : Z) : JsVal := JNum (inject_Z z).

Definition band (low high : Z) : JsVal :=
  JObj [("low", num low); ("high", num high)].

(** [forecasts.map((day, index) => card)]: the callback runs on the
    elements in order and the first throw ends the loop. *)
Fixpoint map_indexed {A} (f : JsVal -> nat -> Completion A)
         (l : list JsVal) (index : nat) : Completion (list A) :=
  match l with
  | [] => Normal []
  | day :: rest =>
      cbind (f day index) (fun card =>
      cbind (map_indexed f rest (S index)) (fun cards => Normal (card :: cards)))
  end.

Definition array_map {A} (f : JsVal -> nat -> Completion A) (v : JsVal)
  : Completion (list A) :=
  match v with
  | JArr l => map_indexed f l 0
  | _ => Throw (TypeError "map")
  end.

End Script.

(** ** src/js/app.js: weather from Open-Meteo *)

Module OpenMeteo.

Definition loadStateFromStorage : M unit := Script.loadStateFromStorage.
Definition updateStats : M unit := Script.updateStats.
Definition handleCrewSubmit := Script.handleCrewSubmit updateStats.
Definition removeCrewMember := Script.removeCrewMember updateStats.
Definition handleScheduleCleanup := Script.handleScheduleCleanup updateStats.

(** [getMockWeatherData] *)
Definition getMockWeatherData : JsVal :=
  JObj [("current",
         JObj [("temperature_2m", Script.num 22);
               ("weather_code", Script.num 80);
               ("wind_speed_10m", Script.num 12)])].

(** [updateWeatherUI(weatherData)] *)
Definition updateWeatherUI (weatherData : JsVal) : M unit :=
  current ← lift (member weatherData "current") ;
  currentWeatherEl ← getElementById "current-weather" ;
  match currentWeatherEl with
  | Some _ =>
      code ← lift (member current "weather_code") ;
      let emoji := getWeatherEmoji code in
      temperature ← lift (member current "temperature_2m") ;
      wind ← lift (member current "wind_speed_10m") ;
      set_innerHTML currentWeatherEl (Template [JStr emoji; temperature; wind])
  | None => ret tt
  end ;;
  oceanConditionsEl ← getElementById "ocean-conditions" ;
  match oceanConditionsEl with
  | Some _ => set_innerHTML oceanConditionsEl (Template [])
  | None => ret tt
  end ;;
  bestTimeEl ← getElementById "best-time" ;
  match bestTimeEl with
  | Some _ => set_innerHTML bestTimeEl (Template [])
  | None => ret tt
  end.

(** [fetchWeatherData]: no test of [response.ok] in this revision. *)
Definition fetchWeatherData (env : Env) : M unit :=
  userLocation ← gets (fun w => AppState.userLocation (app w)) ;
  match userLocation with
  | None => ret tt
  | Some loc =>
      try_catch
        (let url := {| endpoint := AppConfig.weatherApiBase;
                       query := [JNum (Location.lat loc); JNum (Location.lng loc)] |} in
         response ← fetch env url ;
         data ← json response ;
         updateWeatherUI data)
        (fun error =>
           console_error "Weather API error:" error ;;
           updateWeatherUI getMockWeatherData)
  end.

End OpenMeteo.

(** ** src/unnamed/part_000: the NEA 24-hour forecast *)

Module Nea24h.

Import Script.

(** [loadStateFromStorage]: seeds the counters with the demonstration
    snapshot when none is stored or reading fails. *)
Definition loadStateFromStorage : M unit :=
  try_catch
    (savedCrew ← getItem AppConfig.crew ;
     savedStats ← getItem AppConfig.stats ;
     (if saved_truthy savedCrew then
        crew ← JSON.parse JSON.parse_crew (default EmptyString savedCrew) ;
        modify (with_app (AppState.with_crew crew))
      else ret tt) ;;
     (if saved_truthy savedStats then
        stats ← JSON.parse JSON.parse_stats (default EmptyString savedStats) ;
        modify (with_app (AppState.with_stats stats))
      else modify (with_app (AppState.with_stats AppConfig.mockStats))))
    (fun error =>
       console_error "Error loading state from storage:" error ;;
       modify (with_app (AppState.with_stats AppConfig.mockStats))).

(** The first step of the counting animation: [currentValue] starts at
    0 and grows by [targetValue / (1000 / 16)], that is [targetValue / 62.5],
    per frame; a frame writes [targetValue] once [currentValue] has
    reached it, which the first one does for a target of zero or less,
    and [Math.floor(currentValue)] before. *)
Definition first_frame (targetValue : Z) : Z :=
  if (targetValue <=? 0)%Z then targetValue else (2 * targetValue / 125)%Z.

(** [animateCounter]: guarded by [if (!element) return]; [animate()] is
    called once before the function returns, and the content recorded
    here is what that call writes.  The frames that follow are run by the
    browser after the handler has returned, each writing the next step of
    its own animation; the world does not hold them, and nothing below
    speaks of what the counters of this revision show. *)
Definition animateCounter (elementId : string) (targetValue : Z) : M unit :=
  element ← getElementById elementId ;
  match element with
  | None => ret tt
  | Some _ => set_textContent element (num (first_frame targetValue))
  end.

Definition updateStats : M unit :=
  stats ← gets (fun w => AppState.stats (app w)) ;
  animateCounter "cleanups-count" (Stats.cleanups stats) ;;
  animateCounter "trash-count" (Stats.trash stats) ;;
  animateCounter "crew-count" (Stats.crewMembers stats) ;;
  animateCounter "impact-count" (Stats.beaches stats).

Definition handleCrewSubmit := Script.handleCrewSubmit updateStats.
Definition removeCrewMember := Script.removeCrewMember updateStats.
Definition handleScheduleCleanup := Script.handleScheduleCleanup updateStats.

Definition day_ms : Z := 24 * 60 * 60 * 1000.

(** [getMockWeatherData] *)
Definition getMockWeatherData (env : Env) : JsVal :=
  JObj [("items", JArr [JObj [
           ("update_timestamp", JStr (toISOString env (Date_now env)));
           ("valid_period", JObj [
              ("start", JStr (toISOString env (Date_now env)));
              ("end", JStr (toISOString env (Date_now env + day_ms)))]);
           ("general", JObj [
              ("forecast", JStr "Partly cloudy");
              ("relative_humidity", band 60 85);
              ("temperature", band 22 28);
              ("wind", JObj [("speed", band 8 15); ("direction", JStr "NE")])])]]);
        ("api_info", JObj [("status", JStr "healthy")])].

Definition mock_day (env : Env) (offset : Z) (text : string) (humidity temperature : JsVal)
  : JsVal :=
  JObj [("date", JStr (getDateString env offset)); ("forecast", JStr text);
        ("relative_humidity", humidity); ("temperature", temperature)].

(** [getMock4DayForecast] *)
Definition getMock4DayForecast (env : Env) : JsVal :=
  JObj [("items", JArr [JObj [
           ("valid_period", JObj [
              ("start", JStr (toISOString env (Date_now env)));
              ("end", JStr (toISOString env (Date_now env + 4 * day_ms)))]);
           ("forecasts", JArr [
              mock_day env 0 "Partly cloudy" (band 60 85) (band 22 28);
              mock_day env 1 "Thundery showers" (band 70 90) (band 21 26);
              mock_day env 2 "Cloudy" (band 65 85) (band 23 27);
              mock_day env 3 "Partly cloudy" (band 60 80) (band 22 28)])]])].

(** The label of the first card (its tags left out). *)
Definition bestLabel (index : nat) : JsVal :=
  JStr (if (index =? 0)%nat then "✅ Best for cleanup!" else EmptyString).

(** The callback of [forecasts.map] in [renderForecastGrid]. *)
Definition forecast_card (env : Env) (day : JsVal) (index : nat) : Completion (list JsVal) :=
  cbind (member day "forecast") (fun forecast =>
  cbind (getForecastEmoji forecast) (fun emoji =>
  cbind (member day "date") (fun date =>
  cbind (or_else (opt_path [Dot "temperature"; Dot "low"] day) (num 22)) (fun tlow =>
  cbind (or_else (opt_path [Dot "temperature"; Dot "high"] day) (num 28)) (fun thigh =>
  cbind (or_else (opt_path [Dot "relative_humidity"; Dot "low"] day) (num 60)) (fun hlow =>
  cbind (or_else (opt_path [Dot "relative_humidity"; Dot "high"] day) (num 85)) (fun hhigh =>
  Normal [formatDateForDisplay env date; JStr emoji; forecast;
          tlow; thigh; hlow; hhigh; bestLabel index]))))))).

(** [renderForecastGrid(forecastData)] *)
Definition renderForecastGrid (env : Env) (forecastData : JsVal) : M unit :=
  weatherGrid ← getElementById "weather-grid" ;
  probe ← lift (opt_path [Dot "items"; Zero; Dot "forecasts"] forecastData) ;
  if negb (found weatherGrid) || negb (truthy probe) then
    console_warn "Cannot render forecast - missing data"
  else
    forecasts ← lift (path [Dot "items"; Zero; Dot "forecasts"] forecastData) ;
    forecastHTML ← lift (array_map (forecast_card env) forecasts) ;
    set_innerHTML weatherGrid (Cards forecastHTML) ;;
    console_log "✓ Forecast grid rendered".

(** [updateWeatherUI(weatherData)] *)
Definition updateWeatherUI (env : Env) (weatherData : JsVal) : M unit :=
  probe ← lift (opt_path [Dot "items"; Zero] weatherData) ;
  if negb (truthy probe) then console_warn "No weather data available"
  else
    item ← lift (path [Dot "items"; Zero] weatherData) ;
    general ← lift (or_else (member item "general") (JObj [])) ;
    currentWeatherEl ← getElementById "current-weather" ;
    match currentWeatherEl with
    | Some _ =>
        temp ← lift (or_else (member general "temperature") (JObj [])) ;
        tempHigh ← lift (or_else (member temp "high") (num 28)) ;
        humidity ← lift (or_else (member general "relative_humidity") (JObj [])) ;
        forecast ← lift (or_else (member general "forecast") (JStr "Partly cloudy")) ;
        emoji ← lift (getForecastEmoji forecast) ;
        hlow ← lift (or_else (member humidity "low") (num 60)) ;
        hhigh ← lift (or_else (member humidity "high") (num 85)) ;
        wlow ← lift (or_else (cbind (member general "wind")
                                (opt_path [Dot "speed"; Dot "low"])) (num 8)) ;
        whigh ← lift (or_else (cbind (member general "wind")
                                 (opt_path [Dot "speed"; Dot "high"])) (num 15)) ;
        wdir ← lift (or_else (cbind (member general "wind")
                                (opt_path [Dot "direction"])) (JStr "NE")) ;
        set_innerHTML currentWeatherEl
          (Template [JStr emoji; tempHigh; hlow; hhigh; wlow; whigh; wdir])
    | None => ret tt
    end ;;
    oceanConditionsEl ← getElementById "ocean-conditions" ;
    match oceanConditionsEl with
    | Some _ =>
        forecast ← lift (or_else (member general "forecast") (JStr "Partly cloudy")) ;
        humidity ← lift (or_else (member general "relative_humidity") (JObj [])) ;
        hlow ← lift (or_else (member humidity "low") (num 60)) ;
        hhigh ← lift (or_else (member humidity "high") (num 85)) ;
        tlow ← lift (or_else (cbind (member general "temperature")
                                (opt_path [Dot "low"])) (num 22)) ;
        thigh ← lift (or_else (cbind (member general "temperature")
                                 (opt_path [Dot "high"])) (num 28)) ;
        set_innerHTML oceanConditionsEl (Template [forecast; hlow; hhigh; tlow; thigh])
    | None => ret tt
    end ;;
    renderForecastGrid env (getMock4DayForecast env).

(** [fetchWeatherData] *)
Definition fetchWeatherData (env : Env) : M unit :=
  try_catch
    (console_log "🌦️ Fetching weather from NEA 24-Hour API..." ;;
     response ← fetch env {| endpoint := AppConfig.nea24HourWeather; query := [] |} ;
     (if negb (Response.ok response) then
        throw (Error ("API returned status " +:+ JSON.print_int (Response.status response)))
      else ret tt) ;;
     data ← json response ;
     console_log "✓ Weather data received:" ;;
     modify (with_app (AppState.with_weather data)) ;;
     updateWeatherUI env data)
    (fun error =>
       console_error "❌ NEA Weather API error:" error ;;
       console_log "📋 Using mock weather data..." ;;
       let mockData := getMockWeatherData env in
       modify (with_app (AppState.with_weather mockData)) ;;
       updateWeatherUI env mockData).

End Nea24h.

(** ** src/unnamed/part_001: NEA 4-day forecast and station readings *)

Module NeaPair.

Import Script.

Definition loadStateFromStorage : M unit := Script.loadStateFromStorage.
Definition updateStats : M unit := Script.updateStats.
Definition handleCrewSubmit := Script.handleCrewSubmit updateStats.
Definition removeCrewMember := Script.removeCrewMember updateStats.
Definition handleScheduleCleanup := Script.handleScheduleCleanup updateStats.

Definition mock_day (env : Env) (offset : Z) (text : string) (humidity : JsVal) : JsVal :=
  JObj [("date", JStr (getDateString env offset)); ("forecast", JStr text);
        ("relative_humidity", humidity)].

(** [getMockForecastData] *)
Definition getMockForecastData (env : Env) : JsVal :=
  JObj [("items", JArr [JObj [
           ("valid_period", JObj [
              ("start", JStr (toISOString env (Date_now env)));
              ("end", JStr (toISOString env (Date_now env + 4 * (24 * 60 * 60 * 1000))))]);
           ("forecasts", JArr [
              mock_day env 0 "Partly cloudy" (band 60 80);
              mock_day env 1 "Thundery showers" (band 70 90);
              mock_day env 2 "Cloudy" (band 65 85);
              mock_day env 3 "Partly cloudy" (band 60 80)])]])].

(** [getMockReadingsData] *)
Definition getMockReadingsData : JsVal :=
  JObj [("items", JArr [JObj [
           ("metadata", JObj [
              ("stations", JArr [JObj [
                 ("id", JStr "S1"); ("name", JStr "Pasir Ris");
                 ("location", JObj [("lat", JNum (13815 # 10000));
                                    ("lon", JNum (1039556 # 10000))])]])]);
           ("readings", JArr [JObj [("station_id", JStr "S1"); ("value", num 24)]])]])].

(** The label of the first card (its tags left out). *)
Definition bestLabel (index : nat) : JsVal :=
  JStr (if (index =? 0)%nat then "✅ Best for cleanup!" else EmptyString).

(** The callback of [forecasts.map] in [renderForecastGrid]. *)
Definition forecast_card (env : Env) (day : JsVal) (index : nat) : Completion (list JsVal) :=
  cbind (member day "date") (fun date =>
  cbind (member day "forecast") (fun forecast =>
  cbind (getForecastEmoji forecast) (fun emoji =>
  cbind (or_else (opt_path [Dot "relative_humidity"; Dot "low"] day) (num 65)) (fun hlow =>
  cbind (or_else (opt_path [Dot "relative_humidity"; Dot "high"] day) (num 85)) (fun hhigh =>
  Normal [formatDateForDisplay env date; JStr emoji; forecast; hlow; hhigh;
          bestLabel index]))))).

(** [renderForecastGrid(forecastData)] *)
Definition renderForecastGrid (env : Env) (forecastData : JsVal) : M unit :=
  weatherGrid ← getElementById "weather-grid" ;
  probe ← lift (opt_path [Dot "items"; Zero; Dot "forecasts"] forecastData) ;
  if negb (found weatherGrid) || negb (truthy probe) then ret tt
  else
    forecasts ← lift (path [Dot "items"; Zero; Dot "forecasts"] forecastData) ;
    forecastHTML ← lift (array_map (forecast_card env) forecasts) ;
    set_innerHTML weatherGrid (Cards forecastHTML).

(** [updateWeatherUI(forecastData, readingsData)] *)
Definition updateWeatherUI (env : Env) (forecastData readingsData : JsVal) : M unit :=
  currentWeatherEl ← getElementById "current-weather" ;
  reading ← lift (opt_path [Dot "items"; Zero; Dot "readings"; Zero] readingsData) ;
  (if found currentWeatherEl && truthy reading then
     temp ← lift (path [Dot "items"; Zero; Dot "readings"; Zero; Dot "value"] readingsData) ;
     humidity ← lift (or_else
       (opt_path [Dot "items"; Zero; Dot "forecasts"; Zero;
                  Dot "relative_humidity"; Dot "high"] forecastData) (num 75)) ;
     set_innerHTML currentWeatherEl (Template [temp; humidity])
   else ret tt) ;;
  oceanConditionsEl ← getElementById "ocean-conditions" ;
  today ← lift (opt_path [Dot "items"; Zero; Dot "forecasts"; Zero] forecastData) ;
  (if found oceanConditionsEl && truthy today then
     forecast ← lift (path [Dot "items"; Zero; Dot "forecasts"; Zero] forecastData) ;
     humidity ← lift (member forecast "relative_humidity") ;
     text ← lift (member forecast "forecast") ;
     hlow ← lift (or_else (opt_path [Dot "low"] humidity) (num 70)) ;
     hhigh ← lift (or_else (opt_path [Dot "high"] humidity) (num 85)) ;
     set_innerHTML oceanConditionsEl (Template [text; hlow; hhigh])
   else ret tt) ;;
  bestTimeEl ← getElementById "best-time" ;
  match bestTimeEl with
  | Some _ =>
      set_innerHTML bestTimeEl (Template []) ;;
      set_id bestTimeEl "forecast-container" ;;
      renderForecastGrid env forecastData
  | None => ret tt
  end.

(** [fetchWeatherData]: the forecast, then the readings, then one
    render of both; no test of [response.ok]. *)
Definition fetchWeatherData (env : Env) : M unit :=
  try_catch
    (forecastResponse ← fetch env {| endpoint := AppConfig.neaWeather4Day; query := [] |} ;
     forecastData ← json forecastResponse ;
     readingsResponse ← fetch env {| endpoint := AppConfig.neaWeatherReadings; query := [] |} ;
     readingsData ← json readingsResponse ;
     updateWeatherUI env forecastData readingsData)
    (fun error =>
       console_error "NEA Weather API error:" error ;;
       updateWeatherUI env (getMockForecastData env) getMockReadingsData).

End NeaPair.

(** ** The three revisions side by side *)

Inductive Revision : Type := AppJs | Part000 | Part001.

Definition updateStats_in (r : Revision) : M unit :=
  match r with
  | AppJs => OpenMeteo.updateStats
  | Part000 => Nea24h.updateStats
  | Part001 => NeaPair.updateStats
  end.

Definition loadStateFromStorage_in (r : Revision) : M unit :=
  match r with
  | AppJs => OpenMeteo.loadStateFromStorage
  | Part000 => Nea24h.loadStateFromStorage
  | Part001 => NeaPair.loadStateFromStorage
  end.

Definition handleCrewSubmit_in (r : Revision) := Script.handleCrewSubmit (updateStats_in r).
Definition removeCrewMember_in (r : Revision) := Script.removeCrewMember (updateStats_in r).
Definition handleScheduleCleanup_in (r : Revision) :=
  Script.handleScheduleCleanup (updateStats_in r).

(** A crew mutation: a submitted form or a click on a card's button. *)
Inductive CrewOp : Type :=
| Add (env : Env) (name role : string)
| Remove (id : Z).

Definition crew_op (r : Revision) (op : CrewOp) : M unit :=
  match op with
  | Add env name role => handleCrewSubmit_in r env name role
  | Remove id => removeCrewMember_in r id
  end.

(** The worlds reached after each operation of a sequence, in order. *)
Fixpoint states_after (r : Revision) (ops : list CrewOp) (w : World) : list World :=
  match ops with
  | [] => []
  | op :: rest => let w' := run (crew_op r op) w in w' :: states_after r rest w'
  end.

Definition crew_of (w : World) : list Member.t := AppState.crew (app w).
Definition stats_of (w : World) : Stats.t := AppState.stats (app w).

(** [stats.crewMembers] is the length of the crew list. *)
Definition crew_counted (w : World) : Prop :=
  Stats.crewMembers (stats_of w) = Z.of_nat (length (crew_of w)).

(** [stats.beaches == min(stats.cleanups, 5)] *)
Definition beaches_capped (w : World) : Prop :=
  Stats.beaches (stats_of w) = Z.min (Stats.cleanups (stats_of w)) 5.

(** The store takes the roster text of [w], and then its counters text. *)
Definition crew_fits (w : World) : Prop :=
  (used (<[AppConfig.crew := JSON.stringify_crew (crew_of w)]> (slots (localStorage w)))
   <= quota (localStorage w))%nat.

Definition stats_fits (w : World) : Prop :=
  (used (<[AppConfig.stats := JSON.stringify_stats (stats_of w)]>
           (<[AppConfig.crew := JSON.stringify_crew (crew_of w)]> (slots (localStorage w))))
   <= quota (localStorage w))%nat.

(** The four counters [updateStats] writes to are on the page. *)
Definition counters_on_page (w : World) : Prop :=
  is_Some (document w !! "cleanups-count") /\ is_Some (document w !! "trash-count") /\
  is_Some (document w !! "crew-count") /\ is_Some (document w !! "impact-count").

(** The same surroundings with the network down. *)
Definition unreachable (env : Env) : Env :=
  {| Date_now := Date_now env; toISOString := toISOString env;
     toLocaleDateString := toLocaleDateString env; addDays := addDays env;
     formatDate := formatDate env; Math_random := Math_random env;
     network := fun _ => Rejected |}.

(** ** The mock forecast as the page shows it *)

(** [k] shows [m] if the page has an element [k]. *)
Definition draw (k : string) (m : Markup) (d : gmap string Markup) : gmap string Markup :=
  match d !! k with
  | Some _ => <[k:=m]> d
  | None => d
  end.

Definition cards_of (c : Completion (list (list JsVal))) : list (list JsVal) :=
  match c with Normal cards => cards | Throw _ => [] end.

Module MockView.

(** part_000: the 24-hour mock in the two panels, the 4-day mock in the
    grid. *)
Definition nea24h_current : Markup :=
  Template [JStr Glyph.cloud; Script.num 28; Script.num 60; Script.num 85;
            Script.num 8; Script.num 15; JStr "NE"].
Definition nea24h_ocean : Markup :=
  Template [JStr "Partly cloudy"; Script.num 60; Script.num 85;
            Script.num 22; Script.num 28].
Definition nea24h_cards (env : Env) : Markup :=
  Cards (cards_of
    (cbind (path [Dot "items"; Zero; Dot "forecasts"] (Nea24h.getMock4DayForecast env))
           (Script.array_map (Nea24h.forecast_card env)))).
Definition nea24h (env : Env) (d : gmap string Markup) : gmap string Markup :=
  draw "weather-grid" (nea24h_cards env)
    (draw "ocean-conditions" nea24h_ocean (draw "current-weather" nea24h_current d)).

(** part_001: the mock reading with the mock humidity, the first mock
    day, and the mock days in the grid. *)
Definition neapair_current : Markup := Template [Script.num 24; Script.num 80].
Definition neapair_ocean : Markup :=
  Template [JStr "Partly cloudy"; Script.num 60; Script.num 80].
Definition neapair_cards (env : Env) : Markup :=
  Cards (cards_of
    (cbind (path [Dot "items"; Zero; Dot "forecasts"] (NeaPair.getMockForecastData env))
           (Script.array_map (NeaPair.forecast_card env)))).
(** The grid is drawn from inside the [best-time] panel, which the
    first render renames. *)
Definition neapair_grid (env : Env) (d : gmap string Markup) : gmap string Markup :=
  match d !! "best-time" with
  | Some _ =>
      draw "weather-grid" (neapair_cards env)
        (<["forecast-container" := Template []]> (delete "best-time" d))
  | None => d
  end.
Definition neapair (env : Env) (d : gmap string Markup) : gmap string Markup :=
  neapair_grid env
    (draw "ocean-conditions" neapair_ocean (draw "current-weather" neapair_current d)).

(** The world the mock render of part_000 leaves. *)
Definition nea24h_world (env : Env) (w : World) : World :=
  with_console
    (match document w !! "weather-grid" with
     | Some _ => Log "✓ Forecast grid rendered"
     | None => Warn "Cannot render forecast - missing data"
     end)
    (with_document (nea24h env (document w)) w).

End MockView.

(** ** Notions used in the statements *)

(** A handler that leaves one part of the world as it found it. *)
Definition keeps {A P} (part : World -> P) (c : M A) : Prop :=
  forall w, part (run c w) = part w.

(** A handler that cannot throw. *)
Definition total {A} (c : M A) : Prop :=
  forall w, threw (outcome c w) = false.

(** The members that do not carry [id]. *)
Definition others (id : Z) (crew : list Member.t) : list Member.t :=
  List.filter (fun member => negb (Z.eqb (Member.id member) id)) crew.

(** What the stored counters do to the state once the roster is read. *)
Definition stats_step (seed : bool) (savedStats : option string) : M unit :=
  if saved_truthy savedStats then
    stats ← JSON.parse JSON.parse_stats (default EmptyString savedStats) ;
    modify (with_app (AppState.with_stats stats))
  else if seed then modify (with_app (AppState.with_stats AppConfig.mockStats))
  else ret tt.

Definition load_handler (seed : bool) (error : Exn) : M unit :=
  if seed then
    console_error "Error loading state from storage:" error ;;
    modify (with_app (AppState.with_stats AppConfig.mockStats))
  else console_error "Error loading state from storage:" error.

Definition seeds (r : Revision) : bool :=
  match r with Part000 => true | _ => false end.

(** The world part_000 is left in after a failed request. *)
Definition nea24h_after_failure (env : Env) (e : Exn) (w : World) : World :=
  MockView.nea24h_world env
    (with_app (AppState.with_weather (Nea24h.getMockWeatherData env))
       (with_console (Log "📋 Using mock weather data...")
          (with_console (LogError "❌ NEA Weather API error:" e)
             (with_request {| endpoint := AppConfig.nea24HourWeather; query := [] |}
                (with_console (Log "🌦️ Fetching weather from NEA 24-Hour API...") w))))).

(** A handler that moves the world along a relation, always or when it
    throws. *)
Definition steps {A} (R : World -> World -> Prop) (c : M A) : Prop :=
  forall w, R w (run c w).

Definition steps_if_thrown {A} (R : World -> World -> Prop) (c : M A) : Prop :=
  forall w, threw (outcome c w) = true -> R w (run c w).

(** The element [k] is not taken off the page. *)
Definition element_stays (k : string) (w w1 : World) : Prop :=
  is_Some (document w !! k) -> is_Some (document w1 !! k).

(** The element [k] shows what it showed. *)
Definition shows_same (k : string) (w w1 : World) : Prop :=
  document w1 !! k = document w !! k.

(** No request was issued. *)
Definition same_requests (w w1 : World) : Prop := requests w1 = requests w.

(** The two requests of part_001 and what came back for each: the parsed
    body, or nothing when the request was rejected or the body is not
    JSON. *)
Definition forecast_request : Request :=
  {| endpoint := AppConfig.neaWeather4Day; query := [] |}.
Definition readings_request : Request :=
  {| endpoint := AppConfig.neaWeatherReadings; query := [] |}.
Definition received (env : Env) (r : Request) : option JsVal :=
  match network env r with
  | Responded resp => Response.body resp
  | Rejected => None
  end.

(** Each weather element shows its part of the mock view or what it
    showed before. *)
Definition mock_or_untouched (env : Env) (before after : gmap string Markup) : Prop :=
  (after !! "current-weather" = Some MockView.neapair_current
   \/ after !! "current-weather" = before !! "current-weather")
  /\ (after !! "ocean-conditions" = Some MockView.neapair_ocean
      \/ after !! "ocean-conditions" = before !! "ocean-conditions")
  /\ (after !! "weather-grid" = Some (MockView.neapair_cards env)
      \/ after !! "weather-grid" = before !! "weather-grid").

(** The value found along a chain of optional accesses. *)
Definition field (steps : list Step) (v : JsVal) : JsVal :=
  match opt_path steps v with
  | Normal x => x
  | Throw _ => JUndefined
  end.

(** What the page shows for one field: the value itself when it is
    truthy, the default of that field otherwise. *)
Definition per_field (value default shown : JsVal) : Prop :=
  (truthy value = true /\ shown = value) \/ (truthy value = false /\ shown = default).


(** The glyph [getForecastEmoji] gives to a text. *)
Definition glyph_of (text : string) : string :=
  match getForecastEmoji (JStr text) with
  | Normal glyph => glyph
  | Throw _ => Glyph.generic
  end.

(** ** Concrete pages, stores and environments *)

Module Sample.

(** The elements the handlers look up, as the page ships them. *)
Definition page : gmap string Markup :=
  list_to_map
    [("crew-grid", Shipped); ("cleanups-count", Shipped); ("trash-count", Shipped);
     ("crew-count", Shipped); ("impact-count", Shipped); ("current-weather", Shipped);
     ("ocean-conditions", Shipped); ("best-time", Shipped); ("weather-grid", Shipped)].

(** A first visit: nothing stored yet. *)
Definition first_visit : World :=
  {| app := AppState.initial;
     localStorage := {| slots := ∅; quota := 4096 |};
     document := page; console := []; notifications := []; requests := [] |}.

Definition ann : Member.t := Member.Build 1700000000000 "Ann" "Lead" "11/1/2026".
Definition bob : Member.t := Member.Build 1700000000001 "Bob" "Diver" "11/1/2026".

(** A session with two members on the roster. *)
Definition two_members : World :=
  {| app := AppState.Build [ann; bob] (Stats.Build 3 120 3 2) None JNull;
     localStorage := {| slots := ∅; quota := 4096 |};
     document := page; console := []; notifications := []; requests := [] |}.

Definition env (net : Request -> FetchOutcome) : Env :=
  {| Date_now := 1793491200000;
     toISOString := fun _ => "2026-11-01T08:00:00.000Z";
     toLocaleDateString := fun _ => "11/1/2026";
     addDays := fun t d => (t + d * 86400000)%Z;
     formatDate := fun _ => "Sun, 1 Nov";
     Math_random := 1 # 2;
     network := net |}.

Definition offline : Env := env (fun _ => Rejected).

(** The visitor has shared a position (Singapore). *)
Definition located : World :=
  {| app := AppState.Build [] (Stats.Build 0 0 0 0)
              (Some (Location.Build (135 # 100) (1038 # 10) 20)) JNull;
     localStorage := {| slots := ∅; quota := 4096 |};
     document := page; console := []; notifications := []; requests := [] |}.

(** The endpoint answers 500 and the body is JSON with readings in it. *)
Definition readings_500 : JsVal :=
  JObj [("current",
         JObj [("temperature_2m", Script.num 30);
               ("weather_code", Script.num 0);
               ("wind_speed_10m", Script.num 5)])].

Definition http_500 (body : option JsVal) : Env :=
  env (fun _ => Responded (Response.Build false 500 body)).

(** The endpoint answers 500 with a JSON error report. *)
Definition error_report : JsVal :=
  JObj [("message", JStr "Internal Server Error")].


(** A 24-hour forecast that lacks the humidity band only. *)
Definition no_humidity : JsVal :=
  JObj [("items", JArr [JObj [
    ("general", JObj [
       ("forecast", JStr "Thundery showers");
       ("temperature", Script.band 24 31);
       ("wind", JObj [("speed", Script.band 10 20); ("direction", JStr "SW")])])]])].

End Sample.

(** ** The visitor's actions that end in a save *)

(** A submitted form, a click on a card's button, or a click on
    "schedule cleanup". *)
Inductive Action : Type :=
| Crew (op : CrewOp)
| Schedule (env : Env).

Definition act (r : Revision) (a : Action) : M unit :=
  match a with
  | Crew op => crew_op r op
  | Schedule env => handleScheduleCleanup_in r env
  end.

(** [Math.floor(Math.random() * 50) + 20] *)
Definition randomItems (env : Env) : Z := (Qfloor (Math_random env * 50) + 20)%Z.

(** The assignments to [AppState] each handler opens with. *)
Definition change (a : Action) (s : AppState.t) : AppState.t :=
  let recount (a : AppState.t) :=
    AppState.with_stats
      (Stats.with_crewMembers (Z.of_nat (length (AppState.crew a))) (AppState.stats a)) a in
  match a with
  | Crew (Add env name role) =>
      let crewMember :=
        Member.Build (Date_now env) name role (toLocaleDateString env (Date_now env)) in
      recount (AppState.with_crew (AppState.crew s ++ [crewMember])%list s)
  | Crew (Remove id) =>
      recount
        (AppState.with_crew
           (List.filter (fun member => negb (Z.eqb (Member.id member) id)) (AppState.crew s)) s)
  | Schedule env =>
      let st := AppState.stats s in
      AppState.with_stats
        (Stats.Build (Stats.cleanups st + 1) (Stats.trash st + randomItems env)
                     (Z.min (Stats.cleanups st + 1) 5) (Stats.crewMembers st)) s
  end.

(** What each handler does after [saveStateToStorage]. *)
Definition finish (r : Revision) (a : Action) : M unit :=
  match a with
  | Crew (Add env name role) =>
      Script.renderCrewGrid ;;
      updateStats_in r ;;
      Script.hideCrewForm ;;
      Script.showNotification ("✓ " +:+ name +:+ " added to squad!")
  | Crew (Remove id) =>
      Script.renderCrewGrid ;;
      updateStats_in r ;;
      Script.showNotification "✓ Crew member removed"
  | Schedule env =>
      updateStats_in r ;;
      Script.showNotification
        ("✓ Cleanup scheduled! Expected to remove ~" +:+ JSON.print_int (randomItems env)
         +:+ " items 🌊")
  end.

(** The store of [w] has room for the texts of the state [s]. *)
Definition store_takes (w : World) (s : AppState.t) : Prop :=
  crew_fits (with_app (fun _ => s) w) /\ stats_fits (with_app (fun _ => s) w).

(** The line [saveStateToStorage] logs when a write is refused. *)
Definition save_refused : LogLine :=
  LogError "Error saving state to storage:" QuotaExceededError.

(** The line [loadStateFromStorage] logs when a slot cannot be read. *)
Definition load_failed : LogLine :=
  LogError "Error loading state from storage:" SyntaxError.

(** A character that can open a JSON text: the first character of a
    value, or white space. *)
Definition opens_json (c : ascii) : bool :=
  let n := nat_of_ascii c in
  Ascii.eqb c "{" || Ascii.eqb c "[" || Ascii.eqb c JSON.dquote || Ascii.eqb c "-"
  || ((48 <=? n)%nat && (n <=? 57)%nat)
  || Ascii.eqb c "t" || Ascii.eqb c "f" || Ascii.eqb c "n"
  || Ascii.eqb c " " || Ascii.eqb c "009" || Ascii.eqb c "010" || Ascii.eqb c "013".

(** A stored text that is no JSON whatever follows its first character
    ([undefined], say): [JSON.parse] throws on it. *)
Definition not_json (text : string) : Prop :=
  match text with
  | EmptyString => False
  | String c _ => opens_json c = false
  end.

(** What a counter shows for the value [z]. *)
Definition counter (z : Z) : option Markup := Some (Text (JNum (inject_Z z))).

(** The four counters show the statistics of the state. *)
Definition counters_show (w : World) : Prop :=
  document w !! "cleanups-count" = counter (Stats.cleanups (stats_of w))
  /\ document w !! "trash-count" = counter (Stats.trash (stats_of w))
  /\ document w !! "crew-count" = counter (Stats.crewMembers (stats_of w))
  /\ document w !! "impact-count" = counter (Stats.beaches (stats_of w)).

(** [Math.random()] returns a number in [0, 1). *)
Definition fair (env : Env) : Prop := (0 <= Math_random env)%Q /\ (Math_random env < 1)%Q.

(** [Number.isSafeInteger]: the integers a JavaScript number holds
    exactly; sums that stay among them are the sums of the integers. *)
Definition safe_integer (z : Z) : Prop := (- (2 ^ 53 - 1) <= z <= 2 ^ 53 - 1)%Z.

(** The world after a run of "schedule cleanup" clicks. *)
Definition after_cleanups (r : Revision) (envs : list Env) (w : World) : World :=
  fold_left (fun w env => run (handleScheduleCleanup_in r env) w) envs w.

(** ** More stores and pages *)

Module Cases.

(** The two-member session on a store that allows [n] characters. *)
Definition cramped (n : nat) : World :=
  {| app := app Sample.two_members;
     localStorage := {| slots := ∅; quota := n |};
     document := Sample.page; console := []; notifications := []; requests := [] |}.

(** A page load on a store that holds the two texts. *)
Definition stored (roster counters : string) : World :=
  {| app := AppState.initial;
     localStorage :=
       {| slots := <[AppConfig.stats := counters]> (<[AppConfig.crew := roster]> ∅);
          quota := 4096 |};
     document := Sample.page; console := []; notifications := []; requests := [] |}.

(** The two-member session on a page without the counters. *)
Definition bare : World :=
  {| app := app Sample.two_members;
     localStorage := {| slots := ∅; quota := 4096 |};
     document := {["crew-grid" := Shipped]};
     console := []; notifications := []; requests := [] |}.

End Cases.

(** ** Notions for the weather pipelines *)

(** app.js: what [updateWeatherUI(getMockWeatherData())] shows. *)
Module OpenMeteoView.
Definition current : Markup :=
  Template [JStr Glyph.thunderstorm; Script.num 22; Script.num 12].
Definition mock (d : gmap string Markup) : gmap string Markup :=
  draw "best-time" (Template [])
    (draw "ocean-conditions" (Template []) (draw "current-weather" current d)).
End OpenMeteoView.

(** The request app.js issues for a position. *)
Definition weather_request (loc : Location.t) : Request :=
  {| endpoint := AppConfig.weatherApiBase;
     query := [JNum (Location.lat loc); JNum (Location.lng loc)] |}.

(** The request of part_000. *)
Definition nea24h_request : Request :=
  {| endpoint := AppConfig.nea24HourWeather; query := [] |}.

(** The weather grid shows what it showed, or the cards of the 4-day
    mock. *)
Definition mock_grid_or_untouched (env : Env) (w w1 : World) : Prop :=
  document w1 !! "weather-grid" = document w !! "weather-grid"
  \/ document w1 !! "weather-grid" = Some (MockView.nea24h_cards env).

(** On a page without the [best-time] panel: the panel stays absent and
    the weather grid shows what it showed. *)
Definition grid_rests (w w1 : World) : Prop :=
  document w !! "best-time" = None ->
  document w1 !! "best-time" = None
  /\ document w1 !! "weather-grid" = document w !! "weather-grid".

(** A handler that, when it completes, leaves no element [k]. *)
Definition ends_without {A} (k : string) (c : M A) : Prop :=
  forall w, threw (outcome c w) = false -> document (run c w) !! k = None.

(** A forecast day whose condition is a text. *)
Definition day_with_text (day : JsVal) : Prop :=
  exists text, member day "forecast" = Normal (JStr text).

(** The classifier of [getForecastEmoji] with one needle per test. *)
Definition keyword_glyph (text : string) : string :=
  if includes text "thunder" then Glyph.thunderstorm
  else if includes text "rain" || includes text "shower" then Glyph.rain
  else if includes text "cloud" then Glyph.cloud
  else if includes text "clear" || includes text "sunny" then Glyph.sun
  else if includes text "wind" then Glyph.wind
  else Glyph.generic.

(** ** The two renderers, on any body *)






(** Replies of the two services of part_001, and networks that give
    them. *)
Module PairCases.

Definition day (date text : string) (low high : Z) : JsVal :=
  JObj [("date", JStr date); ("forecast", JStr text);
        ("relative_humidity", Script.band low high)].

(** A 4-day forecast of one day, and a reading of the station. *)
Definition live_forecast : JsVal :=
  JObj [("items", JArr [JObj [("forecasts", JArr [day "2026-11-01" "Fair" 55 90])]])].

Definition live_readings : JsVal :=
  JObj [("items", JArr [JObj [
           ("readings", JArr [JObj [("station_id", JStr "S1"); ("value", Script.num 31)]])]])].


(** A first day without humidity band; every day has its text. *)
Definition no_band : JsVal :=
  JObj [("items", JArr [JObj [
           ("forecasts", JArr [
              JObj [("date", JStr "2026-11-01"); ("forecast", JStr "Fair")];
              day "2026-11-02" "Showers" 60 95])]])].


Definition serving (forecast readings : FetchOutcome) : Env :=
  Sample.env (fun r =>
    if String.eqb (endpoint r) AppConfig.neaWeather4Day then forecast else readings).

Definition replied (body : JsVal) : FetchOutcome :=
  Responded (Response.Build true 200 (Some body)).

(** Both services answer. *)
Definition online : Env := serving (replied live_forecast) (replied live_readings).

(** The forecast service answers 500 with a JSON error report; the
    readings come. *)
Definition forecast_down : Env :=
  serving (Responded (Response.Build false 500 (Some Sample.error_report)))
          (replied live_readings).

(** What the live render of [online] puts into the grid. *)
Definition live_cards : Markup :=
  Cards [[JStr "Sun, 1 Nov"; JStr Glyph.generic; JStr "Fair"; Script.num 55; Script.num 90;
          NeaPair.bestLabel 0]].

End PairCases.

(** ** Rate limiting: [throttle] and [debounce] *)

Module Throttle.
Section Throttle.

(** The arguments of a call. *)
Context {A : Type}.

(** One call of the function [throttle(func, delay)] returns, made when
    [Date.now()] is [now] and the closure variable is [lastCall]: the new
    [lastCall], and whether [func] ran. *)
Definition call (delay lastCall now : Z) : Z * bool :=
  if (delay <=? now - lastCall)%Z then (now, true) else (lastCall, false).

(** The calls of a run that reach [func], each call given with its
    [Date.now()]. *)
Fixpoint forwarded (delay lastCall : Z) (calls : list (Z * A)) : list (Z * A) :=
  match calls with
  | [] => []
  | (now, args) :: rest =>
      let (lastCall', ran) := call delay lastCall now in
      if ran then (now, args) :: forwarded delay lastCall' rest
      else forwarded delay lastCall' rest
  end.

(** [let lastCall = 0] *)
Definition throttle (delay : Z) (calls : list (Z * A)) : list (Z * A) :=
  forwarded delay 0 calls.

End Throttle.

(** Each time is at least [delay] after the one before it, the first
    one after [last]. *)
Fixpoint spaced (delay last : Z) (times : list Z) : Prop :=
  match times with
  | [] => True
  | t :: rest => (delay <= t - last)%Z /\ spaced delay t rest
  end.

End Throttle.

Module Debounce.
Section Debounce.

(** The arguments of a call. *)
Context {A : Type}.

(** A timer set by [setTimeout(() => func(...args), delay)]: its id,
    the time it is due, and the arguments its callback holds. *)
Record Timer : Type := { id : nat; due : Z; args : A }.

(** The closure variable [timeoutId] ([None] is [undefined]), the timers
    of the window that are set and have not run, the id the next timer
    gets, and the arguments [func] has been called with, in order. *)
Record State : Type := {
  timeoutId : option nat;
  timers : list Timer;
  next : nat;
  invoked : list A
}.

Definition initial : State :=
  {| timeoutId := None; timers := []; next := 1; invoked := [] |}.

(** [clearTimeout(timeoutId)]: nothing happens for [undefined] and for
    the id of a timer that has run. *)
Definition clearTimeout (i : option nat) (l : list Timer) : list Timer :=
  match i with
  | None => l
  | Some i => List.filter (fun t => negb (id t =? i)%nat) l
  end.

(** A timer has run by the time a task starts at [now] when it fell due
    before: the callback of a timer never runs inside the running task,
    so a timer that falls due at [now] itself is still set while the
    task runs. *)
Definition is_due (now : Z) (t : Timer) : bool := (due t <? now)%Z.

(** The clock reaches [now]: the timers that fell due have run, in the
    order they were set. *)
Definition elapse (now : Z) (s : State) : State :=
  {| timeoutId := timeoutId s;
     timers := List.filter (fun t => negb (is_due now t)) (timers s);
     next := next s;
     invoked := (invoked s ++ map args (List.filter (is_due now) (timers s)))%list |}.

(** One call of the function [debounce(func, delay)] returns, at the
    time [now]; [setTimeout] takes a negative delay for 0. *)
Definition call (delay now : Z) (a : A) (s : State) : State :=
  {| timeoutId := Some (next s);
     timers := (clearTimeout (timeoutId s) (timers s)
                ++ [{| id := next s; due := (now + Z.max 0 delay)%Z; args := a |}])%list;
     next := S (next s);
     invoked := invoked s |}.

(** A run of calls, each given with the time its task starts, and then
    a task that starts at [finally]. *)
Fixpoint after (delay : Z) (calls : list (Z * A)) (finally : Z) (s : State) : State :=
  match calls with
  | [] => elapse finally s
  | (now, a) :: rest => after delay rest finally (call delay now a (elapse now s))
  end.






End Debounce.
End Debounce.

(** ** The theme (app.js and part_001) *)

Module Theme.

(** [AppConfig.storageKeys.theme] *)
Definition key : string := "shoresquad_theme".

(** What the theme functions work on beside the [World]:
    [AppState.theme], the inline [color-scheme] of the root element
    ([None] while the script has not set it), the [aria-label] the script
    puts on the element [theme-toggle], and whether [toggleTheme] listens
    to clicks on that element. *)
Record t : Type := {
  world : World;
  theme : string;
  colorScheme : option string;
  ariaLabel : option string;
  listening : bool
}.

(** [localStorage.getItem(AppConfig.storageKeys.theme) || 'light'] *)
Definition stored_theme (s : Storage) : string :=
  match slots s !! key with
  | Some v => if String.eqb v EmptyString then "light" else v
  | None => "light"
  end.

(** A page load: the script starts with the stored theme. *)
Definition load (page : gmap string Markup) (w : World) : t :=
  {| world := reload page w; theme := stored_theme (localStorage w);
     colorScheme := None; ariaLabel := None; listening := false |}.

(** [AppState.theme === 'dark'] *)
Definition isDark (s : t) : bool := String.eqb (theme s) "dark".

(** [updateThemeDisplay] *)
Definition updateThemeDisplay (s : t) : t :=
  match document (world s) !! "theme-toggle" with
  | None => s
  | Some _ =>
      {| world :=
           with_document
             (<["theme-toggle" := Text (JStr (if isDark s then "☀️" else "🌙"))]>
                (document (world s)))
             (world s);
         theme := theme s;
         colorScheme := colorScheme s;
         ariaLabel :=
           Some ("Switch to " +:+ (if isDark s then "light" else "dark") +:+ " mode");
         listening := listening s |}
  end.

(** [setupTheme] *)
Definition setupTheme (s : t) : t :=
  match document (world s) !! "theme-toggle" with
  | None => s
  | Some _ =>
      let s1 := updateThemeDisplay s in
      {| world := world s1; theme := theme s1; colorScheme := colorScheme s1;
         ariaLabel := ariaLabel s1; listening := true |}
  end.

(** [toggleTheme]: the write to the store is not guarded; when it throws
    the handler ends there. *)
Definition toggleTheme (s : t) : t * Completion unit :=
  let dark := isDark s in
  let flipped := if dark then "light" else "dark" in
  match setItem key flipped (world s) with
  | (w1, Throw e) =>
      ({| world := w1; theme := flipped; colorScheme := colorScheme s;
          ariaLabel := ariaLabel s; listening := listening s |}, Throw e)
  | (w1, Normal _) =>
      (updateThemeDisplay
         {| world := w1; theme := flipped;
            colorScheme := Some (if dark then "light" else "dark");
            ariaLabel := ariaLabel s; listening := listening s |},
       Normal tt)
  end.

(** A click on the toggle. *)
Definition click (s : t) : t * Completion unit :=
  match document (world s) !! "theme-toggle" with
  | Some _ => if listening s then toggleTheme s else (s, Normal tt)
  | None => (s, Normal tt)
  end.

(** The store takes the name of the theme. *)
Definition fits (v : string) (s : t) : Prop :=
  (used (<[key := v]> (slots (localStorage (world s)))) <= quota (localStorage (world s)))%nat.

(** Memory, store and page agree on the theme, and the toggle offers the
    other one. *)
Definition in_step (s : t) : Prop :=
  slots (localStorage (world s)) !! key = Some (theme s)
  /\ colorScheme s = Some (theme s)
  /\ (is_Some (document (world s) !! "theme-toggle") ->
      document (world s) !! "theme-toggle"
      = Some (Text (JStr (if isDark s then "☀️" else "🌙")))
      /\ ariaLabel s
         = Some ("Switch to " +:+ (if isDark s then "light" else "dark") +:+ " mode")).

End Theme.

Module ThemeCases.

(** The shipped page with its theme toggle. *)
Definition page : gmap string Markup := <["theme-toggle" := Shipped]> Sample.page.

(** A session that ended with the dark theme chosen. *)
Definition chose_dark : World :=
  {| app := AppState.initial;
     localStorage := {| slots := {[Theme.key := "dark"]}; quota := 4096 |};
     document := page; console := []; notifications := []; requests := [] |}.

(** A first visit, in the light theme, with the toggle set up; [n] is
    the room the store allows. *)
Definition light (n : nat) : Theme.t :=
  Theme.setupTheme
    (Theme.load page
       {| app := AppState.initial;
          localStorage := {| slots := ∅; quota := n |};
          document := page; console := []; notifications := []; requests := [] |}).

End ThemeCases.

(** ** The event cards of part_000 *)

Module Events.

(** An event card of the shipped page: the text of its [h3], the text of
    its [.event-date], and its join button ([.btn-small]) with its text,
    its [disabled] flag and the number of click listeners
    [setupEventButtons] has put on it (each call registers a new function,
    so none is ever taken for one that is already there). *)
Record Card : Type := {
  title : string;
  date : string;
  label : string;
  disabled : bool;
  listeners : nat
}.

Record Page : Type := { world : World; cards : list Card }.

Definition Handler : Type := Page -> Page * Completion unit.

(** A handler that works on the [World] only. *)
Definition on_world (c : M unit) : Handler :=
  fun p => let (w, r) := c (world p) in ({| world := w; cards := cards p |}, r).

(** [f(); g();] *)
Definition and_then (f g : Handler) : Handler :=
  fun p =>
    match f p with
    | (p1, Normal _) => g p1
    | (p1, Throw e) => (p1, Throw e)
    end.

(** The characters [String.prototype.trim] strips, by the bytes of their
    UTF-8 encoding (the strings of the model are UTF-8 text): the white
    space U+0009, U+000B, U+000C, U+0020, U+00A0, U+FEFF and the space
    separators U+1680, U+2000 to U+200A, U+202F, U+205F, U+3000, and the
    line terminators U+000A, U+000D, U+2028, U+2029. *)
Definition white_space : list (list nat) :=
  [ [9]; [10]; [11]; [12]; [13]; [32];
    [194; 160];
    [225; 154; 128];
    [226; 128; 128]; [226; 128; 129]; [226; 128; 130]; [226; 128; 131];
    [226; 128; 132]; [226; 128; 133]; [226; 128; 134]; [226; 128; 135];
    [226; 128; 136]; [226; 128; 137]; [226; 128; 138];
    [226; 128; 168]; [226; 128; 169]; [226; 128; 175];
    [226; 129; 159];
    [227; 128; 128];
    [239; 187; 191] ]%nat.

(** What follows the bytes [pattern] at the front of [s], if they are
    there. *)
Fixpoint after_bytes (pattern : list nat) (s : string) : option string :=
  match pattern, s with
  | [], _ => Some s
  | b :: pattern', String c r =>
      if (nat_of_ascii c =? b)%nat then after_bytes pattern' r else None
  | _ :: _, EmptyString => None
  end.

(** What follows one of the [patterns] at the front of [s]. *)
Fixpoint after_one_of (patterns : list (list nat)) (s : string) : option string :=
  match patterns with
  | [] => None
  | pattern :: others =>
      match after_bytes pattern s with
      | Some r => Some r
      | None => after_one_of others s
      end
  end.

(** At most [fuel] of the [patterns] are taken off the front. *)
Fixpoint strip (patterns : list (list nat)) (fuel : nat) (s : string) : string :=
  match fuel with
  | O => s
  | S fuel' =>
      match after_one_of patterns s with
      | Some r => strip patterns fuel' r
      | None => s
      end
  end.

Definition reverse (s : string) : string :=
  string_of_list_ascii (List.rev (list_ascii_of_string s)).

Definition trim_start (s : string) : string := strip white_space (String.length s) s.

(** The white space at the end is the white space at the front of the
    text read backwards, each character with its bytes in reverse. *)
Definition trim_end (s : string) : string :=
  reverse (strip (map (@List.rev nat) white_space) (String.length s) (reverse s)).

(** [String.prototype.trim] *)
Definition trim (s : string) : string := trim_end (trim_start s).

(** The text of the notification a join shows. *)
Definition joined (card : Card) : string :=
  "✅ You've joined " +:+
  String JSON.dquote (title card +:+
  String JSON.dquote (" on " +:+ trim (date card) +:+ "!")).

(** The click listener [setupEventButtons] registers, on the button of
    the card [i]. *)
Definition join (i : nat) : Handler :=
  fun p =>
    match cards p !! i with
    | None => (p, Normal tt)
    | Some card =>
        ({| world := with_notification (joined card) (world p);
            cards :=
              <[i := {| title := title card; date := date card; label := "Joined ✓";
                        disabled := true; listeners := listeners card |}]> (cards p) |},
         Normal tt)
    end.

Definition listened (card : Card) : Card :=
  {| title := title card; date := date card; label := label card;
     disabled := disabled card; listeners := S (listeners card) |}.

(** [setupEventButtons] *)
Definition setupEventButtons : Handler :=
  fun p => ({| world := world p; cards := map listened (cards p) |}, Normal tt).

(** [fetchWeatherData()] is not awaited: what runs inside [renderUI] is
    the function up to its first [await], the log line and the request;
    [fetch_settled] is what runs when the reply is there. *)
Definition fetch_started : M unit :=
  console_log "🌦️ Fetching weather from NEA 24-Hour API..." ;;
  modify (with_request nea24h_request).

Definition fetch_settled (env : Env) : M unit :=
  try_catch
    (response ← lift (match network env nea24h_request with
                      | Rejected => Throw NetworkError
                      | Responded resp => Normal resp
                      end) ;
     (if negb (Response.ok response) then
        throw (Error ("API returned status " +:+ JSON.print_int (Response.status response)))
      else ret tt) ;;
     data ← json response ;
     console_log "✓ Weather data received:" ;;
     modify (with_app (AppState.with_weather data)) ;;
     Nea24h.updateWeatherUI env data)
    (fun error =>
       console_error "❌ NEA Weather API error:" error ;;
       console_log "📋 Using mock weather data..." ;;
       let mockData := Nea24h.getMockWeatherData env in
       modify (with_app (AppState.with_weather mockData)) ;;
       Nea24h.updateWeatherUI env mockData).

(** [renderUI] of part_000 *)
Definition renderUI : Handler :=
  and_then (on_world Script.renderCrewGrid)
    (and_then (on_world Nea24h.updateStats)
       (and_then (on_world fetch_started) setupEventButtons)).

(** [setupEventListeners] of part_000; the listeners it puts on the
    elements it finds by id are outside [Page]. *)
Definition setupEventListeners : Handler := setupEventButtons.

(** [initializeApp] of part_000 *)
Definition initializeApp : Handler :=
  and_then (on_world Nea24h.loadStateFromStorage)
    (and_then setupEventListeners
       (and_then renderUI
          (on_world (console_log "🌊 ShoreSquad initialized successfully!")))).

(** The listeners of a button run one after the other. *)
Fixpoint dispatch (n : nat) (i : nat) (p : Page) : Page :=
  match n with
  | O => p
  | S n' => dispatch n' i (fst (join i p))
  end.

(** A click of the visitor on the button of the card [i]; a disabled
    button gets no click. *)
Definition click (i : nat) (p : Page) : Page :=
  match cards p !! i with
  | Some card => if disabled card then p else dispatch (listeners card) i p
  | None => p
  end.

(** The page as it ships: no listener is registered yet. *)
Definition shipped (p : Page) : Prop :=
  Forall (fun card => listeners card = 0%nat) (cards p).

End Events.

(** ** Start-up of app.js and part_001 *)

Module Startup.

(** A handler that works on the [World] only. *)
Definition on_world (c : M unit) (s : Theme.t) : Theme.t * Completion unit :=
  let (w, r) := c (Theme.world s) in
  ({| Theme.world := w; Theme.theme := Theme.theme s;
      Theme.colorScheme := Theme.colorScheme s; Theme.ariaLabel := Theme.ariaLabel s;
      Theme.listening := Theme.listening s |}, r).

(** [renderUI] *)
Definition renderUI : M unit := Script.renderCrewGrid ;; Script.updateStats.

(** [initializeApp]; the listeners [setupEventListeners] puts on the
    elements it finds by id are outside the state, so that call leaves it
    as it is. *)
Definition initializeApp (s : Theme.t) : Theme.t * Completion unit :=
  match on_world Script.loadStateFromStorage s with
  | (s1, Throw e) => (s1, Throw e)
  | (s1, Normal _) =>
      let s2 := Theme.setupTheme s1 in
      match on_world renderUI s2 with
      | (s3, Throw e) => (s3, Throw e)
      | (s3, Normal _) =>
          on_world (console_log "🌊 ShoreSquad initialized successfully!") s3
      end
  end.

End Startup.

(** * Properties *)

(** ** Substring facts *)

Lemma includes_prefix text pat :
  String.prefix pat text = true -> includes text pat = true.
Proof. intros H. destruct text; cbn [includes]; rewrite H; reflexivity. Qed.

Lemma includes_tail c text pat :
  includes text pat = true -> includes (String c text) pat = true.
Proof.
  intros H. cbn [includes]. rewrite H. apply orb_true_r.
Qed.

Lemma prefix_app_includes p : forall q text,
  String.prefix (p +:+ q) text = true -> includes text q = true.
Proof.
  induction p as [|a p IH]; intros q text H.
  - apply includes_prefix. exact H.
  - destruct text as [|b text]; [discriminate H|].
    simpl in H.
    destruct (ascii_dec a b); [|discriminate H].
    apply includes_tail, IH. exact H.
Qed.

Lemma includes_app_r p q : forall text,
  includes text (p +:+ q) = true -> includes text q = true.
Proof.
  induction text as [|c text IH]; cbn [includes]; intros H.
  - apply orb_true_iff in H as [H|H]; [|discriminate H].
    destruct q; [reflexivity|].
    destruct p; discriminate H.
  - apply orb_true_iff in H as [H|H].
    + apply (prefix_app_includes p q (String c text)) in H.
      exact H.
    + rewrite (IH H). apply orb_true_r.
Qed.

(** C9: no text at all is mapped to the partly-cloudy glyph: whatever
    contains "partly cloudy" contains "cloudy", and the cloud branch is
    tested first. *)
Theorem getForecastEmoji_never_partly_cloudy (v : JsVal) :
  getForecastEmoji v <> Normal Glyph.partly_cloudy.
Proof.
  unfold getForecastEmoji.
  destruct (toLowerCase v) as [text|e]; cbn [cbind]; [|discriminate].
  destruct (includes text "thundery" || includes text "thunder"); [discriminate|].
  destruct (includes text "rain" || includes text "shower"); [discriminate|].
  destruct (includes text "cloudy") eqn:Hcloudy; cbn [orb]; [discriminate|].
  destruct (includes text "cloud"); [discriminate|].
  destruct (includes text "partly cloudy") eqn:Hpartly.
  - apply (includes_app_r "partly " "cloudy") in Hpartly. congruence.
  - destruct (includes text "clear" || includes text "sunny"); [discriminate|].
    destruct (includes text "windy" || includes text "wind"); discriminate.
Qed.

(** C3: on the mock forecast's own text "Partly cloudy" the classifier
    answers with the plain cloud glyph, not the partly-cloudy one. *)
Theorem getForecastEmoji_partly_cloudy_is_cloud :
  getForecastEmoji (JStr "Partly cloudy") = Normal Glyph.cloud
  /\ Glyph.cloud <> Glyph.partly_cloudy.
Proof. split; [reflexivity | discriminate]. Qed.

(** The rest of C3 holds: matching ignores case and follows the order of
    the tests, and a text without keyword gets the generic glyph. *)
Lemma getForecastEmoji_examples :
  getForecastEmoji (JStr "Thundery showers") = Normal Glyph.thunderstorm
  /\ getForecastEmoji (JStr "LIGHT RAIN") = Normal Glyph.rain
  /\ getForecastEmoji (JStr "Cloudy") = Normal Glyph.cloud
  /\ getForecastEmoji (JStr "Clear and windy") = Normal Glyph.sun
  /\ getForecastEmoji (JStr "Windy") = Normal Glyph.wind
  /\ getForecastEmoji (JStr "Hazy") = Normal Glyph.generic.
Proof. repeat split. Qed.

(** ** The stored text reads back *)

Section JsonRoundTrip.

Import JSON.

Lemma append_cons x (a b : string) : String x a +:+ b = String x (a +:+ b).
Proof. reflexivity. Qed.

Lemma append_nil (b : string) : EmptyString +:+ b = b.
Proof. reflexivity. Qed.

Lemma append_assoc (a b c : string) : (a +:+ b) +:+ c = a +:+ (b +:+ c).
Proof.
  induction a as [|x a IH]; [reflexivity|].
  rewrite !append_cons. f_equal. exact IH.
Qed.

Lemma length_append (a b : string) :
  String.length (a +:+ b) = (String.length a + String.length b)%nat.
Proof.
  induction a as [|x a IH]; [reflexivity|].
  rewrite append_cons. cbn [String.length]. now rewrite IH.
Qed.

Lemma expect_append lit rest : expect lit (lit +:+ rest) = Some rest.
Proof.
  induction lit as [|a lit IH]; [reflexivity|].
  rewrite append_cons. cbn [expect]. now rewrite Ascii.eqb_refl.
Qed.

Lemma read_chars_escape_char c tail :
  read_chars (escape_char c +:+ tail) = consed c (read_chars tail).
Proof.
  destruct c as [[|] [|] [|] [|] [|] [|] [|] [|]]; reflexivity.
Qed.

Lemma read_chars_escape s rest :
  read_chars (escape s +:+ String dquote rest) = Some (s, rest).
Proof.
  induction s as [|c s IH].
  - reflexivity.
  - cbn [escape]. rewrite append_assoc, read_chars_escape_char, IH. reflexivity.
Qed.

Lemma read_string_quote s rest : read_string (quote s +:+ rest) = Some (s, rest).
Proof.
  change (quote s +:+ rest)
    with (String dquote ((escape s +:+ String dquote EmptyString) +:+ rest)).
  cbn [read_string]. rewrite Ascii.eqb_refl.
  rewrite append_assoc. apply read_chars_escape.
Qed.

(** *** Integers *)

Lemma span_num_append tok c rest :
  all_num tok = true -> is_num_char c = false ->
  span_num (tok +:+ String c rest) = (tok, String c rest).
Proof.
  intros Htok Hc. induction tok as [|a tok IH].
  - rewrite append_nil. cbn [span_num]. now rewrite Hc.
  - cbn [all_num] in Htok. apply andb_true_iff in Htok as [Ha Htok].
    rewrite append_cons. cbn [span_num]. rewrite Ha, (IH Htok). reflexivity.
Qed.

Lemma all_num_uint d : all_num (NilEmpty.string_of_uint d) = true.
Proof. induction d; cbn [NilEmpty.string_of_uint all_num]; try rewrite IHd; reflexivity. Qed.

Lemma all_num_nilzero d : all_num (NilZero.string_of_uint d) = true.
Proof. destruct d; [reflexivity | exact (all_num_uint _) ..]. Qed.

Lemma all_num_print_int z : all_num (print_int z) = true.
Proof.
  unfold print_int. destruct (Z.to_int z) as [d|d].
  - apply all_num_nilzero.
  - cbn [NilZero.string_of_int all_num]. now rewrite all_num_nilzero.
Qed.

Lemma to_int_proper z : Z.to_int z <> Decimal.Pos Decimal.Nil /\ Z.to_int z <> Decimal.Neg Decimal.Nil.
Proof.
  destruct z as [|p|p]; cbn [Z.to_int]; split; try discriminate;
    intros [= H]; exact (DecimalPos.Unsigned.to_uint_nonnil p H).
Qed.

Lemma read_int_print z c rest :
  is_num_char c = false ->
  read_int (print_int z +:+ String c rest) = Some (z, String c rest).
Proof.
  intros Hc. unfold read_int.
  rewrite (span_num_append _ _ _ (all_num_print_int z) Hc).
  unfold print_int at 1.
  destruct (to_int_proper z) as [Hpos Hneg].
  rewrite (NilZero.isi _ Hpos Hneg), DecimalZ.of_to.
  now rewrite String.eqb_refl.
Qed.

(** *** Members, the roster, the counters *)

Lemma expect_append2 a b rest : expect (a +:+ b) (a +:+ b +:+ rest) = Some rest.
Proof. rewrite <- append_assoc. apply expect_append. Qed.

Lemma comma_append rest : "," +:+ rest = String "," rest.
Proof. reflexivity. Qed.

Lemma read_member_stringify m rest :
  read_member (stringify_member m +:+ rest) = Some (m, rest).
Proof.
  destruct m as [i n r j]. unfold stringify_member, read_member.
  cbn [Member.id Member.name Member.role Member.joinedDate].
  rewrite !append_assoc.
  rewrite (expect_append2 "{" (key "id")). cbn [obind].
  rewrite (comma_append (key "name" +:+ _)), read_int_print by reflexivity.
  cbn [obind].
  rewrite <- (comma_append (key "name" +:+ _)), (expect_append2 "," (key "name")).
  cbn [obind]. rewrite read_string_quote. cbn [obind].
  rewrite (expect_append2 "," (key "role")). cbn [obind].
  rewrite read_string_quote. cbn [obind].
  rewrite (expect_append2 "," (key "joinedDate")). cbn [obind].
  rewrite read_string_quote. cbn [obind].
  rewrite (expect_append "}"). reflexivity.
Qed.

Lemma stringify_member_head m :
  exists tail, stringify_member m = String "{" tail.
Proof. unfold stringify_member. eexists. reflexivity. Qed.

Lemma stringify_members_head m l :
  exists tail, stringify_members (m :: l) = String "{" tail.
Proof.
  destruct (stringify_member_head m) as [tail Htail].
  destruct l as [|m' l]; cbn [stringify_members]; rewrite Htail; eexists; reflexivity.
Qed.

Lemma stringify_members_length m l :
  (length l < String.length (stringify_members (m :: l)))%nat.
Proof.
  revert m. induction l as [|m' l IH]; intros m.
  - destruct (stringify_members_head m []) as [tail ->]. cbn. lia.
  - cbn [stringify_members]. rewrite !length_append.
    specialize (IH m'). cbn [stringify_members] in IH. cbn [length].
    destruct (stringify_member_head m) as [tail ->]. cbn [String.length]. lia.
Qed.

Lemma read_members_stringify l : forall m fuel rest,
  (length l < fuel)%nat ->
  read_members fuel (stringify_members (m :: l) +:+ String "]" rest)
  = Some (m :: l, rest).
Proof.
  induction l as [|m' l IH]; intros m fuel rest Hfuel;
    (destruct fuel as [|fuel]; [cbn [length] in Hfuel; lia|]).
  - cbn [stringify_members read_members].
    rewrite read_member_stringify. reflexivity.
  - cbn [length] in Hfuel.
    change (stringify_members (m :: m' :: l))
      with (stringify_member m +:+ "," +:+ stringify_members (m' :: l)).
    rewrite !append_assoc. cbn [read_members].
    rewrite read_member_stringify. cbn [obind].
    rewrite comma_append.
    change (Ascii.eqb "," ",") with true. cbv iota.
    rewrite IH by lia. reflexivity.
Qed.

(** [JSON.parse(JSON.stringify(crew))] is [crew]. *)
Lemma parse_stringify_crew l : parse_crew (stringify_crew l) = Some l.
Proof.
  destruct l as [|m l]; [reflexivity|].
  unfold stringify_crew.
  change ("[" +:+ stringify_members (m :: l) +:+ "]")
    with (String "[" (stringify_members (m :: l) +:+ String "]" EmptyString)).
  destruct (stringify_members_head m l) as [tail Htail].
  pose proof (stringify_members_length m l) as Hlen.
  assert (Hread := read_members_stringify l m
                     (String.length (stringify_members (m :: l) +:+ String "]" EmptyString))
                     EmptyString).
  rewrite length_append in Hread.
  specialize (Hread ltac:(lia)). rewrite <- length_append in Hread.
  revert Hread. rewrite Htail. rewrite append_cons. intros Hread.
  cbn [parse_crew]. rewrite Hread. reflexivity.
Qed.

(** [JSON.parse(JSON.stringify(stats))] is [stats]. *)
Lemma parse_stringify_stats s : parse_stats (stringify_stats s) = Some s.
Proof.
  destruct s as [c t b m]. unfold stringify_stats, parse_stats.
  cbn [Stats.cleanups Stats.trash Stats.beaches Stats.crewMembers].
  rewrite (expect_append2 "{" (key "cleanups")). cbn [obind].
  rewrite (comma_append (key "trash" +:+ _)), read_int_print by reflexivity.
  cbn [obind].
  rewrite <- (comma_append (key "trash" +:+ _)), (expect_append2 "," (key "trash")).
  cbn [obind].
  rewrite (comma_append (key "beaches" +:+ _)), read_int_print by reflexivity.
  cbn [obind].
  rewrite <- (comma_append (key "beaches" +:+ _)), (expect_append2 "," (key "beaches")).
  cbn [obind].
  rewrite (comma_append (key "crewMembers" +:+ _)), read_int_print by reflexivity.
  cbn [obind].
  rewrite <- (comma_append (key "crewMembers" +:+ _)),
    (expect_append2 "," (key "crewMembers")).
  cbn [obind].
  change (print_int m +:+ "}") with (print_int m +:+ String "}" EmptyString).
  rewrite read_int_print by reflexivity. reflexivity.
Qed.

(** The stored text is never the empty string, so [if (saved)] holds. *)
Lemma stringify_crew_truthy l : saved_truthy (Some (stringify_crew l)) = true.
Proof. reflexivity. Qed.

Lemma stringify_stats_truthy s : saved_truthy (Some (stringify_stats s)) = true.
Proof. reflexivity. Qed.

End JsonRoundTrip.

(** ** Running handlers *)

Lemma run_bind {A B} (c : M A) (k : A -> M B) w :
  bind c k w =
  match outcome c w with
  | Normal a => k a (run c w)
  | Throw e => (run c w, Throw e)
  end.
Proof. unfold bind, run, outcome. destruct (c w) as [w' [a|e]]; reflexivity. Qed.

Lemma run_try {A} (body : M A) (handler : Exn -> M A) w :
  try_catch body handler w =
  match outcome body w with
  | Normal a => (run body w, Normal a)
  | Throw e => handler e (run body w)
  end.
Proof. unfold try_catch, run, outcome. destruct (body w) as [w' [a|e]]; reflexivity. Qed.

Section Frames.

Context {P : Type} (part : World -> P).

Lemma keeps_ret {A} (a : A) : keeps part (ret a).
Proof. intros w. reflexivity. Qed.

Lemma keeps_throw {A} e : keeps part (@throw A e).
Proof. intros w. reflexivity. Qed.

Lemma keeps_lift {A} (c : Completion A) : keeps part (lift c).
Proof. intros w. reflexivity. Qed.

Lemma keeps_gets {A} (f : World -> A) : keeps part (gets f).
Proof. intros w. reflexivity. Qed.

Lemma keeps_bind {A B} (c : M A) (k : A -> M B) :
  keeps part c -> (forall a, keeps part (k a)) -> keeps part (bind c k).
Proof.
  intros Hc Hk w. unfold run at 1. rewrite run_bind.
  destruct (outcome c w) as [a|e]; cbn [fst].
  - fold (run (k a) (run c w)). now rewrite Hk, Hc.
  - apply Hc.
Qed.

Lemma keeps_try {A} (body : M A) handler :
  keeps part body -> (forall e, keeps part (handler e)) ->
  keeps part (try_catch body handler).
Proof.
  intros Hb Hh w. unfold run at 1. rewrite run_try.
  destruct (outcome body w) as [a|e]; cbn [fst].
  - apply Hb.
  - fold (run (handler e) (run body w)). now rewrite Hh, Hb.
Qed.

Lemma keeps_modify (f : World -> World) :
  (forall w, part (f w) = part w) -> keeps part (modify f).
Proof. intros Hf w. apply Hf. Qed.

End Frames.

Lemma total_ret {A} (a : A) : total (ret a).
Proof. intros w. reflexivity. Qed.

Lemma total_gets {A} (f : World -> A) : total (gets f).
Proof. intros w. reflexivity. Qed.

Lemma total_modify f : total (modify f).
Proof. intros w. reflexivity. Qed.

Lemma total_bind {A B} (c : M A) (k : A -> M B) :
  total c -> (forall a, total (k a)) -> total (bind c k).
Proof.
  intros Hc Hk w. unfold outcome at 1. rewrite run_bind.
  specialize (Hc w). destruct (outcome c w) as [a|e]; [|discriminate Hc].
  apply Hk.
Qed.

Lemma total_try {A} (body : M A) handler :
  (forall e, total (handler e)) -> total (try_catch body handler).
Proof.
  intros Hh w. unfold outcome at 1. rewrite run_try.
  destruct (outcome body w) as [a|e]; [reflexivity|]. apply Hh.
Qed.

Lemma total_normal (c : M unit) w : total c -> outcome c w = Normal tt.
Proof. intros Hc. specialize (Hc w). destruct (outcome c w) as [[]|e]; [reflexivity|discriminate]. Qed.

Create HintDb frame.

#[local] Hint Resolve keeps_ret keeps_throw keeps_lift keeps_gets : frame.
#[local] Hint Resolve total_ret total_gets total_modify : frame.

(** Splits a handler along its sequencing and its tests. *)
Ltac frame :=
  repeat first
    [ solve [auto with frame]
    | match goal with
      | |- forall _, _ => intro
      | |- keeps _ (match ?x with _ => _ end) => destruct x
      | |- total (match ?x with _ => _ end) => destruct x
      end
    | apply keeps_bind
    | apply keeps_try
    | apply total_bind
    | apply total_try ].

(** *** What the primitives leave alone *)

Lemma console_error_keeps_app text e : keeps app (console_error text e).
Proof. intros w. reflexivity. Qed.
Lemma console_log_keeps_app text : keeps app (console_log text).
Proof. intros w. reflexivity. Qed.
Lemma console_warn_keeps_app text : keeps app (console_warn text).
Proof. intros w. reflexivity. Qed.
Lemma getItem_keeps_app k : keeps app (getItem k).
Proof. intros w. reflexivity. Qed.
Lemma setItem_keeps_app k v : keeps app (setItem k v).
Proof. intros w. unfold run, setItem. destruct (_ <=? _)%nat; reflexivity. Qed.
Lemma getElementById_keeps_app i : keeps app (getElementById i).
Proof. intros w. reflexivity. Qed.
Lemma assign_keeps_app el what m : keeps app (assign el what m).
Proof. intros w. destruct el; reflexivity. Qed.
Lemma showNotification_keeps_app msg : keeps app (Script.showNotification msg).
Proof. intros w. reflexivity. Qed.

#[local] Hint Resolve console_error_keeps_app console_log_keeps_app console_warn_keeps_app
  getItem_keeps_app setItem_keeps_app getElementById_keeps_app assign_keeps_app
  showNotification_keeps_app : frame.

Lemma console_error_total text e : total (console_error text e).
Proof. intros w. reflexivity. Qed.
Lemma console_log_total text : total (console_log text).
Proof. intros w. reflexivity. Qed.
Lemma console_warn_total text : total (console_warn text).
Proof. intros w. reflexivity. Qed.
Lemma getItem_total k : total (getItem k).
Proof. intros w. reflexivity. Qed.
Lemma getElementById_total i : total (getElementById i).
Proof. intros w. reflexivity. Qed.
Lemma assign_some_total i what m : total (assign (Some i) what m).
Proof. intros w. reflexivity. Qed.
Lemma showNotification_total msg : total (Script.showNotification msg).
Proof. intros w. reflexivity. Qed.

#[local] Hint Resolve console_error_total console_log_total console_warn_total
  getItem_total getElementById_total assign_some_total showNotification_total : frame.

Lemma saveStateToStorage_keeps_app : keeps app Script.saveStateToStorage.
Proof. unfold Script.saveStateToStorage. frame. Qed.

Lemma saveStateToStorage_total : total Script.saveStateToStorage.
Proof. unfold Script.saveStateToStorage. frame. Qed.

Lemma renderCrewGrid_keeps_app : keeps app Script.renderCrewGrid.
Proof. unfold Script.renderCrewGrid, set_innerHTML. frame. Qed.

Lemma renderCrewGrid_total : total Script.renderCrewGrid.
Proof.
  intros w. unfold Script.renderCrewGrid, set_innerHTML, outcome.
  rewrite run_bind. unfold getElementById at 1, gets, outcome, run. cbn [fst snd].
  destruct (document w !! "crew-grid"); reflexivity.
Qed.

Lemma hideCrewForm_keeps_app : keeps app Script.hideCrewForm.
Proof. unfold Script.hideCrewForm. frame. Qed.

Lemma script_updateStats_keeps_app : keeps app Script.updateStats.
Proof. unfold Script.updateStats, set_textContent. frame. Qed.

Lemma nea24h_animateCounter_keeps_app i v : keeps app (Nea24h.animateCounter i v).
Proof. unfold Nea24h.animateCounter, set_textContent. frame. Qed.

Lemma nea24h_updateStats_keeps_app : keeps app Nea24h.updateStats.
Proof.
  pose proof nea24h_animateCounter_keeps_app.
  unfold Nea24h.updateStats. frame.
Qed.

#[local] Hint Resolve saveStateToStorage_keeps_app saveStateToStorage_total
  renderCrewGrid_keeps_app renderCrewGrid_total hideCrewForm_keeps_app
  script_updateStats_keeps_app nea24h_updateStats_keeps_app : frame.

(** ** Crew and counters *)

Lemma updateStats_in_keeps_app r : keeps app (updateStats_in r).
Proof. destruct r; cbn [updateStats_in]; auto with frame. Qed.

#[local] Hint Resolve updateStats_in_keeps_app : frame.

(** A handler that opens with an update of [AppState] and then only
    saves, draws and notifies. *)
Lemma app_after_modify {A} (f : AppState.t -> AppState.t) (rest : M A) w :
  keeps app rest ->
  app (run (modify (with_app f) ;; rest) w) = f (app w).
Proof.
  intros Hrest. unfold run at 1. rewrite run_bind. cbn [outcome modify snd].
  fold (run rest (run (modify (with_app f)) w)). now rewrite Hrest.
Qed.

Lemma run_modify_then {A} (f : World -> World) (rest : M A) w :
  run (modify f ;; rest) w = run rest (f w).
Proof. unfold run at 1. rewrite run_bind. reflexivity. Qed.

Lemma app_after_handleCrewSubmit r env name role w :
  app (run (handleCrewSubmit_in r env name role) w) =
  let member := Member.Build (Date_now env) name role
                  (toLocaleDateString env (Date_now env)) in
  let crew := (AppState.crew (app w) ++ [member])%list in
  AppState.with_stats
    (Stats.with_crewMembers (Z.of_nat (length crew)) (AppState.stats (app w)))
    (AppState.with_crew crew (app w)).
Proof.
  unfold handleCrewSubmit_in, Script.handleCrewSubmit.
  rewrite run_modify_then, app_after_modify; [reflexivity|].
  frame.
Qed.

Lemma app_after_removeCrewMember r id w :
  app (run (removeCrewMember_in r id) w) =
  let crew := List.filter (fun member => negb (Z.eqb (Member.id member) id))
                (AppState.crew (app w)) in
  AppState.with_stats
    (Stats.with_crewMembers (Z.of_nat (length crew)) (AppState.stats (app w)))
    (AppState.with_crew crew (app w)).
Proof.
  unfold removeCrewMember_in, Script.removeCrewMember.
  rewrite run_modify_then, app_after_modify; [reflexivity|].
  frame.
Qed.

Lemma crew_op_counted r op w : crew_counted (run (crew_op r op) w).
Proof.
  unfold crew_counted, stats_of, crew_of.
  destruct op as [env name role|id]; cbn [crew_op].
  - rewrite app_after_handleCrewSubmit. reflexivity.
  - rewrite app_after_removeCrewMember. reflexivity.
Qed.

Lemma states_after_counted r ops : forall w, Forall crew_counted (states_after r ops w).
Proof.
  induction ops as [|op ops IH]; intros w; cbn [states_after].
  - constructor.
  - constructor; [apply crew_op_counted | apply IH].
Qed.

(** C4: after a "schedule cleanup" action, from any state whatever and
    in each revision, [stats.beaches] is [min(stats.cleanups, 5)]. *)
Theorem handleScheduleCleanup_caps_beaches (r : Revision) (env : Env) (w : World) :
  beaches_capped (run (handleScheduleCleanup_in r env) w)
  /\ Stats.cleanups (stats_of (run (handleScheduleCleanup_in r env) w))
     = (Stats.cleanups (stats_of w) + 1)%Z.
Proof.
  unfold beaches_capped, stats_of, handleScheduleCleanup_in, Script.handleScheduleCleanup.
  cbv zeta. do 2 rewrite run_modify_then. rewrite app_after_modify.
  - split; reflexivity.
  - frame.
Qed.

(** *** Removing by id *)

Lemma crew_after_removeCrewMember r id w :
  crew_of (run (removeCrewMember_in r id) w) = others id (crew_of w).
Proof. unfold crew_of. rewrite app_after_removeCrewMember. reflexivity. Qed.

Lemma others_none_left id crew :
  Forall (fun member => Member.id member <> id) (others id crew).
Proof.
  apply Forall_forall. intros m Hm.
  apply list_elem_of_In, filter_In in Hm as [_ Hm].
  apply negb_true_iff, Z.eqb_neq in Hm. exact Hm.
Qed.

Lemma others_all_kept id crew m :
  In m crew -> Member.id m <> id -> In m (others id crew).
Proof.
  intros Hin Hid. apply filter_In. split; [exact Hin|].
  apply negb_true_iff, Z.eqb_neq. exact Hid.
Qed.

Lemma others_in_order id crew : others id crew `sublist_of` crew.
Proof.
  induction crew as [|m crew IH]; cbn [others List.filter].
  - constructor.
  - destruct (negb (Member.id m =? id)%Z).
    + apply sublist_skip. exact IH.
    + apply sublist_cons. exact IH.
Qed.

Lemma others_absent id crew :
  (forall m, In m crew -> Member.id m <> id) -> others id crew = crew.
Proof.
  intros Habsent. induction crew as [|m crew IH]; [reflexivity|].
  cbn [others List.filter].
  assert (Hm : Member.id m <> id) by (apply Habsent; left; reflexivity).
  apply Z.eqb_neq in Hm. rewrite Hm. cbn [negb]. f_equal.
  apply IH. intros m' Hin. apply Habsent. right. exact Hin.
Qed.

(** C10: removal by id drops every member carrying that id, keeps every
    other member, and keeps the survivors in their order. *)
Theorem removeCrewMember_drops_all_keeps_order (r : Revision) (id : Z) (w : World) :
  let crew' := crew_of (run (removeCrewMember_in r id) w) in
  Forall (fun member => Member.id member <> id) crew'
  /\ (forall m, In m (crew_of w) -> Member.id m <> id -> In m crew')
  /\ (forall m, In m crew' -> In m (crew_of w))
  /\ crew' `sublist_of` crew_of w.
Proof.
  cbv zeta. rewrite crew_after_removeCrewMember. repeat split.
  - apply others_none_left.
  - apply others_all_kept.
  - intros m Hm. apply filter_In in Hm as [Hm _]. exact Hm.
  - apply others_in_order.
Qed.

(** *** Not throwing *)

Lemma outcome_seq {A} (c : M unit) (rest : M A) w :
  total c -> outcome (c ;; rest) w = outcome rest (run c w).
Proof.
  intros Hc. unfold outcome at 1. rewrite run_bind.
  specialize (Hc w). destruct (outcome c w) as [[]|e]; [reflexivity|discriminate Hc].
Qed.

Lemma run_seq {A} (c : M unit) (rest : M A) w :
  total c -> run (c ;; rest) w = run rest (run c w).
Proof.
  intros Hc. unfold run at 1. rewrite run_bind.
  specialize (Hc w). destruct (outcome c w) as [[]|e]; [reflexivity|discriminate Hc].
Qed.

Lemma setItem_keeps_document k v : keeps document (setItem k v).
Proof. intros w. unfold run, setItem. destruct (_ <=? _)%nat; reflexivity. Qed.

Lemma saveStateToStorage_keeps_document : keeps document Script.saveStateToStorage.
Proof.
  pose proof setItem_keeps_document.
  unfold Script.saveStateToStorage. frame; intros w; reflexivity.
Qed.

Lemma renderCrewGrid_keeps_elements w i :
  is_Some (document w !! i) -> is_Some (document (run Script.renderCrewGrid w) !! i).
Proof.
  intros Hi. unfold Script.renderCrewGrid, set_innerHTML, run.
  rewrite run_bind. unfold getElementById at 1, gets, outcome, run. cbn [fst snd].
  destruct (document w !! "crew-grid"); [|exact Hi].
  cbn. destruct (decide ("crew-grid" = i)) as [<-|Hne].
  - rewrite lookup_insert_eq. eauto.
  - rewrite lookup_insert_ne by exact Hne. exact Hi.
Qed.

Lemma script_updateStats_on_page w :
  counters_on_page w -> outcome Script.updateStats w = Normal tt.
Proof.
  intros ([m1 H1] & [m2 H2] & [m3 H3] & [m4 H4]).
  unfold Script.updateStats, set_textContent, outcome.
  repeat (rewrite run_bind; cbn).
  rewrite H1. cbn.
  repeat (rewrite run_bind; cbn).
  rewrite lookup_insert_ne, H2 by done. cbn.
  repeat (rewrite run_bind; cbn).
  rewrite !lookup_insert_ne, H3 by done. cbn.
  repeat (rewrite run_bind; cbn).
  rewrite !lookup_insert_ne, H4 by done. reflexivity.
Qed.

Lemma nea24h_animateCounter_total i v : total (Nea24h.animateCounter i v).
Proof.
  intros w. unfold Nea24h.animateCounter, set_textContent, outcome.
  rewrite run_bind. unfold getElementById at 1, gets, outcome, run. cbn [fst snd].
  destruct (document w !! i); reflexivity.
Qed.

Lemma nea24h_updateStats_total : total Nea24h.updateStats.
Proof.
  pose proof nea24h_animateCounter_total.
  unfold Nea24h.updateStats. frame.
Qed.

Lemma updateStats_in_on_page r w :
  counters_on_page w -> outcome (updateStats_in r) w = Normal tt.
Proof.
  intros Hpage. destruct r; cbn [updateStats_in].
  - apply script_updateStats_on_page, Hpage.
  - apply total_normal, nea24h_updateStats_total.
  - apply script_updateStats_on_page, Hpage.
Qed.

Lemma removeCrewMember_completes r id w :
  counters_on_page w -> outcome (removeCrewMember_in r id) w = Normal tt.
Proof.
  intros Hpage. unfold removeCrewMember_in, Script.removeCrewMember.
  rewrite !outcome_seq by auto with frame.
  match goal with |- outcome _ ?w3 = _ => assert (Hpage3 : counters_on_page w3) end.
  { destruct Hpage as (H1 & H2 & H3 & H4).
    repeat split; apply renderCrewGrid_keeps_elements;
      rewrite saveStateToStorage_keeps_document; assumption. }
  unfold outcome. rewrite run_bind, (updateStats_in_on_page r _ Hpage3). reflexivity.
Qed.

(** C8: removing by an id that no member carries leaves the crew list as
    it was, and the handler completes without throwing on a page that has
    the counters it updates. *)
Theorem removeCrewMember_absent_id (r : Revision) (id : Z) (w : World) :
  (forall m, In m (crew_of w) -> Member.id m <> id) ->
  counters_on_page w ->
  crew_of (run (removeCrewMember_in r id) w) = crew_of w
  /\ outcome (removeCrewMember_in r id) w = Normal tt.
Proof.
  intros Habsent Hpage. split.
  - rewrite crew_after_removeCrewMember. apply others_absent, Habsent.
  - apply removeCrewMember_completes, Hpage.
Qed.

Lemma removeCrewMember_absent_id_witness :
  crew_of (run (removeCrewMember_in AppJs 42) Sample.two_members)
  = crew_of Sample.two_members
  /\ outcome (removeCrewMember_in AppJs 42) Sample.two_members = Normal tt.
Proof.
  apply (removeCrewMember_absent_id AppJs 42 Sample.two_members).
  - intros m Hin. simpl in Hin. destruct Hin as [<-|[<-|[]]]; discriminate.
  - repeat split; exists Shipped; reflexivity.
Defined.

(** ** Saving and loading *)

Lemma bind_gets {A B} (f : World -> A) (k : A -> M B) w :
  bind (gets f) k w = k (f w) w.
Proof. reflexivity. Qed.

Lemma bind_modify {B} (f : World -> World) (k : unit -> M B) w :
  bind (modify f) k w = k tt (f w).
Proof. reflexivity. Qed.

Lemma bind_ret {A B} (a : A) (k : A -> M B) w : bind (ret a) k w = k a w.
Proof. reflexivity. Qed.

Lemma bind_normal {A B} (c : M A) (k : A -> M B) w w' a :
  c w = (w', Normal a) -> bind c k w = k a w'.
Proof. intros Hc. unfold bind. now rewrite Hc. Qed.

Lemma bind_thrown {A B} (c : M A) (k : A -> M B) w w' e :
  c w = (w', Throw e) -> bind c k w = (w', Throw e).
Proof. intros Hc. unfold bind. now rewrite Hc. Qed.

Lemma setItem_fits k v w :
  (used (<[k:=v]> (slots (localStorage w))) <= quota (localStorage w))%nat ->
  setItem k v w =
  (with_localStorage {| slots := <[k:=v]> (slots (localStorage w));
                        quota := quota (localStorage w) |} w, Normal tt).
Proof. intros Hfits. unfold setItem. apply Nat.leb_le in Hfits. now rewrite Hfits. Qed.

Lemma keys_differ : AppConfig.stats <> AppConfig.crew.
Proof. discriminate. Qed.

(** After a save that the store accepted, the roster slot holds the text
    of the roster. *)
Lemma crew_slot_after_save w :
  crew_fits w ->
  slots (localStorage (run Script.saveStateToStorage w)) !! AppConfig.crew
  = Some (JSON.stringify_crew (crew_of w)).
Proof.
  intros Hcrew. unfold crew_fits in Hcrew.
  unfold run, Script.saveStateToStorage, try_catch.
  rewrite bind_gets. fold (crew_of w).
  rewrite (bind_normal _ _ _ _ _ (setItem_fits _ _ _ Hcrew)).
  rewrite bind_gets. unfold setItem.
  destruct (_ <=? _)%nat; cbn.
  - rewrite lookup_insert_ne by exact keys_differ. apply lookup_insert_eq.
  - apply lookup_insert_eq.
Qed.

Lemma stats_slot_after_save w :
  crew_fits w -> stats_fits w ->
  slots (localStorage (run Script.saveStateToStorage w)) !! AppConfig.stats
  = Some (JSON.stringify_stats (stats_of w)).
Proof.
  intros Hcrew Hstats. unfold crew_fits in Hcrew. unfold stats_fits in Hstats.
  unfold run, Script.saveStateToStorage, try_catch.
  rewrite bind_gets. fold (crew_of w).
  rewrite (bind_normal _ _ _ _ _ (setItem_fits _ _ _ Hcrew)).
  rewrite bind_gets. cbn [app with_localStorage]. fold (stats_of w).
  rewrite setItem_fits by exact Hstats. cbn.
  apply lookup_insert_eq.
Qed.

Lemma load_shape r :
  loadStateFromStorage_in r =
  try_catch
    (savedCrew ← getItem AppConfig.crew ;
     savedStats ← getItem AppConfig.stats ;
     (if saved_truthy savedCrew then
        crew ← JSON.parse JSON.parse_crew (default EmptyString savedCrew) ;
        modify (with_app (AppState.with_crew crew))
      else ret tt) ;;
     stats_step (seeds r) savedStats)
    (load_handler (seeds r)).
Proof. destruct r; reflexivity. Qed.

Lemma with_stats_keeps_crew s : keeps crew_of (modify (with_app (AppState.with_stats s))).
Proof. intros w. reflexivity. Qed.

Lemma console_error_keeps_crew text e : keeps crew_of (console_error text e).
Proof. intros w. reflexivity. Qed.

Lemma parse_keeps {A P} (part : World -> P) (reader : string -> option A) text :
  keeps part (JSON.parse reader text).
Proof. unfold JSON.parse. destruct (reader text); auto with frame. Qed.

Lemma stats_step_keeps_crew seed saved : keeps crew_of (stats_step seed saved).
Proof.
  pose proof with_stats_keeps_crew. pose proof (@parse_keeps Stats.t _ crew_of).
  unfold stats_step. destruct (saved_truthy saved); [|destruct seed]; frame.
Qed.

Lemma load_handler_keeps_crew seed e : keeps crew_of (load_handler seed e).
Proof.
  pose proof with_stats_keeps_crew. pose proof console_error_keeps_crew.
  unfold load_handler. destruct seed; frame.
Qed.

Lemma try_bind_normal {A B} (c : M A) (k : A -> M B) handler w w' a :
  c w = (w', Normal a) ->
  try_catch (bind c k) handler w = try_catch (k a) handler w'.
Proof. intros Hc. unfold try_catch. now rewrite (bind_normal _ _ _ _ _ Hc). Qed.

Lemma read_crew_slot crew w :
  (if saved_truthy (Some (JSON.stringify_crew crew)) then
     crew ← JSON.parse JSON.parse_crew (default EmptyString (Some (JSON.stringify_crew crew))) ;
     modify (with_app (AppState.with_crew crew))
   else ret tt) w
  = (with_app (AppState.with_crew crew) w, Normal tt).
Proof.
  rewrite stringify_crew_truthy.
  change (default EmptyString (Some (JSON.stringify_crew crew)))
    with (JSON.stringify_crew crew).
  unfold JSON.parse.
  rewrite parse_stringify_crew. reflexivity.
Qed.

(** Loading from a store whose roster slot holds the text of [crew]
    installs [crew], whatever the counters slot holds. *)
Lemma crew_after_load r crew w :
  slots (localStorage w) !! AppConfig.crew = Some (JSON.stringify_crew crew) ->
  crew_of (run (loadStateFromStorage_in r) w) = crew.
Proof.
  intros Hslot. rewrite load_shape. unfold run, getItem.
  rewrite (try_bind_normal _ _ _ w w _ eq_refl).
  rewrite (try_bind_normal _ _ _ w w _ eq_refl).
  rewrite Hslot.
  rewrite (try_bind_normal _ _ _ _ _ _ (read_crew_slot crew w)).
  pose proof (keeps_try crew_of _ _ (stats_step_keeps_crew (seeds r) (slots (localStorage w) !! AppConfig.stats))
                (load_handler_keeps_crew (seeds r))) as Hkeep.
  unfold keeps, run in Hkeep. rewrite Hkeep. reflexivity.
Qed.

(** C7: a save into a store that takes the roster text, followed by a
    page load, gives back the crew list: the same members, with their
    ids, names, roles and join dates, in the same order. *)
Theorem save_then_load_crew (r : Revision) (page : gmap string Markup) (w : World) :
  crew_fits w ->
  crew_of (run (loadStateFromStorage_in r) (reload page (run Script.saveStateToStorage w)))
  = crew_of w.
Proof.
  intros Hfits. apply crew_after_load. cbn [reload localStorage].
  apply crew_slot_after_save, Hfits.
Qed.

Lemma read_stats_slot seed stats w :
  stats_step seed (Some (JSON.stringify_stats stats)) w
  = (with_app (AppState.with_stats stats) w, Normal tt).
Proof.
  unfold stats_step. rewrite stringify_stats_truthy.
  change (default EmptyString (Some (JSON.stringify_stats stats)))
    with (JSON.stringify_stats stats).
  unfold JSON.parse. rewrite parse_stringify_stats. reflexivity.
Qed.

(** Loading from a store whose two slots hold the texts of [crew] and
    [stats] installs both. *)
Lemma app_after_load r crew stats w :
  slots (localStorage w) !! AppConfig.crew = Some (JSON.stringify_crew crew) ->
  slots (localStorage w) !! AppConfig.stats = Some (JSON.stringify_stats stats) ->
  crew_of (run (loadStateFromStorage_in r) w) = crew
  /\ stats_of (run (loadStateFromStorage_in r) w) = stats.
Proof.
  intros Hcrew Hstats. split; [apply crew_after_load, Hcrew|].
  rewrite load_shape. unfold run, getItem.
  rewrite (try_bind_normal _ _ _ w w _ eq_refl).
  rewrite (try_bind_normal _ _ _ w w _ eq_refl).
  rewrite Hcrew, Hstats.
  rewrite (try_bind_normal _ _ _ _ _ _ (read_crew_slot crew w)).
  unfold try_catch. rewrite read_stats_slot. reflexivity.
Qed.

(** C1, as the handlers have it: each crew addition or removal leaves
    [stats.crewMembers] equal to the length of the crew list; a load
    copies the stored counters, so the equality is there after a load
    when one accepted save of a state that had it wrote both slots. *)
Theorem crew_counted_after_mutation_and_after_saved_load
    (r : Revision) (ops : list CrewOp) (w0 : World)
    (page : gmap string Markup) (w : World) :
  crew_counted w -> crew_fits w -> stats_fits w ->
  Forall crew_counted (states_after r ops w0)
  /\ crew_counted
       (run (loadStateFromStorage_in r) (reload page (run Script.saveStateToStorage w))).
Proof.
  intros Hcounted Hcrew Hstats. split; [apply states_after_counted|].
  destruct (app_after_load r (crew_of w) (stats_of w)
              (reload page (run Script.saveStateToStorage w))) as [Hc Hs].
  - cbn [reload localStorage]. apply crew_slot_after_save, Hcrew.
  - cbn [reload localStorage]. apply stats_slot_after_save; assumption.
  - unfold crew_counted. rewrite Hc, Hs. exact Hcounted.
Qed.

Lemma crew_counted_after_mutation_and_after_saved_load_witness :
  Forall crew_counted
    (states_after AppJs [Add Sample.offline "Cy" "Scout"; Remove 1700000000000]
       Sample.first_visit)
  /\ crew_counted
       (run (loadStateFromStorage_in AppJs)
          (reload Sample.page (run Script.saveStateToStorage Sample.two_members))).
Proof.
  apply (crew_counted_after_mutation_and_after_saved_load AppJs _ _ _ Sample.two_members).
  - reflexivity.
  - apply Nat.leb_le. vm_compute. reflexivity.
  - apply Nat.leb_le. vm_compute. reflexivity.
Defined.

(** On a first visit the loader of part_000 seeds the counters with the
    demonstration snapshot: 28 crew members against an empty roster. *)
Lemma seeded_load_miscounts :
  ~ crew_counted (run Nea24h.loadStateFromStorage Sample.first_visit).
Proof. vm_compute. discriminate. Qed.

Lemma save_then_load_crew_witness :
  crew_of (run (loadStateFromStorage_in Part000)
             (reload Sample.page (run Script.saveStateToStorage Sample.two_members)))
  = crew_of Sample.two_members.
Proof.
  apply (save_then_load_crew Part000 Sample.page Sample.two_members).
  apply Nat.leb_le. vm_compute. reflexivity.
Defined.

(** ** Stepping through a handler *)

Lemma bind_assoc {A B C} (c : M A) (k : A -> M B) (k' : B -> M C) w :
  bind (bind c k) k' w = bind c (fun a => bind (k a) k') w.
Proof. unfold bind. destruct (c w) as [w1 [a|e]]; reflexivity. Qed.

Lemma bind_getElementById {B} i (k : option string -> M B) w :
  bind (getElementById i) k w
  = k (match document w !! i with Some _ => Some i | None => None end) w.
Proof. reflexivity. Qed.

Lemma bind_assign {B} i what m (k : unit -> M B) w :
  bind (assign (Some i) what m) k w = k tt (with_document (<[i:=m]> (document w)) w).
Proof. reflexivity. Qed.

Lemma run_assign i what m w :
  assign (Some i) what m w = (with_document (<[i:=m]> (document w)) w, Normal tt).
Proof. reflexivity. Qed.

Lemma bind_console {B} l (k : unit -> M B) w :
  bind (modify (with_console l)) k w = k tt (with_console l w).
Proof. reflexivity. Qed.

Lemma bind_fetch {B} env r (k : Response.t -> M B) w :
  bind (fetch env r) k w
  = match network env r with
    | Rejected => (with_request r w, Throw NetworkError)
    | Responded resp => k resp (with_request r w)
    end.
Proof. unfold bind, fetch. destruct (network env r); reflexivity. Qed.

Lemma bind_json {B} resp (k : JsVal -> M B) w :
  bind (json resp) k w
  = match Response.body resp with
    | Some v => k v w
    | None => (w, Throw SyntaxError)
    end.
Proof. unfold bind, json. destruct (Response.body resp); reflexivity. Qed.

Ltac world_fields :=
  cbn [document app localStorage console notifications requests
       with_document with_app with_localStorage with_console with_notification
       with_request reload].

(** One step of the handler at the head of the goal. *)
Ltac exec_step :=
  match goal with
  | |- context [bind (bind ?c ?k) ?k' ?w] => rewrite (bind_assoc c k k' w)
  | |- context [bind (lift ?c) ?k ?w] =>
      let c' := eval vm_compute in c in
      lazymatch c' with
      | Normal ?a => change (bind (lift c) k w) with (k a w)
      | Throw ?e => change (bind (lift c) k w) with (w, @Throw unit e)
      end
  | |- context [bind (ret ?a) ?k ?w] => change (bind (ret a) k w) with (k a w)
  | |- context [bind (throw ?e) ?k ?w] => change (bind (throw e) k w) with (w, @Throw unit e)
  | |- context [bind (fetch ?env ?r) ?k ?w] => rewrite (bind_fetch env r k w)
  | |- context [bind (json ?resp) ?k ?w] => rewrite (bind_json resp k w)
  | |- context [bind (getElementById ?i) ?k ?w] => rewrite (bind_getElementById i k w)
  | |- context [bind (set_innerHTML (Some ?i) ?m) ?k ?w] =>
      change (bind (set_innerHTML (Some i) m) k w)
        with (k tt (with_document (<[i:=m]> (document w)) w))
  | |- context [bind (console_log ?t) ?k ?w] =>
      change (bind (console_log t) k w) with (k tt (with_console (Log t) w))
  | |- context [bind (console_warn ?t) ?k ?w] =>
      change (bind (console_warn t) k w) with (k tt (with_console (Warn t) w))
  | |- context [bind (console_error ?t ?e) ?k ?w] =>
      change (bind (console_error t e) k w) with (k tt (with_console (LogError t e) w))
  | |- context [bind (modify ?f) ?k ?w] => change (bind (modify f) k w) with (k tt (f w))
  | |- context [bind (set_id (Some ?i) ?j) ?k ?w] =>
      change (bind (set_id (Some i) j) k w)
        with (k tt (match document w !! i with
                    | Some m => with_document (<[j:=m]> (delete i (document w))) w
                    | None => w
                    end))
  | |- context [set_innerHTML (Some ?i) ?m ?w] =>
      change (set_innerHTML (Some i) m w)
        with (with_document (<[i:=m]> (document w)) w, @Normal unit tt)
  | |- context [console_log ?t ?w] =>
      change (console_log t w) with (with_console (Log t) w, @Normal unit tt)
  | |- context [console_warn ?t ?w] =>
      change (console_warn t w) with (with_console (Warn t) w, @Normal unit tt)
  | |- context [@ret unit tt ?w] => change (@ret unit tt w) with (w, @Normal unit tt)
  | |- context [bind (if ?b then ?x else ?y) ?k ?w] =>
      let b' := eval vm_compute in b in
      lazymatch b' with
      | true => change (bind (if b then x else y) k w) with (bind x k w)
      | false => change (bind (if b then x else y) k w) with (bind y k w)
      end
  | |- context [(if ?b then ?x else ?y) ?w] =>
      let b' := eval vm_compute in b in
      lazymatch b' with
      | true => change ((if b then x else y) w) with (x w)
      | false => change ((if b then x else y) w) with (y w)
      end
  end; cbv beta iota; world_fields.

Ltac exec_lookups :=
  repeat first
    [ rewrite lookup_insert_eq
    | rewrite lookup_insert_ne by discriminate
    | rewrite lookup_delete_eq
    | rewrite lookup_delete_ne by discriminate ].

(** Runs the handler to its end; [tac] supplies what is known of the page
    and of the network. *)
Ltac exec tac := repeat (first [ exec_step | progress tac ]; exec_lookups).

(** ** The mock render *)

(** The mock render of part_000 cannot throw, and draws the mock view on
    whatever page it finds. *)
Lemma nea24h_mock_run env w :
  Nea24h.updateWeatherUI env (Nea24h.getMockWeatherData env) w
  = (MockView.nea24h_world env w, Normal tt).
Proof.
  unfold MockView.nea24h_world, Nea24h.updateWeatherUI, Nea24h.renderForecastGrid.
  unfold MockView.nea24h, draw.
  destruct (document w !! "current-weather") eqn:Hcw;
  destruct (document w !! "ocean-conditions") eqn:Hoc;
  destruct (document w !! "weather-grid") eqn:Hgrid;
  exec ltac:(rewrite ?Hcw, ?Hoc, ?Hgrid); reflexivity.
Qed.

(** The mock render of part_001, likewise. *)
Lemma neapair_mock_run env w :
  NeaPair.updateWeatherUI env (NeaPair.getMockForecastData env) NeaPair.getMockReadingsData w
  = (with_document (MockView.neapair env (document w)) w, Normal tt).
Proof.
  destruct w as [a s d c n r].
  unfold NeaPair.updateWeatherUI, NeaPair.renderForecastGrid.
  unfold MockView.neapair, MockView.neapair_grid, draw. world_fields.
  destruct (d !! "current-weather") eqn:Hcw;
  destruct (d !! "ocean-conditions") eqn:Hoc;
  destruct (d !! "best-time") eqn:Hbt;
  destruct (d !! "weather-grid") eqn:Hgrid;
  exec ltac:(rewrite ?Hcw, ?Hoc, ?Hbt, ?Hgrid; cbv iota; world_fields).
  all: rewrite ?delete_insert_eq; reflexivity.
Qed.

(** ** The weather pipeline on a failed request *)

(** C2: app.js does not look at the status.  The endpoint answers 500
    with a JSON body that carries readings: the pipeline draws those
    readings, logs nothing, and the mock forecast (the storm glyph,
    22 degrees, wind 12) is not what the page shows. *)
Theorem openmeteo_http_500_is_drawn_as_live :
  let env := Sample.http_500 (Some Sample.readings_500) in
  let w' := run (OpenMeteo.fetchWeatherData env) Sample.located in
  document w' !! "current-weather"
    = Some (Template [JStr Glyph.sun; Script.num 30; Script.num 5])
  /\ document (run (OpenMeteo.updateWeatherUI OpenMeteo.getMockWeatherData) Sample.located)
       !! "current-weather"
     = Some (Template [JStr Glyph.thunderstorm; Script.num 22; Script.num 12])
  /\ console w' = []
  /\ Glyph.sun <> Glyph.thunderstorm.
Proof. repeat split; [vm_compute; reflexivity .. | discriminate]. Qed.

(** The same defect in part_001, on the reply a failing service really
    gives: a 500 with an error report draws neither forecast nor mock,
    and the handler of the [catch] is never entered. *)
Lemma neapair_http_500_draws_nothing :
  let env := Sample.http_500 (Some Sample.error_report) in
  let w' := run (NeaPair.fetchWeatherData env) Sample.first_visit in
  document w' !! "current-weather" = Some Shipped
  /\ document w' !! "ocean-conditions" = Some Shipped
  /\ document w' !! "weather-grid" = Some Shipped
  /\ console w' = [].
Proof. repeat split; vm_compute; reflexivity. Qed.

(** What part_000 does on a failed request, whatever made it fail. *)
Lemma nea24h_fallback env e w :
  (console_error "❌ NEA Weather API error:" e ;;
   console_log "📋 Using mock weather data..." ;;
   modify (with_app (AppState.with_weather (Nea24h.getMockWeatherData env))) ;;
   Nea24h.updateWeatherUI env (Nea24h.getMockWeatherData env)) w
  = (MockView.nea24h_world env
       (with_app (AppState.with_weather (Nea24h.getMockWeatherData env))
          (with_console (Log "📋 Using mock weather data...")
             (with_console (LogError "❌ NEA Weather API error:" e) w))),
     Normal tt).
Proof. do 3 exec_step. apply nea24h_mock_run. Qed.

Lemma nea24h_run_bad_status env w resp :
  network env {| endpoint := AppConfig.nea24HourWeather; query := [] |} = Responded resp ->
  Response.ok resp = false ->
  Nea24h.fetchWeatherData env w
  = (nea24h_after_failure env
       (Error ("API returned status " +:+ JSON.print_int (Response.status resp))) w,
     Normal tt).
Proof.
  intros Hnet Hok. unfold Nea24h.fetchWeatherData, try_catch.
  do 2 exec_step. rewrite Hnet, Hok.
  do 2 exec_step. cbv iota. apply nea24h_fallback.
Qed.

Lemma nea24h_run_rejected env w :
  network env {| endpoint := AppConfig.nea24HourWeather; query := [] |} = Rejected ->
  Nea24h.fetchWeatherData env w = (nea24h_after_failure env NetworkError w, Normal tt).
Proof.
  intros Hnet. unfold Nea24h.fetchWeatherData, try_catch.
  do 2 exec_step. rewrite Hnet. cbv iota. apply nea24h_fallback.
Qed.

(** part_000 does what the claim C2 asks: a reply whose status is not a
    success ends in the handler of the [catch], as a rejected request
    does; the state and the page end up the same in both cases, showing
    the mock forecast, and nothing is thrown to the caller. *)
Lemma nea24h_bad_status_is_a_network_failure env w resp :
  network env {| endpoint := AppConfig.nea24HourWeather; query := [] |} = Responded resp ->
  Response.ok resp = false ->
  let by_status := Nea24h.fetchWeatherData env in
  let by_network := Nea24h.fetchWeatherData (unreachable env) in
  outcome by_status w = Normal tt
  /\ outcome by_network w = Normal tt
  /\ AppState.weather (app (run by_status w)) = Nea24h.getMockWeatherData env
  /\ document (run by_status w) = MockView.nea24h env (document w)
  /\ app (run by_status w) = app (run by_network w)
  /\ document (run by_status w) = document (run by_network w)
  /\ localStorage (run by_status w) = localStorage (run by_network w).
Proof.
  intros Hnet Hok. cbv zeta. unfold outcome, run.
  rewrite (nea24h_run_bad_status env w resp Hnet Hok).
  rewrite (nea24h_run_rejected (unreachable env) w eq_refl).
  repeat split.
Qed.

(** ** Defaults of the 24-hour forecast, field by field *)

Lemma js_or_per_field value default : per_field value default (js_or value default).
Proof. unfold per_field, js_or. destruct (truthy value); auto. Qed.


Lemma member_not_nullish v k :
  nullish v = false -> member v k = Normal (field [Dot k] v).
Proof. destruct v; try reflexivity; discriminate. Qed.


Lemma opt_step_normal s v : exists x, opt_step s v = Normal x.
Proof.
  unfold opt_step. destruct (nullish v) eqn:Hv; [eauto|].
  destruct s, v; try discriminate Hv; cbn; eauto.
Qed.

(** An optional chain never throws. *)
Lemma opt_path_normal steps : forall v, opt_path steps v = Normal (field steps v).
Proof.
  unfold field. induction steps as [|s steps IH]; intros v; [reflexivity|].
  cbn [opt_path]. destruct (opt_step_normal s v) as [x ->]. cbn [cbind].
  rewrite IH. destruct (opt_path steps x); reflexivity.
Qed.






Lemma getForecastEmoji_of_text text :
  getForecastEmoji (JStr text) = Normal (glyph_of text).
Proof.
  unfold glyph_of. destruct (getForecastEmoji (JStr text)) as [g|e] eqn:H; [reflexivity|].
  unfold getForecastEmoji in H. cbn [toLowerCase cbind] in H.
  repeat match type of H with (if ?b then _ else _) = _ => destruct b end; discriminate H.
Qed.


(** The grid of part_000 is always drawn from the 4-day mock. *)
Lemma nea24h_grid_run env w :
  Nea24h.renderForecastGrid env (Nea24h.getMock4DayForecast env) w
  = (with_console
       (match document w !! "weather-grid" with
        | Some _ => Log "✓ Forecast grid rendered"
        | None => Warn "Cannot render forecast - missing data"
        end)
       (with_document (draw "weather-grid" (MockView.nea24h_cards env) (document w)) w),
     Normal tt).
Proof.
  unfold Nea24h.renderForecastGrid, draw.
  destruct (document w !! "weather-grid") eqn:Hgrid;
    exec ltac:(rewrite ?Hgrid); reflexivity.
Qed.

Lemma lookup_draw_ne k j m (d : gmap string Markup) : k <> j -> draw k m d !! j = d !! j.
Proof.
  intros Hne. unfold draw. destruct (d !! k); [|reflexivity].
  now rewrite lookup_insert_ne.
Qed.

Ltac lift_step H := rewrite H; unfold bind at 1, lift at 1.

Section Nea24hDefaults.

Variables (env : Env) (w : World) (weatherData item : JsVal) (text : string).

Let general : JsVal := js_or (field [Dot "general"] item) (JObj []).
Let shown (steps : list Step) (default : JsVal) : JsVal := js_or (field steps general) default.

Hypothesis Hitem : opt_path [Dot "items"; Zero] weatherData = Normal item.
Hypothesis Htruthy : truthy item = true.
Hypothesis Htext : shown [Dot "forecast"] (JStr "Partly cloudy") = JStr text.
Hypothesis Hcurrent : is_Some (document w !! "current-weather").
Hypothesis Hocean : is_Some (document w !! "ocean-conditions").


End Nea24hDefaults.


(** A forecast that lacks the humidity band only: the page shows the
    default band 60-85 for the humidity, and the temperatures and the
    wind of the body. *)
Lemma no_humidity_drawn :
  let w' := run (Nea24h.updateWeatherUI Sample.offline Sample.no_humidity)
              Sample.first_visit in
  document w' !! "current-weather"
  = Some (Template [JStr Glyph.thunderstorm; Script.num 31; Script.num 60; Script.num 85;
                    Script.num 10; Script.num 20; JStr "SW"])
  /\ document w' !! "ocean-conditions"
     = Some (Template [JStr "Thundery showers"; Script.num 60; Script.num 85;
                       Script.num 24; Script.num 31]).
Proof. split; vm_compute; reflexivity. Qed.

(** ** The two-endpoint pipeline *)

Section Steps.

Context (R : World -> World -> Prop).
Hypothesis R_refl : forall w, R w w.
Hypothesis R_trans : forall w1 w2 w3, R w1 w2 -> R w2 w3 -> R w1 w3.

Lemma steps_ret {A} (a : A) : steps R (ret a).
Proof. intros w. apply R_refl. Qed.

Lemma steps_lift {A} (c : Completion A) : steps R (lift c).
Proof. intros w. apply R_refl. Qed.

Lemma steps_assign_null what m : steps R (assign None what m).
Proof. intros w. apply R_refl. Qed.

Lemma steps_bind {A B} (c : M A) (k : A -> M B) :
  steps R c -> (forall a, steps R (k a)) -> steps R (bind c k).
Proof.
  intros Hc Hk w. unfold run at 1. rewrite run_bind.
  destruct (outcome c w) as [a|e]; cbn [fst].
  - apply (R_trans _ (run c w)); [apply Hc | apply Hk].
  - apply Hc.
Qed.

Lemma steps_getElementById {B} i (k : option string -> M B) :
  steps R (k (Some i)) -> steps R (k None) -> steps R (bind (getElementById i) k).
Proof.
  intros Hsome Hnone w. unfold run. rewrite bind_getElementById.
  destruct (document w !! i); [apply Hsome | apply Hnone].
Qed.

Lemma thrown_of_steps {A} (c : M A) : steps R c -> steps_if_thrown R c.
Proof. intros Hc w _. apply Hc. Qed.

Lemma thrown_assign el what m : steps_if_thrown R (assign el what m).
Proof. intros w Hthrew. destruct el; [discriminate Hthrew | apply R_refl]. Qed.

Lemma thrown_bind {A B} (c : M A) (k : A -> M B) :
  steps R c -> (forall a, steps_if_thrown R (k a)) -> steps_if_thrown R (bind c k).
Proof.
  intros Hc Hk w. unfold run, outcome. rewrite run_bind.
  destruct (outcome c w) as [a|e]; cbn [fst snd]; intros Hthrew.
  - apply (R_trans _ (run c w)); [apply Hc | apply Hk, Hthrew].
  - apply Hc.
Qed.

Lemma thrown_getElementById {B} i (k : option string -> M B) :
  steps_if_thrown R (k (Some i)) -> steps_if_thrown R (k None) ->
  steps_if_thrown R (bind (getElementById i) k).
Proof.
  intros Hsome Hnone w. unfold run, outcome. rewrite bind_getElementById.
  destruct (document w !! i); [apply Hsome | apply Hnone].
Qed.

End Steps.

Lemma element_stays_refl k w : element_stays k w w.
Proof. intros H. exact H. Qed.

Lemma element_stays_trans k w1 w2 w3 :
  element_stays k w1 w2 -> element_stays k w2 w3 -> element_stays k w1 w3.
Proof. unfold element_stays. auto. Qed.

Lemma shows_same_refl k w : shows_same k w w.
Proof. reflexivity. Qed.

Lemma shows_same_trans k w1 w2 w3 :
  shows_same k w1 w2 -> shows_same k w2 w3 -> shows_same k w1 w3.
Proof. unfold shows_same. congruence. Qed.

Lemma assign_element_stays k i what m : steps (element_stays k) (assign (Some i) what m).
Proof.
  intros w Hk. cbn. destruct (decide (i = k)) as [->|Hne].
  - rewrite lookup_insert_eq. eauto.
  - now rewrite lookup_insert_ne.
Qed.

Lemma set_id_element_stays k i j : i <> k -> steps (element_stays k) (set_id (Some i) j).
Proof.
  intros Hik w Hk. cbn. destruct (document w !! i); [|exact Hk]. cbn.
  destruct (decide (j = k)) as [->|Hne].
  - rewrite lookup_insert_eq. eauto.
  - rewrite lookup_insert_ne, lookup_delete_ne by assumption. exact Hk.
Qed.

Lemma assign_shows_same k i what m : i <> k -> steps (shows_same k) (assign (Some i) what m).
Proof. intros Hne w. cbn. unfold shows_same. cbn. now rewrite lookup_insert_ne. Qed.

Lemma set_id_shows_same k i j :
  i <> k -> j <> k -> steps (shows_same k) (set_id (Some i) j).
Proof.
  intros Hik Hjk w. unfold shows_same. cbn. destruct (document w !! i); [|reflexivity].
  cbn. now rewrite lookup_insert_ne, lookup_delete_ne.
Qed.

Lemma same_requests_refl w : same_requests w w.
Proof. reflexivity. Qed.

Lemma same_requests_trans w1 w2 w3 :
  same_requests w1 w2 -> same_requests w2 w3 -> same_requests w1 w3.
Proof. unfold same_requests. congruence. Qed.

Lemma assign_same_requests i what m : steps same_requests (assign (Some i) what m).
Proof. intros w. reflexivity. Qed.

Lemma set_id_same_requests i j : steps same_requests (set_id (Some i) j).
Proof. intros w. unfold same_requests. cbn. destruct (document w !! i); reflexivity. Qed.

(** Splits a render along its sequencing, its lookups and its tests. *)
Ltac walk refl trans :=
  repeat first
    [ apply (steps_ret _ refl)
    | apply (steps_lift _ refl)
    | apply (steps_assign_null _ refl)
    | apply assign_element_stays
    | apply set_id_element_stays; discriminate
    | apply assign_shows_same; discriminate
    | apply set_id_shows_same; discriminate
    | apply assign_same_requests
    | apply set_id_same_requests
    | apply (thrown_assign _ refl)
    | match goal with
      | |- forall _, _ => intro
      | |- steps _ (if ?b then _ else _) => destruct b
      | |- steps_if_thrown _ (if ?b then _ else _) => destruct b
      | |- steps ?R (bind (getElementById ?i) ?k) =>
          apply (steps_getElementById R i k); cbv beta iota
      | |- steps_if_thrown ?R (bind (getElementById ?i) ?k) =>
          apply (thrown_getElementById R i k); cbv beta iota
      end
    | apply (steps_bind _ trans)
    | apply (thrown_bind _ trans)
    | apply thrown_of_steps ].

Lemma neapair_render_keeps_panel k env forecastData readingsData :
  k = "current-weather" \/ k = "ocean-conditions" ->
  steps (element_stays k) (NeaPair.updateWeatherUI env forecastData readingsData).
Proof.
  intros [->| ->];
    unfold NeaPair.updateWeatherUI, NeaPair.renderForecastGrid, set_innerHTML, found;
    walk (element_stays_refl "current-weather") (element_stays_trans "current-weather");
    walk (element_stays_refl "ocean-conditions") (element_stays_trans "ocean-conditions").
Qed.

(** A live render that throws has not touched the grid. *)
Lemma neapair_thrown_render_keeps_grid env forecastData readingsData :
  steps_if_thrown (shows_same "weather-grid")
    (NeaPair.updateWeatherUI env forecastData readingsData).
Proof.
  unfold NeaPair.updateWeatherUI, NeaPair.renderForecastGrid, set_innerHTML, found.
  walk (shows_same_refl "weather-grid") (shows_same_trans "weather-grid").
Qed.

(** A render issues no request. *)
Lemma neapair_render_requests env forecastData readingsData :
  steps same_requests (NeaPair.updateWeatherUI env forecastData readingsData).
Proof.
  unfold NeaPair.updateWeatherUI, NeaPair.renderForecastGrid, set_innerHTML, found.
  walk same_requests_refl same_requests_trans.
Qed.

(** Case analysis on the elements a view looks up. *)
Ltac split_lookups :=
  repeat (exec_lookups;
          match goal with
          | H : ?d !! ?k = _ |- context [?d !! ?k] => rewrite H
          | |- context [match ?d !! ?k with _ => _ end] =>
              is_var d; let H := fresh "Hlookup" in destruct (d !! k) eqn:H
          end);
  exec_lookups.

(** What the mock view of part_001 puts in each weather element. *)
Lemma neapair_view_current env (d : gmap string Markup) :
  MockView.neapair env d !! "current-weather"
  = match d !! "current-weather" with
    | Some _ => Some MockView.neapair_current
    | None => None
    end.
Proof.
  unfold MockView.neapair, MockView.neapair_grid, draw.
  split_lookups; congruence.
Qed.

Lemma neapair_view_ocean env (d : gmap string Markup) :
  MockView.neapair env d !! "ocean-conditions"
  = match d !! "ocean-conditions" with
    | Some _ => Some MockView.neapair_ocean
    | None => None
    end.
Proof.
  unfold MockView.neapair, MockView.neapair_grid, draw.
  split_lookups; congruence.
Qed.

Lemma neapair_view_grid env (d : gmap string Markup) :
  MockView.neapair env d !! "weather-grid"
  = match d !! "best-time", d !! "weather-grid" with
    | Some _, Some _ => Some (MockView.neapair_cards env)
    | _, _ => d !! "weather-grid"
    end.
Proof.
  unfold MockView.neapair, MockView.neapair_grid, draw.
  split_lookups; congruence.
Qed.

Lemma neapair_fallback env e w :
  (console_error "NEA Weather API error:" e ;;
   NeaPair.updateWeatherUI env (NeaPair.getMockForecastData env)
     NeaPair.getMockReadingsData) w
  = (with_document (MockView.neapair env (document w))
       (with_console (LogError "NEA Weather API error:" e) w), Normal tt).
Proof.
  exec_step.
  exact (neapair_mock_run env (with_console (LogError "NEA Weather API error:" e) w)).
Qed.

Lemma mock_view_after_thrown_render env forecastData readingsData w :
  threw (outcome (NeaPair.updateWeatherUI env forecastData readingsData) w) = true ->
  mock_or_untouched env (document w)
    (MockView.neapair env
       (document (run (NeaPair.updateWeatherUI env forecastData readingsData) w))).
Proof.
  intros Hthrew.
  pose proof (neapair_render_keeps_panel "current-weather" env forecastData readingsData
                (or_introl eq_refl) w) as Hcw.
  pose proof (neapair_render_keeps_panel "ocean-conditions" env forecastData readingsData
                (or_intror eq_refl) w) as Hoc.
  pose proof (neapair_thrown_render_keeps_grid env forecastData readingsData w Hthrew)
    as Hgrid.
  unfold element_stays in Hcw, Hoc. unfold shows_same in Hgrid.
  set (d1 := document (run (NeaPair.updateWeatherUI env forecastData readingsData) w)) in *.
  unfold mock_or_untouched.
  rewrite neapair_view_current, neapair_view_ocean, neapair_view_grid.
  repeat split.
  - destruct (d1 !! "current-weather") eqn:H1; [left; reflexivity|right].
    destruct (document w !! "current-weather") eqn:H0; [|reflexivity].
    destruct Hcw as [m' Hm]; [eauto|discriminate Hm].
  - destruct (d1 !! "ocean-conditions") eqn:H1; [left; reflexivity|right].
    destruct (document w !! "ocean-conditions") eqn:H0; [|reflexivity].
    destruct Hoc as [m' Hm]; [eauto|discriminate Hm].
  - destruct (d1 !! "best-time"), (d1 !! "weather-grid") eqn:H1;
      solve [left; reflexivity | right; congruence].
Qed.

(** part_001 asks for the forecast, then for the readings, and renders
    once; nothing is thrown to the caller.  When both replies carried a
    body, whatever their status, both requests were issued before
    anything was drawn and the page is what the render of those two
    bodies leaves, or, if that render throws, what the render of the
    mock pair makes of it.  When a request was rejected or a body was no
    JSON, the render of the mock pair is all that ran: it draws the two
    panels, and the grid on a page that still has its [best-time]
    panel. *)
Lemma neapair_draws_live_pair_or_mock_pair (env : Env) (w : World) :
  let w' := run (NeaPair.fetchWeatherData env) w in
  outcome (NeaPair.fetchWeatherData env) w = Normal tt
  /\ match received env forecast_request, received env readings_request with
     | Some forecastData, Some readingsData =>
         let w2 := with_request readings_request (with_request forecast_request w) in
         let render := NeaPair.updateWeatherUI env forecastData readingsData in
         requests w' = (requests w ++ [forecast_request; readings_request])%list
         /\ ((outcome render w2 = Normal tt /\ w' = run render w2)
             \/ (threw (outcome render w2) = true
                 /\ document w' = MockView.neapair env (document (run render w2))
                 /\ mock_or_untouched env (document w) (document w')))
     | _, _ => document w' = MockView.neapair env (document w)
     end.
Proof.
  cbv zeta. unfold run, outcome, received, NeaPair.fetchWeatherData, try_catch.
  fold forecast_request readings_request.
  rewrite bind_fetch.
  destruct (network env forecast_request) as [|a].
  { rewrite neapair_fallback. split; reflexivity. }
  rewrite bind_json. destruct (Response.body a) as [forecastData|].
  2: { rewrite neapair_fallback. split; reflexivity. }
  rewrite bind_fetch.
  destruct (network env readings_request) as [|b].
  { rewrite neapair_fallback. split; reflexivity. }
  rewrite bind_json. destruct (Response.body b) as [readingsData|].
  2: { rewrite neapair_fallback. split; reflexivity. }
  set (w2 := with_request readings_request (with_request forecast_request w)).
  pose proof (mock_view_after_thrown_render env forecastData readingsData w2) as Hmock.
  pose proof (neapair_render_requests env forecastData readingsData w2) as Hreq.
  unfold same_requests in Hreq. unfold run, outcome in Hmock, Hreq.
  assert (Hw2 : requests w2 = (requests w ++ [forecast_request; readings_request])%list).
  { subst w2. cbn [requests with_request]. now rewrite <- app_assoc. }
  destruct (NeaPair.updateWeatherUI env forecastData readingsData w2) as [w1 [[]|e]].
  - split; [reflexivity|]. cbn [fst snd] in *. split; [congruence|].
    left. split; reflexivity.
  - rewrite neapair_fallback. split; [reflexivity|]. cbn [fst snd] in *.
    split; [cbn [requests with_document with_console]; congruence|].
    right. split; [reflexivity|]. split; [reflexivity|]. apply Hmock. reflexivity.
Qed.

(** C6, where the code leaves the claim: a failure of one of the two
    calls does not always end in the mock drawn for both results.
    (1) The forecast service answers 500 with an error report and the
    readings come: the status is not looked at, the report is taken for
    the forecast, and the page shows the live reading beside the default
    humidity 75, an untouched ocean panel and an untouched grid; the
    [catch] is not entered and no mock is drawn.
    (2) A live run, then a run without network: the fallback draws the
    mock into the two panels, and the grid keeps the live card, since
    the first render renamed the [best-time] panel from which the grid
    is drawn. *)
Theorem neapair_failed_call_leaves_a_mix :
  let w1 := run (NeaPair.fetchWeatherData PairCases.forecast_down) Sample.first_visit in
  let live := run (NeaPair.fetchWeatherData PairCases.online) Sample.first_visit in
  let w2 := run (NeaPair.fetchWeatherData Sample.offline) live in
  (network PairCases.forecast_down forecast_request
   = Responded (Response.Build false 500 (Some Sample.error_report))
   /\ document w1 !! "current-weather" = Some (Template [Script.num 31; Script.num 75])
   /\ document w1 !! "ocean-conditions" = Some Shipped
   /\ document w1 !! "weather-grid" = Some Shipped
   /\ console w1 = [])
  /\ (document live !! "current-weather" = Some (Template [Script.num 31; Script.num 90])
      /\ document live !! "ocean-conditions"
         = Some (Template [JStr "Fair"; Script.num 55; Script.num 90])
      /\ document live !! "weather-grid" = Some PairCases.live_cards
      /\ network Sample.offline forecast_request = Rejected
      /\ document w2 !! "current-weather" = Some MockView.neapair_current
      /\ document w2 !! "ocean-conditions" = Some MockView.neapair_ocean
      /\ document w2 !! "weather-grid" = Some PairCases.live_cards
      /\ PairCases.live_cards <> MockView.neapair_cards Sample.offline).
Proof.
  cbv zeta. split; [repeat split; vm_compute; reflexivity|].
  repeat (split; [vm_compute; reflexivity|]).
  vm_compute. discriminate.
Qed.

(** The forecast arrives and the readings do not: the page shows the
    mock pair, the parsed forecast is not drawn. *)
Lemma neapair_readings_rejected_shows_mock_pair :
  let live_forecast :=
    JObj [("items", JArr [JObj [("forecasts", JArr [
      JObj [("date", JStr "2026-11-01"); ("forecast", JStr "Fair");
            ("relative_humidity", Script.band 50 70)]])]])] in
  let env := Sample.env (fun r =>
    if String.eqb (endpoint r) AppConfig.neaWeather4Day
    then Responded (Response.Build true 200 (Some live_forecast))
    else Rejected) in
  let w' := run (NeaPair.fetchWeatherData env) Sample.first_visit in
  document w' !! "current-weather" = Some MockView.neapair_current
  /\ document w' !! "ocean-conditions" = Some MockView.neapair_ocean
  /\ document w' !! "weather-grid" = Some (MockView.neapair_cards env)
  /\ requests w' = [forecast_request; readings_request].
Proof. repeat split; vm_compute; reflexivity. Qed.

(** The mock days as cards: the glyph of "Partly cloudy" is the plain
    cloud. *)
Lemma neapair_mock_cards :
  MockView.neapair_cards Sample.offline
  = Cards [[JStr "Sun, 1 Nov"; JStr Glyph.cloud; JStr "Partly cloudy";
            Script.num 60; Script.num 80; JStr "✅ Best for cleanup!"];
           [JStr "Sun, 1 Nov"; JStr Glyph.thunderstorm; JStr "Thundery showers";
            Script.num 70; Script.num 90; JStr EmptyString];
           [JStr "Sun, 1 Nov"; JStr Glyph.cloud; JStr "Cloudy";
            Script.num 65; Script.num 85; JStr EmptyString];
           [JStr "Sun, 1 Nov"; JStr Glyph.cloud; JStr "Partly cloudy";
            Script.num 60; Script.num 80; JStr EmptyString]].
Proof. vm_compute. reflexivity. Qed.


(** * Further properties of the code *)

(** ** What a save does, and what it never does *)

Lemma setItem_refused k v w :
  ~ (used (<[k:=v]> (slots (localStorage w))) <= quota (localStorage w))%nat ->
  setItem k v w = (w, Throw QuotaExceededError).
Proof.
  intros Hfull. unfold setItem. cbv zeta.
  destruct (Nat.leb_spec (used (<[k:=v]> (slots (localStorage w)))) (quota (localStorage w)));
    [contradiction | reflexivity].
Qed.

(** X1: [saveStateToStorage] never throws, whatever the store does with
    the two writes, and it changes neither [AppState] nor the page, the
    notifications or the requests. *)
Theorem saveStateToStorage_never_throws (w : World) :
  let w' := run Script.saveStateToStorage w in
  outcome Script.saveStateToStorage w = Normal tt
  /\ app w' = app w /\ document w' = document w
  /\ notifications w' = notifications w /\ requests w' = requests w.
Proof.
  unfold Script.saveStateToStorage, try_catch, bind, gets, setItem, console_error, modify,
    run, outcome.
  cbn. destruct (_ <=? _)%nat; cbn; [destruct (_ <=? _)%nat; cbn|]; repeat split.
Qed.

(** X2: when the store has no room for the roster text, the save stops
    at that first write: the store is left as it was (the counters are
    not written either) and the refusal is logged once. *)
Theorem saveStateToStorage_roster_refused (w : World) :
  ~ crew_fits w ->
  run Script.saveStateToStorage w = with_console save_refused w.
Proof.
  intros Hfull. unfold Script.saveStateToStorage, run, try_catch.
  rewrite bind_gets.
  rewrite (bind_thrown _ _ _ _ _ (setItem_refused _ _ w Hfull)). reflexivity.
Qed.

(** X3: when the roster text is taken and the counters text is refused,
    the store ends with the new roster beside whatever counters it held
    before, and the refusal is logged: the two slots can go out of
    step. *)
Theorem saveStateToStorage_counters_refused (w : World) :
  crew_fits w -> ~ stats_fits w ->
  let w' := run Script.saveStateToStorage w in
  slots (localStorage w') !! AppConfig.crew = Some (JSON.stringify_crew (crew_of w))
  /\ slots (localStorage w') !! AppConfig.stats = slots (localStorage w) !! AppConfig.stats
  /\ console w' = (console w ++ [save_refused])%list.
Proof.
  intros Hcrew Hstats. cbv zeta. unfold Script.saveStateToStorage, run, try_catch.
  rewrite bind_gets.
  rewrite (bind_normal _ _ _ _ _ (setItem_fits _ _ w Hcrew)).
  rewrite bind_gets.
  match goal with |- context [setItem ?k ?v ?w1] =>
    rewrite (setItem_refused k v w1 Hstats) end.
  cbn. rewrite lookup_insert_eq, lookup_insert_ne by (symmetry; exact keys_differ).
  repeat split.
Qed.

(** X4: what is saved is what is loaded, for the counters too: a save
    the store accepts, a page load and [loadStateFromStorage] give the
    four counters back, in each revision. *)
Theorem save_then_load_counters (r : Revision) (page : gmap string Markup) (w : World) :
  crew_fits w -> stats_fits w ->
  stats_of (run (loadStateFromStorage_in r) (reload page (run Script.saveStateToStorage w)))
  = stats_of w.
Proof.
  intros Hcrew Hstats.
  apply (app_after_load r (crew_of w) (stats_of w)); cbn [reload localStorage].
  - apply crew_slot_after_save, Hcrew.
  - apply stats_slot_after_save; assumption.
Qed.

(** ** Loading from a store in any condition *)

Lemma load_run r w :
  loadStateFromStorage_in r w =
  try_catch
    ((if saved_truthy (slots (localStorage w) !! AppConfig.crew) then
        crew ← JSON.parse JSON.parse_crew
                 (default EmptyString (slots (localStorage w) !! AppConfig.crew)) ;
        modify (with_app (AppState.with_crew crew))
      else ret tt) ;;
     stats_step (seeds r) (slots (localStorage w) !! AppConfig.stats))
    (load_handler (seeds r)) w.
Proof. rewrite load_shape. reflexivity. Qed.

(** X5: [loadStateFromStorage] never throws, whatever the two slots
    hold, and it touches nothing but the roster and the counters: the
    store, the page, the position and the weather stay as they were. *)
Theorem loadStateFromStorage_never_throws (r : Revision) (w : World) :
  let w' := run (loadStateFromStorage_in r) w in
  outcome (loadStateFromStorage_in r) w = Normal tt
  /\ localStorage w' = localStorage w /\ document w' = document w
  /\ AppState.userLocation (app w') = AppState.userLocation (app w)
  /\ AppState.weather (app w') = AppState.weather (app w).
Proof.
  cbv zeta. unfold run, outcome. rewrite load_run.
  unfold try_catch, bind, stats_step, load_handler, JSON.parse, console_error.
  destruct (saved_truthy (slots (localStorage w) !! AppConfig.crew));
    [destruct (JSON.parse_crew _)|];
    cbn; destruct (saved_truthy (slots (localStorage w) !! AppConfig.stats));
    try destruct (JSON.parse_stats _); destruct (seeds r); cbn; repeat split.
Qed.

(** X6: with neither slot filled (absent, or the empty string, which
    [if (saved)] treats alike) app.js and part_001 leave the roster and
    the counters as they are and log nothing; part_000 leaves the roster
    and puts the demonstration counters in place. *)
Theorem load_without_saved_state (r : Revision) (w : World) :
  saved_truthy (slots (localStorage w) !! AppConfig.crew) = false ->
  saved_truthy (slots (localStorage w) !! AppConfig.stats) = false ->
  let w' := run (loadStateFromStorage_in r) w in
  crew_of w' = crew_of w
  /\ stats_of w' = (if seeds r then AppConfig.mockStats else stats_of w)
  /\ console w' = console w.
Proof.
  intros Hcrew Hstats. cbv zeta. unfold run. rewrite load_run.
  unfold try_catch, bind, stats_step. rewrite Hcrew, Hstats.
  destruct (seeds r); repeat split.
Qed.

Lemma not_json_rejected text :
  not_json text ->
  saved_truthy (Some text) = true
  /\ JSON.parse_crew text = None /\ JSON.parse_stats text = None.
Proof.
  destruct text as [|c text]; [contradiction|]. cbn [not_json]. intros Hc.
  split; [reflexivity|].
  destruct c as [[] [] [] [] [] [] [] []];
    first [ discriminate Hc | split; reflexivity ].
Qed.

(** X7: a roster slot whose text is no JSON ends the load there: the
    roster stays as it was and the counters slot is not read at all,
    even when its text is fine; the failure is logged and, in part_000,
    the demonstration counters are put in place. *)
Theorem unreadable_roster_blocks_the_counters (r : Revision) (text : string) (w : World) :
  slots (localStorage w) !! AppConfig.crew = Some text ->
  not_json text ->
  let w' := run (loadStateFromStorage_in r) w in
  crew_of w' = crew_of w
  /\ stats_of w' = (if seeds r then AppConfig.mockStats else stats_of w)
  /\ console w' = (console w ++ [load_failed])%list.
Proof.
  intros Hslot Hbad. cbv zeta. unfold run. rewrite load_run, Hslot.
  destruct (not_json_rejected text Hbad) as (Htruthy & Hcrew & _).
  rewrite Htruthy.
  change (default EmptyString (Some text)) with text.
  unfold try_catch, bind, JSON.parse, load_handler. rewrite Hcrew.
  destruct (seeds r); repeat split.
Qed.

(** X8: a roster that was read stays read when the text of the counters
    slot is no JSON: the roster is the stored one, the counters stay as
    they were (part_000: the demonstration counters), and the failure is
    logged. *)
Theorem unreadable_counters_keep_the_roster
    (r : Revision) (crew : list Member.t) (text : string) (w : World) :
  slots (localStorage w) !! AppConfig.crew = Some (JSON.stringify_crew crew) ->
  slots (localStorage w) !! AppConfig.stats = Some text ->
  not_json text ->
  let w' := run (loadStateFromStorage_in r) w in
  crew_of w' = crew
  /\ stats_of w' = (if seeds r then AppConfig.mockStats else stats_of w)
  /\ console w' = (console w ++ [load_failed])%list.
Proof.
  intros Hslot Hstats Hbad. cbv zeta. unfold run.
  rewrite load_run, Hslot, Hstats.
  destruct (not_json_rejected text Hbad) as (Htruthy & _ & Hparse).
  rewrite stringify_crew_truthy.
  change (default EmptyString (Some (JSON.stringify_crew crew)))
    with (JSON.stringify_crew crew).
  unfold stats_step. rewrite Htruthy.
  change (default EmptyString (Some text)) with text.
  unfold try_catch, bind, JSON.parse, load_handler.
  rewrite parse_stringify_crew, Hparse.
  destruct (seeds r); repeat split.
Qed.

Lemma saveStateToStorage_roster_refused_witness :
  run Script.saveStateToStorage (Cases.cramped 100)
  = with_console save_refused (Cases.cramped 100).
Proof.
  apply (saveStateToStorage_roster_refused (Cases.cramped 100)).
  unfold crew_fits. vm_compute. lia.
Defined.

Lemma saveStateToStorage_counters_refused_witness :
  let w' := run Script.saveStateToStorage (Cases.cramped 200) in
  slots (localStorage w') !! AppConfig.crew
  = Some (JSON.stringify_crew (crew_of (Cases.cramped 200)))
  /\ slots (localStorage w') !! AppConfig.stats
     = slots (localStorage (Cases.cramped 200)) !! AppConfig.stats
  /\ console w' = (console (Cases.cramped 200) ++ [save_refused])%list.
Proof.
  apply (saveStateToStorage_counters_refused (Cases.cramped 200)).
  - unfold crew_fits. vm_compute. lia.
  - unfold stats_fits. vm_compute. lia.
Defined.

Lemma save_then_load_counters_witness :
  stats_of (run (loadStateFromStorage_in Part000)
              (reload Sample.page (run Script.saveStateToStorage Sample.two_members)))
  = stats_of Sample.two_members.
Proof.
  apply (save_then_load_counters Part000 Sample.page Sample.two_members).
  - unfold crew_fits. vm_compute. lia.
  - unfold stats_fits. vm_compute. lia.
Defined.

Lemma load_without_saved_state_witness :
  let w' := run (loadStateFromStorage_in Part000) Sample.first_visit in
  crew_of w' = crew_of Sample.first_visit
  /\ stats_of w' = AppConfig.mockStats
  /\ console w' = console Sample.first_visit.
Proof.
  apply (load_without_saved_state Part000 Sample.first_visit); reflexivity.
Defined.

Lemma unreadable_roster_blocks_the_counters_witness :
  let w := Cases.stored "undefined" (JSON.stringify_stats (Stats.Build 9 400 5 2)) in
  let w' := run (loadStateFromStorage_in AppJs) w in
  crew_of w' = crew_of w /\ stats_of w' = stats_of w
  /\ console w' = (console w ++ [load_failed])%list.
Proof.
  apply (unreadable_roster_blocks_the_counters AppJs "undefined"
           (Cases.stored "undefined" (JSON.stringify_stats (Stats.Build 9 400 5 2))));
    reflexivity.
Defined.

Lemma unreadable_counters_keep_the_roster_witness :
  let w := Cases.stored (JSON.stringify_crew [Sample.ann]) "undefined" in
  let w' := run (loadStateFromStorage_in AppJs) w in
  crew_of w' = [Sample.ann] /\ stats_of w' = stats_of w
  /\ console w' = (console w ++ [load_failed])%list.
Proof.
  apply (unreadable_counters_keep_the_roster AppJs [Sample.ann] "undefined"
           (Cases.stored (JSON.stringify_crew [Sample.ann]) "undefined"));
    reflexivity.
Defined.

(** ** The handlers: change the state, save, then draw *)

Lemma bind_total {B} (c : M unit) (k : unit -> M B) w :
  total c -> bind c k w = k tt (run c w).
Proof.
  intros Hc. rewrite run_bind. specialize (Hc w).
  destruct (outcome c w) as [[]|e]; [reflexivity | discriminate Hc].
Qed.

Lemma act_shape r a w :
  act r a w = finish r a (run Script.saveStateToStorage (with_app (change a) w)).
Proof.
  destruct a as [[env name role|id]|env]; cbn [act crew_op finish];
    unfold handleCrewSubmit_in, removeCrewMember_in, handleScheduleCleanup_in,
      Script.handleCrewSubmit, Script.removeCrewMember, Script.handleScheduleCleanup;
    cbv zeta; repeat (rewrite bind_modify; cbv beta);
    rewrite (bind_total _ _ _ saveStateToStorage_total); reflexivity.
Qed.

Lemma run_act r a w :
  run (act r a) w = run (finish r a) (run Script.saveStateToStorage (with_app (change a) w)).
Proof. unfold run at 1. now rewrite act_shape. Qed.

Lemma outcome_act r a w :
  outcome (act r a) w
  = outcome (finish r a) (run Script.saveStateToStorage (with_app (change a) w)).
Proof. unfold outcome at 1. now rewrite act_shape. Qed.

(** What drawing and notifying leave alone. *)
Section PageOnly.

Context {P : Type} (part : World -> P).
Hypothesis part_document : forall d w, part (with_document d w) = part w.
Hypothesis part_notification : forall n w, part (with_notification n w) = part w.

Lemma assign_keeps el what m : keeps part (assign el what m).
Proof. destruct el; intros w; [apply part_document | reflexivity]. Qed.

Lemma getElementById_keeps i : keeps part (getElementById i).
Proof. intros w. reflexivity. Qed.

Lemma showNotification_keeps msg : keeps part (Script.showNotification msg).
Proof. intros w. apply part_notification. Qed.

Hint Resolve assign_keeps getElementById_keeps showNotification_keeps : frame.

Lemma renderCrewGrid_keeps : keeps part Script.renderCrewGrid.
Proof. unfold Script.renderCrewGrid, set_innerHTML. frame. Qed.

Lemma script_updateStats_keeps : keeps part Script.updateStats.
Proof. unfold Script.updateStats, set_textContent. frame. Qed.

Lemma nea24h_updateStats_keeps : keeps part Nea24h.updateStats.
Proof. unfold Nea24h.updateStats, Nea24h.animateCounter, set_textContent. frame. Qed.

Lemma updateStats_in_keeps r : keeps part (updateStats_in r).
Proof.
  destruct r; cbn [updateStats_in];
    [apply script_updateStats_keeps | apply nea24h_updateStats_keeps
    | apply script_updateStats_keeps].
Qed.

Hint Resolve renderCrewGrid_keeps updateStats_in_keeps : frame.

Lemma finish_keeps r a : keeps part (finish r a).
Proof.
  destruct a as [[env name role|id]|env]; cbn [finish]; unfold Script.hideCrewForm; frame.
Qed.

End PageOnly.

Lemma app_after_act r a w : app (run (act r a) w) = change a (app w).
Proof.
  rewrite run_act, (finish_keeps app) by reflexivity.
  now rewrite saveStateToStorage_keeps_app.
Qed.

Lemma localStorage_after_act r a w :
  localStorage (run (act r a) w)
  = localStorage (run Script.saveStateToStorage (with_app (change a) w)).
Proof. rewrite run_act. now rewrite (finish_keeps localStorage) by reflexivity. Qed.

Lemma act_is_stored r a w :
  store_takes w (app (run (act r a) w)) ->
  slots (localStorage (run (act r a) w)) !! AppConfig.crew
  = Some (JSON.stringify_crew (crew_of (run (act r a) w)))
  /\ slots (localStorage (run (act r a) w)) !! AppConfig.stats
     = Some (JSON.stringify_stats (stats_of (run (act r a) w))).
Proof.
  rewrite app_after_act. intros [Hcrew Hstats].
  change (crew_fits (with_app (change a) w)) in Hcrew.
  change (stats_fits (with_app (change a) w)) in Hstats.
  rewrite localStorage_after_act. split.
  - rewrite (crew_slot_after_save _ Hcrew). unfold crew_of. now rewrite app_after_act.
  - rewrite (stats_slot_after_save _ Hcrew Hstats). unfold stats_of. now rewrite app_after_act.
Qed.

(** X9: an action whose save the store accepts survives a page load:
    after a crew submission, a removal or a scheduled cleanup, reloading
    the page and running [loadStateFromStorage] gives the roster and the
    counters the action left, in each revision, whatever the page looked
    like and whether or not the handler went on to throw. *)
Theorem action_survives_reload
    (r : Revision) (a : Action) (page : gmap string Markup) (w : World) :
  let w' := run (act r a) w in
  store_takes w (app w') ->
  let back := run (loadStateFromStorage_in r) (reload page w') in
  crew_of back = crew_of w' /\ stats_of back = stats_of w'.
Proof.
  cbv zeta. intros Htakes. destruct (act_is_stored r a w Htakes) as [Hcrew Hstats].
  apply app_after_load; cbn [reload localStorage]; assumption.
Qed.

Lemma action_survives_reload_witness :
  let a := Crew (Add Sample.offline "Cy" "Scout") in
  let w' := run (act Part001 a) Cases.bare in
  let back := run (loadStateFromStorage_in Part001) (reload Sample.page w') in
  crew_of back = crew_of w' /\ stats_of back = stats_of w'.
Proof.
  apply (action_survives_reload Part001 (Crew (Add Sample.offline "Cy" "Scout"))
           Sample.page Cases.bare).
  split; [unfold crew_fits | unfold stats_fits]; vm_compute; lia.
Defined.

(** ** Adding and removing *)

(** X10: removing the member a submission has just added gives the roster
    back as it was, provided no earlier member carries the same
    [Date.now()] id; the member count is back as well. *)
Theorem submit_then_remove_restores_the_roster
    (r : Revision) (env : Env) (name role : string) (w : World) :
  (forall m, In m (crew_of w) -> Member.id m <> Date_now env) ->
  let w' := run (removeCrewMember_in r (Date_now env))
              (run (handleCrewSubmit_in r env name role) w) in
  crew_of w' = crew_of w
  /\ Stats.crewMembers (stats_of w') = Z.of_nat (length (crew_of w)).
Proof.
  intros Hfresh. cbv zeta.
  assert (Hcrew : crew_of (run (removeCrewMember_in r (Date_now env))
                             (run (handleCrewSubmit_in r env name role) w)) = crew_of w).
  { rewrite crew_after_removeCrewMember. unfold crew_of.
    rewrite app_after_handleCrewSubmit. cbn.
    unfold others. rewrite List.filter_app. cbn. rewrite Z.eqb_refl. cbn.
    rewrite app_nil_r. apply others_absent, Hfresh. }
  split; [exact Hcrew|].
  rewrite <- Hcrew. apply (crew_op_counted r (Remove (Date_now env))).
Qed.

Lemma submit_then_remove_restores_the_roster_witness :
  let w' := run (removeCrewMember_in AppJs (Date_now Sample.offline))
              (run (handleCrewSubmit_in AppJs Sample.offline "Cy" "Scout")
                 Sample.two_members) in
  crew_of w' = crew_of Sample.two_members
  /\ Stats.crewMembers (stats_of w') = Z.of_nat (length (crew_of Sample.two_members)).
Proof.
  apply (submit_then_remove_restores_the_roster AppJs Sample.offline "Cy" "Scout"
           Sample.two_members).
  intros m Hin. simpl in Hin. destruct Hin as [<-|[<-|[]]]; discriminate.
Defined.

(** X11: the id is the clock and nothing makes it unique: two members
    submitted while [Date.now()] returns the same value share their id,
    and one click on "Remove" takes both off the roster, together with
    any earlier member of that id. *)
Theorem same_millisecond_members_leave_together
    (r : Revision) (env : Env) (name1 role1 name2 role2 : string) (w : World) :
  let w2 := run (handleCrewSubmit_in r env name2 role2)
              (run (handleCrewSubmit_in r env name1 role1) w) in
  length (crew_of w2) = S (S (length (crew_of w)))
  /\ crew_of (run (removeCrewMember_in r (Date_now env)) w2) = others (Date_now env) (crew_of w).
Proof.
  cbv zeta. split.
  - unfold crew_of. rewrite !app_after_handleCrewSubmit. cbn.
    rewrite !List.length_app. cbn. lia.
  - rewrite crew_after_removeCrewMember. unfold crew_of.
    rewrite !app_after_handleCrewSubmit. cbn.
    unfold others. rewrite !List.filter_app. cbn. rewrite Z.eqb_refl. cbn.
    now rewrite !app_nil_r.
Qed.

(** ** The page after an action *)

Lemma renderCrewGrid_run w :
  is_Some (document w !! "crew-grid") ->
  Script.renderCrewGrid w
  = (with_document
       (<["crew-grid" := Cards (map Script.crew_card (crew_of w))]> (document w)) w,
     Normal tt).
Proof.
  intros [m Hgrid]. unfold Script.renderCrewGrid.
  rewrite bind_getElementById, Hgrid. reflexivity.
Qed.

Lemma steps_gets R {A} (f : World -> A) : (forall w, R w w) -> steps R (gets f).
Proof. intros Hrefl w. apply Hrefl. Qed.

Lemma showNotification_shows_same k msg : steps (shows_same k) (Script.showNotification msg).
Proof. intros w. reflexivity. Qed.

Lemma updateStats_in_shows_same k r :
  k <> "cleanups-count" -> k <> "trash-count" -> k <> "crew-count" -> k <> "impact-count" ->
  steps (shows_same k) (updateStats_in r).
Proof.
  intros H1 H2 H3 H4.
  assert (Hassign : forall i what m, In i ["cleanups-count"; "trash-count"; "crew-count";
                                         "impact-count"] ->
                     steps (shows_same k) (assign (Some i) what m)).
  { intros i what m Hin. apply assign_shows_same. intros ->.
    cbn in Hin. intuition congruence. }
  destruct r; cbn [updateStats_in];
    unfold OpenMeteo.updateStats, NeaPair.updateStats, Script.updateStats,
      Nea24h.updateStats, Nea24h.animateCounter, set_textContent;
    walk (shows_same_refl k) (shows_same_trans k);
    try (apply steps_gets, shows_same_refl);
    apply Hassign; cbn; tauto.
Qed.

Lemma renderCrewGrid_shows_same k :
  k <> "crew-grid" -> steps (shows_same k) Script.renderCrewGrid.
Proof.
  intros Hk w. unfold shows_same, run, Script.renderCrewGrid.
  rewrite bind_getElementById. destruct (document w !! "crew-grid"); [|reflexivity].
  cbn. now rewrite lookup_insert_ne by congruence.
Qed.

(** X12: after a submission or a removal the crew grid shows one card
    per member of the roster, in roster order, in each revision; this
    holds on any page that has the grid, also when the handler throws
    further on for want of a counter element. *)
Theorem crew_grid_shows_the_roster (r : Revision) (op : CrewOp) (w : World) :
  is_Some (document w !! "crew-grid") ->
  let w' := run (crew_op r op) w in
  document w' !! "crew-grid" = Some (Cards (map Script.crew_card (crew_of w'))).
Proof.
  intros Hgrid. cbv zeta. change (crew_op r op) with (act r (Crew op)).
  unfold crew_of. rewrite app_after_act, run_act.
  set (w1 := run Script.saveStateToStorage (with_app (change (Crew op)) w)).
  assert (Hgrid1 : is_Some (document w1 !! "crew-grid")).
  { unfold w1. now rewrite saveStateToStorage_keeps_document. }
  assert (Happ1 : crew_of w1 = AppState.crew (change (Crew op) (app w))).
  { unfold w1, crew_of. now rewrite saveStateToStorage_keeps_app. }
  assert (Htail : forall (tail : M unit),
             steps (shows_same "crew-grid") tail ->
             document (run (Script.renderCrewGrid ;; tail) w1) !! "crew-grid"
             = Some (Cards (map Script.crew_card (AppState.crew (change (Crew op) (app w)))))).
  { intros tail Htail. rewrite (run_seq _ _ _ renderCrewGrid_total).
    rewrite Htail. unfold run. rewrite (renderCrewGrid_run _ Hgrid1). cbn.
    now rewrite lookup_insert_eq, Happ1. }
  destruct op as [env name role|id]; cbn [finish]; apply Htail.
  - unfold Script.hideCrewForm.
    walk (shows_same_refl "crew-grid") (shows_same_trans "crew-grid");
      first [ apply updateStats_in_shows_same; discriminate
            | apply showNotification_shows_same ].
  - walk (shows_same_refl "crew-grid") (shows_same_trans "crew-grid");
      first [ apply updateStats_in_shows_same; discriminate
            | apply showNotification_shows_same ].
Qed.

Lemma crew_grid_shows_the_roster_witness :
  let w' := run (crew_op AppJs (Remove 1700000000000)) Cases.bare in
  document w' !! "crew-grid" = Some (Cards (map Script.crew_card (crew_of w'))).
Proof.
  apply (crew_grid_shows_the_roster AppJs (Remove 1700000000000) Cases.bare).
  exists Shipped. reflexivity.
Defined.

Lemma updateStats_in_run r w :
  r <> Part000 ->
  counters_on_page w ->
  updateStats_in r w
  = (with_document
       (<["impact-count" := Text (Script.num (Stats.beaches (stats_of w)))]>
          (<["crew-count" := Text (Script.num (Stats.crewMembers (stats_of w)))]>
             (<["trash-count" := Text (Script.num (Stats.trash (stats_of w)))]>
                (<["cleanups-count" := Text (Script.num (Stats.cleanups (stats_of w)))]>
                   (document w))))) w,
     Normal tt).
Proof.
  intros Hr ([m1 H1] & [m2 H2] & [m3 H3] & [m4 H4]).
  destruct r; [|contradiction|]; cbn [updateStats_in];
    unfold OpenMeteo.updateStats, NeaPair.updateStats, Script.updateStats, set_textContent;
    rewrite bind_gets;
    repeat (first [ exec_step | rewrite bind_assign | rewrite run_assign
                  | progress (rewrite ?H1, ?H2, ?H3, ?H4) ]; exec_lookups);
    reflexivity.
Qed.

Lemma run_after {A B} (c : M A) (k : A -> M B) w w' a :
  c w = (w', Normal a) -> run (bind c k) w = run (k a) w'.
Proof. intros Hc. unfold run. now rewrite (bind_normal _ _ _ _ _ Hc). Qed.

Lemma outcome_after {A B} (c : M A) (k : A -> M B) w w' a :
  c w = (w', Normal a) -> outcome (bind c k) w = outcome (k a) w'.
Proof. intros Hc. unfold outcome. now rewrite (bind_normal _ _ _ _ _ Hc). Qed.

Lemma counters_on_page_same (w w1 : World) :
  document w1 !! "cleanups-count" = document w !! "cleanups-count" ->
  document w1 !! "trash-count" = document w !! "trash-count" ->
  document w1 !! "crew-count" = document w !! "crew-count" ->
  document w1 !! "impact-count" = document w !! "impact-count" ->
  counters_on_page w <-> counters_on_page w1.
Proof. unfold counters_on_page. intros -> -> -> ->. reflexivity. Qed.

Lemma counters_on_page_after_grid w :
  counters_on_page w <-> counters_on_page (run Script.renderCrewGrid w).
Proof.
  apply counters_on_page_same; apply renderCrewGrid_shows_same; discriminate.
Qed.

(** X13: in app.js and part_001, whose [updateStats] writes the four
    statistics into the four counter elements, every action on a page
    that has these elements completes, and the counters then show the
    four statistics of the state the action left.  (part_000 counts
    each counter up over animation frames instead, and is left out.) *)
Theorem counters_show_the_statistics (r : Revision) (a : Action) (w : World) :
  r <> Part000 ->
  counters_on_page w ->
  outcome (act r a) w = Normal tt /\ counters_show (run (act r a) w).
Proof.
  intros Hr Hpage. rewrite outcome_act, run_act.
  set (w1 := run Script.saveStateToStorage (with_app (change a) w)).
  assert (Hpage1 : counters_on_page w1).
  { unfold w1, counters_on_page. now rewrite saveStateToStorage_keeps_document. }
  clearbody w1.
  assert (Hstats : forall w2 (tail : M unit),
             counters_on_page w2 -> total tail -> keeps document tail -> keeps app tail ->
             outcome (updateStats_in r ;; tail) w2 = Normal tt
             /\ counters_show (run (updateStats_in r ;; tail) w2)).
  { intros w2 tail Hpage2 Htotal Hdoc Happ.
    rewrite (outcome_after _ _ _ _ _ (updateStats_in_run r w2 Hr Hpage2)).
    rewrite (run_after _ _ _ _ _ (updateStats_in_run r w2 Hr Hpage2)).
    split; [apply total_normal, Htotal|].
    unfold counters_show, stats_of, counter. rewrite Hdoc, Happ. cbn.
    repeat split; exec_lookups; reflexivity. }
  assert (Hnote : forall msg, total (Script.showNotification msg)
                              /\ keeps document (Script.showNotification msg)
                              /\ keeps app (Script.showNotification msg)).
  { intros msg. repeat split; intros w0; reflexivity. }
  destruct a as [[env name role|id]|env]; cbn [finish].
  - unfold Script.hideCrewForm.
    rewrite (outcome_seq _ _ _ renderCrewGrid_total), (run_seq _ _ _ renderCrewGrid_total).
    apply Hstats; [apply (proj1 (counters_on_page_after_grid w1)), Hpage1 | | |];
      intros w0; reflexivity.
  - rewrite (outcome_seq _ _ _ renderCrewGrid_total), (run_seq _ _ _ renderCrewGrid_total).
    apply Hstats; [apply (proj1 (counters_on_page_after_grid w1)), Hpage1 | | |]; apply Hnote.
  - apply Hstats; [exact Hpage1 | | |]; apply Hnote.
Qed.

Lemma counters_show_the_statistics_witness :
  outcome (act AppJs (Schedule Sample.offline)) Sample.two_members = Normal tt
  /\ counters_show (run (act AppJs (Schedule Sample.offline)) Sample.two_members).
Proof.
  apply (counters_show_the_statistics AppJs (Schedule Sample.offline) Sample.two_members).
  - discriminate.
  - repeat split; exists Shipped; reflexivity.
Defined.

(** ** A page without its counters *)




Lemma saveStateToStorage_keeps_notifications : keeps notifications Script.saveStateToStorage.
Proof.
  intros w. unfold Script.saveStateToStorage, try_catch, bind, gets, setItem, console_error,
    modify, run.
  cbn. destruct (_ <=? _)%nat; cbn; [destruct (_ <=? _)%nat|]; reflexivity.
Qed.



(** X15: part_000 tests every lookup.  There each action completes on
    any page whatever, with or without the counters or the grid, and ends
    by showing exactly one notification. *)
Theorem part000_actions_never_throw (a : Action) (w : World) :
  outcome (act Part000 a) w = Normal tt
  /\ exists message,
       notifications (run (act Part000 a) w) = (notifications w ++ [message])%list.
Proof.
  rewrite outcome_act, run_act.
  set (w1 := run Script.saveStateToStorage (with_app (change a) w)).
  assert (Hnotes1 : notifications w1 = notifications w).
  { unfold w1. now rewrite saveStateToStorage_keeps_notifications. }
  clearbody w1. rewrite <- Hnotes1.
  pose proof renderCrewGrid_total as Hgrid.
  pose proof nea24h_updateStats_total as Hstats.
  assert (Hhide : total Script.hideCrewForm) by (intros w0; reflexivity).
  assert (Hdraw : keeps notifications (Script.renderCrewGrid ;; Nea24h.updateStats)).
  { apply keeps_bind; [|intros _];
      [apply renderCrewGrid_keeps | apply nea24h_updateStats_keeps]; reflexivity. }
  destruct a as [[env name role|id]|env]; cbn [finish updateStats_in].
  - split.
    + rewrite !outcome_seq by assumption. reflexivity.
    + eexists. rewrite !run_seq by assumption. cbn [Script.showNotification].
      unfold run at 1, Script.showNotification, modify. cbn.
      rewrite (nea24h_updateStats_keeps notifications) by reflexivity.
      now rewrite (renderCrewGrid_keeps notifications) by reflexivity.
  - split.
    + rewrite !outcome_seq by assumption. reflexivity.
    + eexists. rewrite !run_seq by assumption.
      unfold run at 1, Script.showNotification, modify. cbn.
      rewrite (nea24h_updateStats_keeps notifications) by reflexivity.
      now rewrite (renderCrewGrid_keeps notifications) by reflexivity.
  - split.
    + rewrite !outcome_seq by assumption. reflexivity.
    + eexists. rewrite !run_seq by assumption.
      unfold run at 1, Script.showNotification, modify. cbn.
      now rewrite (nea24h_updateStats_keeps notifications) by reflexivity.
Qed.

(** ** Scheduled cleanups add up *)

Lemma randomItems_bounds env : fair env -> (20 <= randomItems env <= 69)%Z.
Proof.
  intros [Hlow Hhigh]. unfold randomItems.
  assert (H0 : (0 <= Qfloor (Math_random env * 50))%Z).
  { change 0%Z with (Qfloor 0). apply Qfloor_resp_le.
    apply Qmult_le_0_compat; [exact Hlow | discriminate]. }
  assert (H50 : (Qfloor (Math_random env * 50) < 50)%Z).
  { rewrite Zlt_Qlt. apply Qle_lt_trans with (Math_random env * 50)%Q; [apply Qfloor_le|].
    change (inject_Z 50) with (1 * 50)%Q. apply Qmult_lt_compat_r; [reflexivity | exact Hhigh]. }
  lia.
Qed.

Lemma stats_after_cleanup r env w :
  stats_of (run (handleScheduleCleanup_in r env) w)
  = AppState.stats (change (Schedule env) (app w))
  /\ crew_of (run (handleScheduleCleanup_in r env) w) = crew_of w.
Proof.
  change (handleScheduleCleanup_in r env) with (act r (Schedule env)).
  unfold stats_of, crew_of. rewrite app_after_act. split; reflexivity.
Qed.

(** X16: as long as the two counters stay safe integers (up to
    [2^53 - 1], where the sums of JavaScript numbers are exact), [n]
    clicks on "schedule cleanup", each drawing its [Math.random()] from
    [0, 1), raise [stats.cleanups] by [n] and [stats.trash] by between
    [20 n] and [69 n]; [stats.beaches] ends as [min(cleanups, 5)]; the
    roster and its count are not touched. *)
Theorem cleanups_add_up (r : Revision) (envs : list Env) (w : World) :
  Forall fair envs ->
  safe_integer (Stats.cleanups (stats_of w)) ->
  safe_integer (Stats.cleanups (stats_of w) + Z.of_nat (length envs)) ->
  safe_integer (Stats.trash (stats_of w)) ->
  safe_integer (Stats.trash (stats_of w) + 69 * Z.of_nat (length envs)) ->
  let n := Z.of_nat (length envs) in
  let s := stats_of w in
  let s' := stats_of (after_cleanups r envs w) in
  (Stats.cleanups s' = Stats.cleanups s + n
   /\ Stats.trash s + 20 * n <= Stats.trash s' <= Stats.trash s + 69 * n
   /\ (envs <> [] -> Stats.beaches s' = Z.min (Stats.cleanups s') 5)
   /\ Stats.crewMembers s' = Stats.crewMembers s)%Z
  /\ crew_of (after_cleanups r envs w) = crew_of w.
Proof.
  intros Hfair _ _ _ _. cbv zeta. revert w.
  induction Hfair as [|env envs Henv Hfair IH]; intros w.
  - cbn. repeat split; try lia; try reflexivity. congruence.
  - cbn [after_cleanups fold_left length].
    fold (after_cleanups r envs (run (handleScheduleCleanup_in r env) w)).
    destruct (IH (run (handleScheduleCleanup_in r env) w))
      as ((Hcleanups & Htrash & Hbeaches & Hcount) & Hcrew).
    destruct (stats_after_cleanup r env w) as [Hstep Hcrew1].
    pose proof (randomItems_bounds env Henv) as Hitems.
    rewrite Hstep in Hcleanups, Htrash, Hcount. cbn in Hcleanups, Htrash, Hcount.
    rewrite Hcrew, Hcrew1. unfold stats_of in *.
    split; [split; [|split; [|split]] | reflexivity]; try lia.
    intros _. destruct envs as [|env' envs'].
    + cbn [after_cleanups fold_left]. rewrite Hstep. reflexivity.
    + apply Hbeaches. discriminate.
Qed.

Lemma cleanups_add_up_witness :
  let envs := [Sample.offline; Sample.offline] in
  let s := stats_of Sample.two_members in
  let s' := stats_of (after_cleanups AppJs envs Sample.two_members) in
  (Stats.cleanups s' = Stats.cleanups s + 2
   /\ Stats.trash s + 20 * 2 <= Stats.trash s' <= Stats.trash s + 69 * 2
   /\ (envs <> [] -> Stats.beaches s' = Z.min (Stats.cleanups s') 5)
   /\ Stats.crewMembers s' = Stats.crewMembers s)%Z
  /\ crew_of (after_cleanups AppJs envs Sample.two_members) = crew_of Sample.two_members.
Proof.
  apply (cleanups_add_up AppJs [Sample.offline; Sample.offline] Sample.two_members).
  - repeat constructor; vm_compute; discriminate.
  - vm_compute. split; discriminate.
  - vm_compute. split; discriminate.
  - vm_compute. split; discriminate.
  - vm_compute. split; discriminate.
Defined.

(** ** The weather pipeline of app.js *)

Lemma steps_try (R : World -> World -> Prop)
    (R_trans : forall w1 w2 w3, R w1 w2 -> R w2 w3 -> R w1 w3)
    {A} (body : M A) (handler : Exn -> M A) :
  steps R body -> (forall e, steps R (handler e)) -> steps R (try_catch body handler).
Proof.
  intros Hbody Hhandler w. unfold run. rewrite run_try.
  destruct (outcome body w) as [a|e]; cbn [fst].
  - apply Hbody.
  - apply (R_trans _ (run body w)); [apply Hbody | apply Hhandler].
Qed.

(** As [walk], with the leaves of the relation at hand tried first. *)
Ltac walk_by special refl trans :=
  repeat first
    [ special
    | apply (steps_ret _ refl)
    | apply (steps_lift _ refl)
    | apply (steps_assign_null _ refl)
    | match goal with
      | |- forall _, _ => intro
      | |- steps _ (if ?b then _ else _) => destruct b
      | |- steps ?R (bind (getElementById ?i) ?k) =>
          apply (steps_getElementById R i k); cbv beta iota
      end
    | apply (steps_bind _ trans) ].


Lemma openmeteo_mock_run w :
  OpenMeteo.updateWeatherUI OpenMeteo.getMockWeatherData w
  = (with_document (OpenMeteoView.mock (document w)) w, Normal tt).
Proof.
  destruct w as [a s d c n r].
  unfold OpenMeteo.updateWeatherUI, OpenMeteoView.mock, draw. world_fields.
  destruct (d !! "current-weather") eqn:Hcw;
  destruct (d !! "ocean-conditions") eqn:Hoc;
  destruct (d !! "best-time") eqn:Hbt;
  exec ltac:(rewrite ?Hcw, ?Hoc, ?Hbt; cbv iota; world_fields); reflexivity.
Qed.

Lemma openmeteo_render_requests weatherData :
  steps same_requests (OpenMeteo.updateWeatherUI weatherData).
Proof.
  unfold OpenMeteo.updateWeatherUI, set_innerHTML.
  walk_by ltac:(apply assign_same_requests) same_requests_refl same_requests_trans.
Qed.

Lemma openmeteo_fallback e w :
  (console_error "Weather API error:" e ;;
   OpenMeteo.updateWeatherUI OpenMeteo.getMockWeatherData) w
  = (with_document (OpenMeteoView.mock (document w))
       (with_console (LogError "Weather API error:" e) w), Normal tt).
Proof.
  exec_step. exact (openmeteo_mock_run (with_console (LogError "Weather API error:" e) w)).
Qed.

(** X17: [fetchWeatherData] of app.js never throws to its caller.  Without
    a position it does nothing at all, so the weather panels are not even
    filled with the mock; with a position it issues exactly one request,
    which carries the latitude and the longitude. *)
Theorem openmeteo_pipeline_never_throws (env : Env) (w : World) :
  let w' := run (OpenMeteo.fetchWeatherData env) w in
  outcome (OpenMeteo.fetchWeatherData env) w = Normal tt
  /\ match AppState.userLocation (app w) with
     | None => w' = w
     | Some loc => requests w' = (requests w ++ [weather_request loc])%list
     end.
Proof.
  cbv zeta. unfold run, outcome, OpenMeteo.fetchWeatherData.
  rewrite bind_gets. destruct (AppState.userLocation (app w)) as [loc|];
    [|split; reflexivity].
  fold (weather_request loc). unfold try_catch. rewrite bind_fetch.
  destruct (network env (weather_request loc)) as [|resp].
  { rewrite openmeteo_fallback. split; reflexivity. }
  rewrite bind_json. destruct (Response.body resp) as [data|].
  2: { rewrite openmeteo_fallback. split; reflexivity. }
  pose proof (openmeteo_render_requests data (with_request (weather_request loc) w)) as Hreq.
  unfold same_requests, run in Hreq.
  destruct (OpenMeteo.updateWeatherUI data (with_request (weather_request loc) w))
    as [w1 [[]|e]]; cbn [fst snd] in *.
  - split; [reflexivity | exact Hreq].
  - rewrite openmeteo_fallback. split; [reflexivity | exact Hreq].
Qed.

(** X18: with a position, a request that is rejected, or answered with a
    body that is no JSON, ends in the mock: each weather panel the page
    has shows the built-in forecast (storm glyph, 22 degrees, wind 12),
    and the error is logged once. *)
Theorem openmeteo_failed_request_shows_the_mock (env : Env) (loc : Location.t) (w : World) :
  AppState.userLocation (app w) = Some loc ->
  received env (weather_request loc) = None ->
  let w' := run (OpenMeteo.fetchWeatherData env) w in
  document w' = OpenMeteoView.mock (document w)
  /\ exists e, console w' = (console w ++ [LogError "Weather API error:" e])%list.
Proof.
  intros Hloc Hnone. cbv zeta. unfold run, OpenMeteo.fetchWeatherData.
  rewrite bind_gets, Hloc. fold (weather_request loc).
  unfold try_catch. rewrite bind_fetch. unfold received in Hnone.
  destruct (network env (weather_request loc)) as [|resp].
  { rewrite openmeteo_fallback. split; [reflexivity | eexists; reflexivity]. }
  rewrite bind_json, Hnone. rewrite openmeteo_fallback.
  split; [reflexivity | eexists; reflexivity].
Qed.

Lemma openmeteo_failed_request_shows_the_mock_witness :
  let w' := run (OpenMeteo.fetchWeatherData Sample.offline) Sample.located in
  document w' = OpenMeteoView.mock (document Sample.located)
  /\ exists e, console w' = (console Sample.located ++ [LogError "Weather API error:" e])%list.
Proof.
  apply (openmeteo_failed_request_shows_the_mock Sample.offline
           (Location.Build (135 # 100) (1038 # 10) 20) Sample.located);
    reflexivity.
Defined.

(** ** The weather pipeline of part_000 *)

Lemma console_same_requests l : steps same_requests (modify (with_console l)).
Proof. intros w. reflexivity. Qed.

Lemma nea24h_grid_requests env forecastData :
  steps same_requests (Nea24h.renderForecastGrid env forecastData).
Proof.
  unfold Nea24h.renderForecastGrid, set_innerHTML, console_warn, console_log.
  walk_by ltac:(idtac; match goal with
                | |- steps _ (assign (Some _) _ _) => apply assign_same_requests
                | |- steps _ (modify (with_console _)) => apply console_same_requests
                end)
          same_requests_refl same_requests_trans.
Qed.

Lemma nea24h_render_requests env weatherData :
  steps same_requests (Nea24h.updateWeatherUI env weatherData).
Proof.
  unfold Nea24h.updateWeatherUI, set_innerHTML, console_warn.
  walk_by ltac:(idtac; match goal with
                | |- steps _ (assign (Some _) _ _) => apply assign_same_requests
                | |- steps _ (modify (with_console _)) => apply console_same_requests
                | |- steps _ (Nea24h.renderForecastGrid _ _) => apply nea24h_grid_requests
                end)
          same_requests_refl same_requests_trans.
Qed.

Lemma lookup_draw_eq k m (d : gmap string Markup) :
  draw k m d !! k = match d !! k with Some _ => Some m | None => None end.
Proof.
  unfold draw. destruct (d !! k) eqn:Hk; [apply lookup_insert_eq | exact Hk].
Qed.

Lemma nea24h_fallback_world env e w :
  exists w',
    (console_error "❌ NEA Weather API error:" e ;;
     console_log "📋 Using mock weather data..." ;;
     modify (with_app (AppState.with_weather (Nea24h.getMockWeatherData env))) ;;
     Nea24h.updateWeatherUI env (Nea24h.getMockWeatherData env)) w = (w', Normal tt)
    /\ requests w' = requests w
    /\ mock_grid_or_untouched env w w'.
Proof.
  eexists. split; [apply nea24h_fallback|]. split; [reflexivity|].
  unfold mock_grid_or_untouched, MockView.nea24h_world, MockView.nea24h. world_fields.
  rewrite lookup_draw_eq, !lookup_draw_ne by discriminate.
  destruct (document w !! "weather-grid"); [right|left]; reflexivity.
Qed.

(** X19: [fetchWeatherData] of part_000 never throws to its caller,
    whatever the service answers, and issues exactly one request, to the
    24-hour endpoint, with no query. *)
Theorem nea24h_pipeline_never_throws (env : Env) (w : World) :
  outcome (Nea24h.fetchWeatherData env) w = Normal tt
  /\ requests (run (Nea24h.fetchWeatherData env) w) = (requests w ++ [nea24h_request])%list.
Proof.
  unfold run, outcome, Nea24h.fetchWeatherData, try_catch. fold nea24h_request.
  exec_step. rewrite bind_fetch.
  set (w1 := with_request nea24h_request _).
  assert (Hw1 : requests w1 = (requests w ++ [nea24h_request])%list) by reflexivity.
  clearbody w1.
  assert (Hfall : forall e w2, requests w2 = requests w1 ->
            let r := (console_error "❌ NEA Weather API error:" e ;;
                      console_log "📋 Using mock weather data..." ;;
                      modify (with_app (AppState.with_weather (Nea24h.getMockWeatherData env))) ;;
                      Nea24h.updateWeatherUI env (Nea24h.getMockWeatherData env)) w2 in
            snd r = Normal tt /\ requests (fst r) = (requests w ++ [nea24h_request])%list).
  { intros e w2 Hw2. cbv zeta.
    destruct (nea24h_fallback_world env e w2) as (w' & -> & Hreq & _).
    split; [reflexivity | cbn [fst]; congruence]. }
  destruct (network env nea24h_request) as [|resp]; [apply Hfall; reflexivity|].
  destruct (Response.ok resp); cbn [negb].
  2: { exec_step. apply Hfall; reflexivity. }
  exec_step. rewrite bind_json.
  destruct (Response.body resp) as [data|]; [|apply Hfall; reflexivity].
  do 2 exec_step.
  match goal with |- context [Nea24h.updateWeatherUI env data ?w3] =>
    pose proof (nea24h_render_requests env data w3) as Hreq;
    unfold same_requests, run in Hreq;
    destruct (Nea24h.updateWeatherUI env data w3) as [w4 [[]|e]]
  end; cbn [fst snd] in *.
  - split; [reflexivity | rewrite Hreq; exact Hw1].
  - apply Hfall. rewrite Hreq. reflexivity.
Qed.

(** ** What the forecast grid can show *)

Lemma mock_grid_refl env w : mock_grid_or_untouched env w w.
Proof. left. reflexivity. Qed.

Lemma mock_grid_trans env w1 w2 w3 :
  mock_grid_or_untouched env w1 w2 -> mock_grid_or_untouched env w2 w3 ->
  mock_grid_or_untouched env w1 w3.
Proof.
  unfold mock_grid_or_untouched.
  intros [H12|H12] [H23|H23]; first [left; congruence | right; congruence].
Qed.

Lemma mock_grid_of_same env {A} (c : M A) :
  steps (shows_same "weather-grid") c -> steps (mock_grid_or_untouched env) c.
Proof. intros Hc w. left. apply Hc. Qed.

Lemma nea24h_mock_grid env :
  steps (mock_grid_or_untouched env)
    (Nea24h.renderForecastGrid env (Nea24h.getMock4DayForecast env)).
Proof.
  intros w. unfold mock_grid_or_untouched, run. rewrite nea24h_grid_run.
  cbn. rewrite lookup_draw_eq. destruct (document w !! "weather-grid"); [right|left]; reflexivity.
Qed.

Lemma console_shows_same k l : steps (shows_same k) (modify (with_console l)).
Proof. intros w. reflexivity. Qed.

Lemma nea24h_render_grid env weatherData :
  steps (mock_grid_or_untouched env) (Nea24h.updateWeatherUI env weatherData).
Proof.
  unfold Nea24h.updateWeatherUI, set_innerHTML, console_warn.
  walk_by ltac:(first [ apply nea24h_mock_grid
                      | apply mock_grid_of_same;
                        first [ apply assign_shows_same; discriminate
                              | apply console_shows_same ] ])
          (mock_grid_refl env) (mock_grid_trans env).
Qed.

(** X20: part_000 never draws the forecast grid from the reply.  Whatever
    the service answers, after [fetchWeatherData] the weather grid shows
    either what it showed before or the cards of the built-in 4-day
    mock, the same cards that are drawn when the network is down. *)
Theorem nea24h_grid_is_never_live (env : Env) (w : World) :
  mock_grid_or_untouched (unreachable env) w (run (Nea24h.fetchWeatherData env) w).
Proof.
  change (mock_grid_or_untouched env w (run (Nea24h.fetchWeatherData env) w)).
  revert w. change (steps (mock_grid_or_untouched env) (Nea24h.fetchWeatherData env)).
  unfold Nea24h.fetchWeatherData, console_log, console_error.
  apply (steps_try _ (mock_grid_trans env)); [|intros e];
    walk_by ltac:(first [ apply nea24h_render_grid
                        | apply mock_grid_of_same; apply console_shows_same ])
            (mock_grid_refl env) (mock_grid_trans env);
    try (intros w; left; reflexivity).
  all: unfold json;
    match goal with |- context [Response.body ?resp] => destruct (Response.body resp) end;
    intros w; left; reflexivity.
Qed.

(** ** part_001: the grid is drawn from inside a panel that is renamed *)

Lemma grid_rests_refl w : grid_rests w w.
Proof. intros Habsent. split; [exact Habsent | reflexivity]. Qed.

Lemma grid_rests_trans w1 w2 w3 : grid_rests w1 w2 -> grid_rests w2 w3 -> grid_rests w1 w3.
Proof.
  intros H12 H23 Habsent. destruct (H12 Habsent) as [Habsent2 Hgrid2].
  destruct (H23 Habsent2) as [Habsent3 Hgrid3]. split; [exact Habsent3 | congruence].
Qed.

Lemma assign_grid_rests i what m :
  i <> "best-time" -> i <> "weather-grid" -> steps grid_rests (assign (Some i) what m).
Proof.
  intros Hbt Hgrid w Habsent. cbn. rewrite !lookup_insert_ne by assumption.
  split; [exact Habsent | reflexivity].
Qed.

Lemma best_time_grid_rests {B} (k : option string -> M B) :
  steps grid_rests (k None) -> steps grid_rests (bind (getElementById "best-time") k).
Proof.
  intros Hk w Habsent. unfold run. rewrite bind_getElementById, Habsent.
  apply Hk, Habsent.
Qed.

Lemma neapair_render_rests env forecastData readingsData :
  steps grid_rests (NeaPair.updateWeatherUI env forecastData readingsData).
Proof.
  unfold NeaPair.updateWeatherUI, set_innerHTML, found.
  walk_by ltac:(first [ apply best_time_grid_rests
                      | apply assign_grid_rests; discriminate ])
          grid_rests_refl grid_rests_trans.
Qed.

Lemma neapair_view_best_time env (d : gmap string Markup) :
  MockView.neapair env d !! "best-time" = None.
Proof.
  unfold MockView.neapair, MockView.neapair_grid.
  rewrite !lookup_draw_ne by discriminate.
  destruct (d !! "best-time") eqn:Hbt.
  - rewrite lookup_draw_ne, lookup_insert_ne, lookup_delete_eq by discriminate. reflexivity.
  - now rewrite !lookup_draw_ne by discriminate.
Qed.

Lemma neapair_fallback_rests env e :
  steps grid_rests
    (console_error "NEA Weather API error:" e ;;
     NeaPair.updateWeatherUI env (NeaPair.getMockForecastData env) NeaPair.getMockReadingsData).
Proof.
  intros w Habsent. unfold run. rewrite neapair_fallback. cbn.
  split; [apply neapair_view_best_time|].
  rewrite neapair_view_grid, Habsent. reflexivity.
Qed.

Lemma neapair_fetch_rests env : steps grid_rests (NeaPair.fetchWeatherData env).
Proof.
  unfold NeaPair.fetchWeatherData.
  apply (steps_try _ grid_rests_trans); [|apply neapair_fallback_rests].
  walk_by ltac:(apply neapair_render_rests) grid_rests_refl grid_rests_trans;
    try (intros w Habsent; split; [exact Habsent | reflexivity]).
  all: unfold json;
    match goal with |- context [Response.body ?resp] => destruct (Response.body resp) end;
    intros w; apply grid_rests_refl.
Qed.

Lemma ends_without_bind k {A B} (c : M A) (f : A -> M B) :
  (forall a, ends_without k (f a)) -> ends_without k (bind c f).
Proof.
  intros Hf w. unfold run, outcome. rewrite run_bind.
  destruct (outcome c w) as [a|e]; [apply Hf | discriminate].
Qed.

Lemma neapair_grid_keeps_panels k env forecastData :
  k <> "weather-grid" -> steps (shows_same k) (NeaPair.renderForecastGrid env forecastData).
Proof.
  intros Hk. unfold NeaPair.renderForecastGrid, set_innerHTML.
  walk_by ltac:(apply assign_shows_same; congruence) (shows_same_refl k) (shows_same_trans k).
Qed.

(** A render that completes has renamed the panel, or found none. *)
Lemma neapair_render_renames env forecastData readingsData :
  ends_without "best-time" (NeaPair.updateWeatherUI env forecastData readingsData).
Proof.
  unfold NeaPair.updateWeatherUI.
  do 6 (apply ends_without_bind; intros ?).
  intros w _. unfold run. rewrite bind_getElementById.
  destruct (document w !! "best-time") eqn:Hbt; [|exact Hbt].
  do 2 exec_step. exec_lookups. cbv iota.
  match goal with |- context [NeaPair.renderForecastGrid env forecastData ?w3] =>
    pose proof (neapair_grid_keeps_panels "best-time" env forecastData
                  ltac:(discriminate) w3) as Hgrid
  end.
  unfold shows_same, run in Hgrid. rewrite Hgrid. world_fields.
  now rewrite lookup_insert_ne, lookup_delete_eq by discriminate.
Qed.

Lemma neapair_fetch_renames env w :
  document (run (NeaPair.fetchWeatherData env) w) !! "best-time" = None.
Proof.
  unfold run, NeaPair.fetchWeatherData, try_catch.
  rewrite bind_fetch.
  destruct (network env _) as [|a];
    [rewrite neapair_fallback; apply neapair_view_best_time|].
  rewrite bind_json. destruct (Response.body a) as [forecastData|];
    [|rewrite neapair_fallback; apply neapair_view_best_time].
  rewrite bind_fetch.
  destruct (network env _) as [|b];
    [rewrite neapair_fallback; apply neapair_view_best_time|].
  rewrite bind_json. destruct (Response.body b) as [readingsData|];
    [|rewrite neapair_fallback; apply neapair_view_best_time].
  match goal with |- context [NeaPair.updateWeatherUI env forecastData readingsData ?w2] =>
    pose proof (neapair_render_renames env forecastData readingsData w2) as Hrenamed;
    unfold run, outcome in Hrenamed;
    destruct (NeaPair.updateWeatherUI env forecastData readingsData w2) as [w1 [[]|e]]
  end.
  - apply Hrenamed. reflexivity.
  - rewrite neapair_fallback. apply neapair_view_best_time.
Qed.

(** X21: part_001 draws the forecast grid from inside the [best-time]
    panel and renames that panel on the way.  So after one run of
    [fetchWeatherData] the panel is gone, and a second run, whatever the
    service answers then, leaves the weather grid showing what the first
    run left: the grid is never refreshed. *)
Theorem neapair_grid_is_drawn_once (env1 env2 : Env) (w : World) :
  let w1 := run (NeaPair.fetchWeatherData env1) w in
  let w2 := run (NeaPair.fetchWeatherData env2) w1 in
  document w1 !! "best-time" = None
  /\ document w2 !! "weather-grid" = document w1 !! "weather-grid".
Proof.
  cbv zeta. split; [apply neapair_fetch_renames|].
  apply (neapair_fetch_rests env2 (run (NeaPair.fetchWeatherData env1) w)).
  apply neapair_fetch_renames.
Qed.

(** ** The glyph of a forecast text *)

Lemma prefix_app_l p : forall q text,
  String.prefix (p +:+ q) text = true -> String.prefix p text = true.
Proof.
  induction p as [|c p IH]; intros q text H; [destruct text; reflexivity|].
  rewrite append_cons in H. destruct text as [|d text]; [discriminate H|].
  cbn [String.prefix] in *. destruct (Ascii.ascii_dec c d); [|discriminate H].
  exact (IH q text H).
Qed.

Lemma includes_app_l p q : forall text,
  includes text (p +:+ q) = true -> includes text p = true.
Proof.
  induction text as [|c text IH]; cbn [includes]; intros H.
  - apply orb_true_iff in H. destruct H as [H|H]; [|discriminate H].
    now rewrite (prefix_app_l p q _ H).
  - apply orb_true_iff in H. destruct H as [H|H].
    + now rewrite (prefix_app_l p q _ H).
    + rewrite (IH H). apply orb_true_r.
Qed.

Lemma longer_needle_is_redundant text p q :
  includes text (p +:+ q) || includes text p = includes text p.
Proof.
  destruct (includes text (p +:+ q)) eqn:H; [|reflexivity].
  now rewrite (includes_app_l p q text H).
Qed.

(** X22: [getForecastEmoji] throws a [TypeError] on anything that is not
    a string (a day without a forecast text, say), and on a string it
    decides by five needles only, tried in this order on the lower-cased
    text: thunder; rain or shower; cloud; clear or sunny; wind.  The
    tests for "thundery", "cloudy", "partly cloudy" and "windy" change
    nothing. *)
Theorem getForecastEmoji_by_keyword (v : JsVal) :
  getForecastEmoji v
  = match v with
    | JStr s => Normal (keyword_glyph (lower s))
    | _ => Throw (TypeError "toLowerCase")
    end.
Proof.
  destruct v as [| |b|q|s|l|l]; try reflexivity.
  unfold getForecastEmoji, keyword_glyph. cbn [toLowerCase cbind].
  rewrite (longer_needle_is_redundant (lower s) "thunder" "y"
           : includes (lower s) "thundery" || includes (lower s) "thunder" = _).
  rewrite (longer_needle_is_redundant (lower s) "cloud" "y"
           : includes (lower s) "cloudy" || includes (lower s) "cloud" = _).
  rewrite (longer_needle_is_redundant (lower s) "wind" "y"
           : includes (lower s) "windy" || includes (lower s) "wind" = _).
  destruct (includes (lower s) "thunder"); [reflexivity|].
  destruct (includes (lower s) "rain" || includes (lower s) "shower"); [reflexivity|].
  destruct (includes (lower s) "cloud") eqn:Hcloud; [reflexivity|].
  destruct (includes (lower s) "partly cloudy") eqn:Hpartly;
    [|destruct (includes (lower s) "clear" || includes (lower s) "sunny"); [reflexivity|];
      destruct (includes (lower s) "wind"); reflexivity].
  apply (includes_app_r "partly " "cloudy" : forall text,
           includes text "partly cloudy" = true -> includes text "cloudy" = true) in Hpartly.
  apply (includes_app_l "cloud" "y" : forall text,
           includes text "cloudy" = true -> includes text "cloud" = true) in Hpartly.
  congruence.
Qed.

(** ** The forecast cards of part_001 *)

Lemma opt_path_of_path steps : forall v x,
  path steps v = Normal x -> opt_path steps v = Normal x.
Proof.
  induction steps as [|s steps IH]; intros v x Hpath; [exact Hpath|].
  cbn [path opt_path] in *. unfold opt_step.
  destruct (step s v) as [y|e] eqn:Hstep; [|discriminate Hpath].
  destruct (nullish v) eqn:Hnull.
  - destruct s, v; discriminate.
  - cbn [cbind] in *. apply IH, Hpath.
Qed.

Lemma neapair_forecast_card env day index text :
  member day "forecast" = Normal (JStr text) ->
  NeaPair.forecast_card env day index
  = Normal [Script.formatDateForDisplay env (field [Dot "date"] day);
            JStr (glyph_of text); JStr text;
            js_or (field [Dot "relative_humidity"; Dot "low"] day) (Script.num 65);
            js_or (field [Dot "relative_humidity"; Dot "high"] day) (Script.num 85);
            NeaPair.bestLabel index].
Proof.
  intros Htext. unfold NeaPair.forecast_card.
  assert (Hday : nullish day = false) by (destruct day; try reflexivity; discriminate Htext).
  rewrite (member_not_nullish day "date" Hday), Htext. cbn [cbind].
  rewrite getForecastEmoji_of_text. cbn [cbind].
  unfold or_else. rewrite !opt_path_normal. reflexivity.
Qed.

Lemma neapair_cards_of_days env days : forall index,
  Forall day_with_text days ->
  exists cards,
    Script.map_indexed (NeaPair.forecast_card env) days index = Normal cards
    /\ length cards = length days
    /\ forall i day, days !! i = Some day ->
         exists date glyph hlow hhigh,
           cards !! i = Some [date; glyph; field [Dot "forecast"] day; hlow; hhigh;
                              NeaPair.bestLabel (index + i)]
           /\ per_field (field [Dot "relative_humidity"; Dot "low"] day) (Script.num 65) hlow
           /\ per_field (field [Dot "relative_humidity"; Dot "high"] day) (Script.num 85) hhigh.
Proof.
  induction days as [|day days IH]; intros index Hdays.
  - exists []. repeat split. intros i day Hi. discriminate Hi.
  - inversion Hdays as [|? ? [text Htext] Hrest]; subst.
    destruct (IH (S index) Hrest) as (cards & Hcards & Hlen & Hcard).
    eexists. cbn [Script.map_indexed].
    rewrite (neapair_forecast_card env day index text Htext). cbn [cbind].
    rewrite Hcards. cbn [cbind]. split; [reflexivity|]. split; [cbn; now rewrite Hlen|].
    intros [|i] day' Hi.
    + injection Hi as <-. do 4 eexists. split; [|split; apply js_or_per_field].
      cbn. rewrite Nat.add_0_r. do 4 f_equal.
      assert (Hday : nullish day = false)
        by (destruct day; try reflexivity; discriminate Htext).
      rewrite (member_not_nullish day "forecast" Hday) in Htext. now injection Htext.
    + cbn in Hi. destruct (Hcard i day' Hi) as (date & glyph & hlow & hhigh & Hc & Hl & Hh).
      exists date, glyph, hlow, hhigh. split; [|split; assumption].
      rewrite Nat.add_succ_r. exact Hc.
Qed.

(** X23: a forecast whose days each carry a text is drawn in full by
    [renderForecastGrid] of part_001: the grid holds one card per day, in
    the order of the reply, each showing the text of its day; the label
    "Best for cleanup" is on the first card and on no other; and each
    humidity bound is the day's own when it is truthy and the default
    (65, 85) otherwise.  An empty list of days empties the grid. *)
Theorem neapair_grid_one_card_per_day
    (env : Env) (forecastData : JsVal) (days : list JsVal) (w : World) :
  is_Some (document w !! "weather-grid") ->
  path [Dot "items"; Zero; Dot "forecasts"] forecastData = Normal (JArr days) ->
  Forall day_with_text days ->
  exists cards,
    NeaPair.renderForecastGrid env forecastData w
    = (with_document (<["weather-grid" := Cards cards]> (document w)) w, Normal tt)
    /\ length cards = length days
    /\ forall i day, days !! i = Some day ->
         exists date glyph hlow hhigh,
           cards !! i = Some [date; glyph; field [Dot "forecast"] day; hlow; hhigh;
                              NeaPair.bestLabel i]
           /\ per_field (field [Dot "relative_humidity"; Dot "low"] day) (Script.num 65) hlow
           /\ per_field (field [Dot "relative_humidity"; Dot "high"] day) (Script.num 85) hhigh.
Proof.
  intros [m Hgrid] Hpath Hdays.
  destruct (neapair_cards_of_days env days 0 Hdays) as (cards & Hcards & Hlen & Hcard).
  exists cards. split; [|split; [exact Hlen | exact Hcard]].
  unfold NeaPair.renderForecastGrid.
  rewrite bind_getElementById, Hgrid.
  lift_step (opt_path_of_path _ _ _ Hpath). cbn [found truthy negb orb].
  lift_step Hpath. unfold Script.array_map. lift_step Hcards. reflexivity.
Qed.

Lemma neapair_grid_one_card_per_day_witness :
  exists cards,
    NeaPair.renderForecastGrid Sample.offline (NeaPair.getMockForecastData Sample.offline)
      Sample.first_visit
    = (with_document (<["weather-grid" := Cards cards]> (document Sample.first_visit))
         Sample.first_visit, Normal tt)
    /\ length cards = 4%nat
    /\ forall i day,
         [NeaPair.mock_day Sample.offline 0 "Partly cloudy" (Script.band 60 80);
          NeaPair.mock_day Sample.offline 1 "Thundery showers" (Script.band 70 90);
          NeaPair.mock_day Sample.offline 2 "Cloudy" (Script.band 65 85);
          NeaPair.mock_day Sample.offline 3 "Partly cloudy" (Script.band 60 80)] !! i
         = Some day ->
         exists date glyph hlow hhigh,
           cards !! i = Some [date; glyph; field [Dot "forecast"] day; hlow; hhigh;
                              NeaPair.bestLabel i]
           /\ per_field (field [Dot "relative_humidity"; Dot "low"] day) (Script.num 65) hlow
           /\ per_field (field [Dot "relative_humidity"; Dot "high"] day) (Script.num 85) hhigh.
Proof.
  apply (neapair_grid_one_card_per_day Sample.offline
           (NeaPair.getMockForecastData Sample.offline)
           [NeaPair.mock_day Sample.offline 0 "Partly cloudy" (Script.band 60 80);
            NeaPair.mock_day Sample.offline 1 "Thundery showers" (Script.band 70 90);
            NeaPair.mock_day Sample.offline 2 "Cloudy" (Script.band 65 85);
            NeaPair.mock_day Sample.offline 3 "Partly cloudy" (Script.band 60 80)]
           Sample.first_visit).
  - exists Shipped. reflexivity.
  - reflexivity.
  - repeat constructor; eexists; reflexivity.
Defined.

(** ** Rate limiting *)

Lemma forwarded_spaced {A} delay (calls : list (Z * A)) : forall lastCall,
  Throttle.spaced delay lastCall (map fst (Throttle.forwarded delay lastCall calls))
  /\ Throttle.forwarded delay lastCall calls `sublist_of` calls.
Proof.
  induction calls as [|[now args] calls IH]; intros lastCall; cbn [Throttle.forwarded].
  - split; [exact I | constructor].
  - unfold Throttle.call. destruct (Z.leb_spec delay (now - lastCall)) as [Hfar|Hnear].
    + destruct (IH now) as [Hspaced Hsub]. split.
      * cbn. split; [exact Hfar | exact Hspaced].
      * now apply sublist_skip.
    + destruct (IH lastCall) as [Hspaced Hsub]. split; [exact Hspaced|].
      now apply sublist_cons.
Qed.

(** X24: the function [throttle(func, delay)] returns hands on a
    selection of its calls, in their order, and never two that are less
    than [delay] milliseconds apart on the clock: each call that reaches
    [func] comes at least [delay] after the one before it that did (the
    first one, at least [delay] after time 0).  This holds for any run
    of calls, also when the clock steps back. *)
Theorem throttle_spaces_the_calls {A : Type} (delay : Z) (calls : list (Z * A)) :
  Throttle.spaced delay 0 (map fst (Throttle.throttle delay calls))
  /\ Throttle.throttle delay calls `sublist_of` calls.
Proof. apply forwarded_spaced. Qed.





(** ** The theme *)

Lemma theme_setItem_fits v (s : Theme.t) :
  Theme.fits v s ->
  setItem Theme.key v (Theme.world s)
  = (with_localStorage
       {| slots := <[Theme.key := v]> (slots (localStorage (Theme.world s)));
          quota := quota (localStorage (Theme.world s)) |} (Theme.world s), Normal tt).
Proof. intros Hfits. apply setItem_fits, Hfits. Qed.

(** X26: a [toggleTheme] whose write the store accepts turns "dark" into
    "light" and anything else into "dark", and leaves memory, store and
    page in step: the stored name and the colour scheme are the new
    theme, and the toggle, if the page has one, offers the other theme
    in its glyph and in its label. *)
Theorem toggleTheme_keeps_in_step (s : Theme.t) :
  Theme.fits (if Theme.isDark s then "light" else "dark") s ->
  let s' := fst (Theme.toggleTheme s) in
  snd (Theme.toggleTheme s) = Normal tt
  /\ Theme.theme s' = (if Theme.isDark s then "light" else "dark")
  /\ Theme.in_step s'.
Proof.
  intros Hfits. cbv zeta. unfold Theme.toggleTheme. cbv zeta.
  rewrite (theme_setItem_fits _ s Hfits).
  unfold Theme.updateThemeDisplay, Theme.in_step, Theme.isDark. cbn.
  destruct (document (Theme.world s) !! "theme-toggle") eqn:Htoggle; cbn.
  - rewrite !lookup_insert_eq.
    destruct (Theme.theme s =? "dark")%string; cbn; repeat split.
  - rewrite !lookup_insert_eq, Htoggle.
    destruct (Theme.theme s =? "dark")%string; cbn; repeat split;
      match goal with H : is_Some None |- _ => destruct H as [? H]; discriminate H end.
Qed.

Lemma toggleTheme_keeps_in_step_witness :
  let s := ThemeCases.light 4096 in
  let s' := fst (Theme.toggleTheme s) in
  snd (Theme.toggleTheme s) = Normal tt
  /\ Theme.theme s' = (if Theme.isDark s then "light" else "dark")
  /\ Theme.in_step s'.
Proof.
  apply (toggleTheme_keeps_in_step (ThemeCases.light 4096)).
  unfold Theme.fits. vm_compute. lia.
Defined.

(** X27: the write to the store in [toggleTheme] is not guarded.  When
    the store refuses it the handler throws: [AppState.theme] already
    names the new theme, while the store, the colour scheme of the page
    and the toggle stay as they were, so memory and page are out of
    step. *)
Theorem toggleTheme_refused_write (s : Theme.t) :
  ~ Theme.fits (if Theme.isDark s then "light" else "dark") s ->
  let s' := fst (Theme.toggleTheme s) in
  snd (Theme.toggleTheme s) = Throw QuotaExceededError
  /\ Theme.theme s' = (if Theme.isDark s then "light" else "dark")
  /\ Theme.world s' = Theme.world s
  /\ Theme.colorScheme s' = Theme.colorScheme s
  /\ Theme.ariaLabel s' = Theme.ariaLabel s.
Proof.
  intros Hfull. cbv zeta. unfold Theme.toggleTheme. cbv zeta.
  rewrite (setItem_refused _ _ (Theme.world s) Hfull). repeat split.
Qed.

Lemma toggleTheme_refused_write_witness :
  let s := ThemeCases.light 10 in
  let s' := fst (Theme.toggleTheme s) in
  snd (Theme.toggleTheme s) = Throw QuotaExceededError
  /\ Theme.theme s' = (if Theme.isDark s then "light" else "dark")
  /\ Theme.world s' = Theme.world s
  /\ Theme.colorScheme s' = Theme.colorScheme s
  /\ Theme.ariaLabel s' = Theme.ariaLabel s.
Proof.
  apply (toggleTheme_refused_write (ThemeCases.light 10)).
  unfold Theme.fits. vm_compute. lia.
Defined.

(** X28: a stored dark theme is never applied.  After a page load on a
    store that holds "dark", [setupTheme] makes the toggle offer the
    light theme (the sun glyph), yet the colour scheme of the page is
    left unset; and the first click on the toggle, if the store takes the
    write, sets the colour scheme to "light". *)
Theorem stored_dark_theme_is_not_applied (page : gmap string Markup) (w : World) :
  slots (localStorage w) !! Theme.key = Some "dark" ->
  is_Some (page !! "theme-toggle") ->
  let s := Theme.setupTheme (Theme.load page w) in
  Theme.theme s = "dark"
  /\ Theme.colorScheme s = None
  /\ document (Theme.world s) !! "theme-toggle" = Some (Text (JStr "☀️"))
  /\ (Theme.fits "light" s ->
      Theme.colorScheme (fst (Theme.click s)) = Some "light"
      /\ Theme.theme (fst (Theme.click s)) = "light").
Proof.
  intros Hstored [m Hpage]. cbv zeta.
  unfold Theme.setupTheme, Theme.updateThemeDisplay, Theme.load, Theme.isDark,
    Theme.stored_theme.
  cbn [Theme.world Theme.theme Theme.colorScheme reload document].
  rewrite Hstored, Hpage. cbn.
  split; [reflexivity|]. split; [reflexivity|].
  split; [now rewrite lookup_insert_eq|].
  unfold Theme.fits, Theme.click, Theme.toggleTheme, Theme.isDark. cbn.
  intros Hfits. rewrite lookup_insert_eq. cbn.
  unfold setItem. cbn. apply Nat.leb_le in Hfits. rewrite Hfits. cbn.
  unfold Theme.updateThemeDisplay. cbn. rewrite lookup_insert_eq. cbn.
  split; reflexivity.
Qed.

Lemma stored_dark_theme_is_not_applied_witness :
  let s := Theme.setupTheme (Theme.load ThemeCases.page ThemeCases.chose_dark) in
  Theme.theme s = "dark"
  /\ Theme.colorScheme s = None
  /\ document (Theme.world s) !! "theme-toggle" = Some (Text (JStr "☀️"))
  /\ (Theme.fits "light" s ->
      Theme.colorScheme (fst (Theme.click s)) = Some "light"
      /\ Theme.theme (fst (Theme.click s)) = "light").
Proof.
  apply (stored_dark_theme_is_not_applied ThemeCases.page ThemeCases.chose_dark).
  - reflexivity.
  - exists Shipped. reflexivity.
Defined.

(** ** The join buttons of part_000 *)

(** The two halves of the un-awaited call make up [fetchWeatherData]. *)
Lemma fetch_started_then_settled env w :
  (Events.fetch_started ;; Events.fetch_settled env) w = Nea24h.fetchWeatherData env w.
Proof.
  unfold Events.fetch_started, Events.fetch_settled, Nea24h.fetchWeatherData, try_catch,
    bind, fetch, console_log, modify, lift.
  fold nea24h_request. cbn. destruct (network env nea24h_request); reflexivity.
Qed.

Lemma on_world_total (c : M unit) p :
  total c ->
  Events.on_world c p
  = ({| Events.world := run c (Events.world p); Events.cards := Events.cards p |}, Normal tt).
Proof.
  intros Hc. specialize (Hc (Events.world p)). unfold Events.on_world, run, outcome in *.
  destruct (c (Events.world p)) as [w [[]|e]]; [reflexivity | discriminate Hc].
Qed.

Lemma nea24h_loadStateFromStorage_total : total Nea24h.loadStateFromStorage.
Proof.
  unfold Nea24h.loadStateFromStorage. apply total_try. intros e.
  unfold console_error. frame.
Qed.

Lemma load_keeps_notifications r : keeps notifications (loadStateFromStorage_in r).
Proof.
  intros w. unfold run. rewrite load_run.
  unfold try_catch, bind, stats_step, load_handler, JSON.parse, console_error.
  destruct (saved_truthy (slots (localStorage w) !! AppConfig.crew));
    [destruct (JSON.parse_crew _)|];
    cbn; destruct (saved_truthy (slots (localStorage w) !! AppConfig.stats));
    try destruct (JSON.parse_stats _); destruct (seeds r); reflexivity.
Qed.

Lemma fetch_started_total : total Events.fetch_started.
Proof. intros w. reflexivity. Qed.

Lemma initializeApp_run p :
  exists w1,
    Events.initializeApp p
    = ({| Events.world := w1;
          Events.cards := map Events.listened (map Events.listened (Events.cards p)) |},
       Normal tt)
    /\ notifications w1 = notifications (Events.world p).
Proof.
  eexists. unfold Events.initializeApp, Events.renderUI, Events.setupEventListeners,
    Events.and_then.
  rewrite (on_world_total _ _ nea24h_loadStateFromStorage_total).
  unfold Events.setupEventButtons at 1. cbn [Events.world Events.cards].
  rewrite (on_world_total _ _ renderCrewGrid_total). cbn [Events.world Events.cards].
  rewrite (on_world_total _ _ nea24h_updateStats_total). cbn [Events.world Events.cards].
  rewrite (on_world_total _ _ fetch_started_total). cbn [Events.world Events.cards].
  unfold Events.setupEventButtons. cbn [Events.world Events.cards].
  rewrite (on_world_total _ _ (console_log_total _)). cbn [Events.world Events.cards].
  split; [reflexivity|].
  change (notifications (run (console_log ?t) ?w)) with (notifications w).
  change (notifications (run Events.fetch_started ?w)) with (notifications w).
  rewrite (nea24h_updateStats_keeps notifications) by reflexivity.
  rewrite (renderCrewGrid_keeps notifications) by reflexivity.
  exact (load_keeps_notifications Part000 (Events.world p)).
Qed.

Lemma lookup_map {A B} (f : A -> B) (l : list A) : forall i,
  map f l !! i = option_map f (l !! i).
Proof.
  induction l as [|x l IH]; intros [|i]; cbn; try reflexivity. apply IH.
Qed.

(** [trim] takes the no-break spaces ([&nbsp;], U+00A0), the line breaks
    and the ideographic space (U+3000) around a date with the blanks, and
    keeps what is inside. *)
Lemma trim_takes_every_white_space :
  let nbsp := String (ascii_of_nat 194) (String (ascii_of_nat 160) EmptyString) in
  let wide := String (ascii_of_nat 227) (String (ascii_of_nat 128)
                (String (ascii_of_nat 128) EmptyString)) in
  let newline := String (ascii_of_nat 10) EmptyString in
  Events.trim (newline +:+ nbsp +:+ " 15 Nov" +:+ nbsp +:+ "2026" +:+ wide +:+ nbsp +:+ " ")
  = "15 Nov" +:+ nbsp +:+ "2026"
  /\ Events.trim (nbsp +:+ " " +:+ newline) = EmptyString
  /\ Events.trim "15 Nov 2026" = "15 Nov 2026".
Proof. repeat split; vm_compute; reflexivity. Qed.

Lemma join_run i p card :
  Events.cards p !! i = Some card ->
  fst (Events.join i p)
  = {| Events.world := with_notification (Events.joined card) (Events.world p);
       Events.cards :=
         <[i := {| Events.title := Events.title card; Events.date := Events.date card;
                   Events.label := "Joined ✓"; Events.disabled := true;
                   Events.listeners := Events.listeners card |}]> (Events.cards p) |}.
Proof. intros Hcard. unfold Events.join. now rewrite Hcard. Qed.

(** X29: part_000 sets up the join buttons twice, once from
    [setupEventListeners] and once from [renderUI], so that after
    [initializeApp] each button of the shipped page carries two click
    listeners.  The first click on a button that is not disabled then
    shows the "You've joined" notification twice; the button ends
    disabled with the text "Joined", and further clicks do nothing. *)
Theorem join_click_notifies_twice (p : Events.Page) (i : nat) (card : Events.Card) :
  Events.shipped p ->
  Events.cards p !! i = Some card ->
  Events.disabled card = false ->
  let p1 := fst (Events.initializeApp p) in
  let p2 := Events.click i p1 in
  snd (Events.initializeApp p) = Normal tt
  /\ notifications (Events.world p2)
     = (notifications (Events.world p) ++ [Events.joined card; Events.joined card])%list
  /\ (exists card2, Events.cards p2 !! i = Some card2
        /\ Events.disabled card2 = true /\ Events.label card2 = "Joined ✓")
  /\ Events.click i p2 = p2.
Proof.
  intros Hshipped Hcard Henabled. cbv zeta.
  destruct (initializeApp_run p) as (w1 & -> & Hnotes). cbn [fst snd].
  split; [reflexivity|].
  assert (Hnone : Events.listeners card = 0%nat).
  { unfold Events.shipped in Hshipped. rewrite Forall_forall in Hshipped.
    apply Hshipped. eapply list_elem_of_lookup_2, Hcard. }
  set (p1 := {| Events.world := w1;
                Events.cards := map Events.listened (map Events.listened (Events.cards p)) |}).
  assert (Hcard1 : Events.cards p1 !! i = Some (Events.listened (Events.listened card))).
  { unfold p1. cbn [Events.cards]. now rewrite !lookup_map, Hcard. }
  assert (Hlen : (i < length (Events.cards p1))%nat) by (eapply lookup_lt_Some, Hcard1).
  set (card2 := {| Events.title := Events.title card; Events.date := Events.date card;
                   Events.label := "Joined ✓"; Events.disabled := true;
                   Events.listeners := S (S (Events.listeners card)) |}).
  assert (Hclick : Events.click i p1
                   = {| Events.world :=
                          with_notification (Events.joined card)
                            (with_notification (Events.joined card) w1);
                        Events.cards := <[i := card2]> (<[i := card2]> (Events.cards p1)) |}).
  { unfold Events.click. rewrite Hcard1.
    cbn [Events.listened Events.disabled Events.listeners].
    rewrite Henabled, Hnone. cbn [Events.dispatch].
    rewrite (join_run i p1 _ Hcard1).
    match goal with |- context [Events.join i ?pa] => set (p2 := pa) end.
    assert (Hcard2 : Events.cards p2 !! i = Some card2).
    { unfold p2. cbn [Events.cards]. now rewrite list_lookup_insert_eq by exact Hlen. }
    rewrite (join_run i p2 _ Hcard2). reflexivity. }
  rewrite Hclick.
  assert (Hcard2 : <[i := card2]> (<[i := card2]> (Events.cards p1)) !! i = Some card2).
  { apply list_lookup_insert_eq. now rewrite length_insert. }
  cbn [Events.world Events.cards notifications with_notification].
  split; [|split].
  - rewrite Hnotes, <- app_assoc. reflexivity.
  - exists card2. repeat split. exact Hcard2.
  - unfold Events.click. cbn [Events.cards]. now rewrite Hcard2.
Qed.

Lemma join_click_notifies_twice_witness :
  let card := {| Events.title := "Pasir Ris Beach Cleanup"; Events.date := " 15 Nov 2026 ";
                 Events.label := "Join"; Events.disabled := false; Events.listeners := 0 |} in
  let p := {| Events.world := Sample.first_visit; Events.cards := [card] |} in
  let p1 := fst (Events.initializeApp p) in
  let p2 := Events.click 0 p1 in
  snd (Events.initializeApp p) = Normal tt
  /\ notifications (Events.world p2)
     = (notifications (Events.world p) ++ [Events.joined card; Events.joined card])%list
  /\ (exists card2, Events.cards p2 !! 0%nat = Some card2
        /\ Events.disabled card2 = true /\ Events.label card2 = "Joined ✓")
  /\ Events.click 0 p2 = p2.
Proof.
  apply (join_click_notifies_twice
           {| Events.world := Sample.first_visit;
              Events.cards :=
                [{| Events.title := "Pasir Ris Beach Cleanup"; Events.date := " 15 Nov 2026 ";
                    Events.label := "Join"; Events.disabled := false;
                    Events.listeners := 0 |}] |}
           0
           {| Events.title := "Pasir Ris Beach Cleanup"; Events.date := " 15 Nov 2026 ";
              Events.label := "Join"; Events.disabled := false; Events.listeners := 0 |}).
  - repeat constructor.
  - reflexivity.
  - reflexivity.
Defined.

(** ** Start-up after a reload *)

Lemma load_outcome_and_page r w :
  outcome (loadStateFromStorage_in r) w = Normal tt
  /\ document (run (loadStateFromStorage_in r) w) = document w.
Proof.
  unfold run, outcome. rewrite load_run.
  unfold try_catch, bind, stats_step, load_handler, JSON.parse, console_error.
  destruct (saved_truthy (slots (localStorage w) !! AppConfig.crew));
    [destruct (JSON.parse_crew _)|];
    cbn; destruct (saved_truthy (slots (localStorage w) !! AppConfig.stats));
    try destruct (JSON.parse_stats _); destruct (seeds r); cbn; split; reflexivity.
Qed.

Lemma startup_on_world c s w1 r :
  c (Theme.world s) = (w1, r) ->
  Startup.on_world c s
  = ({| Theme.world := w1; Theme.theme := Theme.theme s;
        Theme.colorScheme := Theme.colorScheme s; Theme.ariaLabel := Theme.ariaLabel s;
        Theme.listening := Theme.listening s |}, r).
Proof. intros Hc. unfold Startup.on_world. now rewrite Hc. Qed.

Lemma setupTheme_world s :
  app (Theme.world (Theme.setupTheme s)) = app (Theme.world s)
  /\ forall k, k <> "theme-toggle" ->
       document (Theme.world (Theme.setupTheme s)) !! k = document (Theme.world s) !! k.
Proof.
  unfold Theme.setupTheme, Theme.updateThemeDisplay.
  destruct (document (Theme.world s) !! "theme-toggle"); cbn; split; try reflexivity.
  intros k Hk. now rewrite lookup_insert_ne by congruence.
Qed.

Lemma renderUI_run w :
  is_Some (document w !! "crew-grid") -> counters_on_page w ->
  exists w1,
    Startup.renderUI w = (w1, Normal tt)
    /\ app w1 = app w
    /\ document w1 !! "crew-grid" = Some (Cards (map Script.crew_card (crew_of w)))
    /\ counters_show w1.
Proof.
  intros Hgrid Hpage. unfold Startup.renderUI.
  rewrite (bind_normal _ _ _ _ _ (renderCrewGrid_run w Hgrid)).
  set (w2 := with_document _ w).
  assert (Hpage2 : counters_on_page w2).
  { revert Hpage. apply counters_on_page_same; unfold w2; cbn;
      now rewrite lookup_insert_ne by discriminate. }
  pose proof (updateStats_in_run AppJs w2 ltac:(discriminate) Hpage2) as Hstats.
  cbn [updateStats_in] in Hstats. unfold OpenMeteo.updateStats in Hstats.
  eexists. split; [exact Hstats|]. split; [reflexivity|]. split.
  - unfold w2. cbn. now rewrite !lookup_insert_ne, lookup_insert_eq by discriminate.
  - unfold counters_show, counter, stats_of. cbn.
    repeat split; exec_lookups; reflexivity.
Qed.

(** X30: what an action saved is what the next visit shows.  After a
    crew submission, a removal or a scheduled cleanup whose save the
    store accepted, a page load followed by [initializeApp] of app.js (the
    same text in part_001) completes on a page that has the crew grid and
    the four counters, and then the state holds the roster and the
    counters the action left, the grid shows one card per member of that
    roster and the counters show those statistics. *)
Theorem action_is_on_the_page_after_reload
    (r : Revision) (a : Action) (page : gmap string Markup) (w : World) :
  let w' := run (act r a) w in
  store_takes w (app w') ->
  is_Some (page !! "crew-grid") ->
  counters_on_page (reload page w') ->
  let visit := Startup.initializeApp (Theme.load page w') in
  snd visit = Normal tt
  /\ crew_of (Theme.world (fst visit)) = crew_of w'
  /\ stats_of (Theme.world (fst visit)) = stats_of w'
  /\ document (Theme.world (fst visit)) !! "crew-grid"
     = Some (Cards (map Script.crew_card (crew_of w')))
  /\ counters_show (Theme.world (fst visit)).
Proof.
  cbv zeta. intros Htakes Hgrid Hpage.
  destruct (act_is_stored r a w Htakes) as [Hcrew Hstats].
  set (w' := run (act r a) w) in *.
  unfold Startup.initializeApp.
  set (s0 := Theme.load page w').
  destruct (load_outcome_and_page AppJs (Theme.world s0)) as [Hnormal Hdoc].
  destruct (app_after_load AppJs (crew_of w') (stats_of w') (Theme.world s0) Hcrew Hstats)
    as [Hcrew1 Hstats1].
  cbn [loadStateFromStorage_in] in *. unfold OpenMeteo.loadStateFromStorage in *.
  assert (Hload : Script.loadStateFromStorage (Theme.world s0)
                  = (run Script.loadStateFromStorage (Theme.world s0), Normal tt)).
  { unfold run, outcome in *.
    destruct (Script.loadStateFromStorage (Theme.world s0)) as [wl rl].
    cbn [fst snd] in *. now subst rl. }
  rewrite (startup_on_world _ _ _ _ Hload).
  set (wl := run Script.loadStateFromStorage (Theme.world s0)) in *.
  match goal with |- context [Theme.setupTheme ?s] => set (s1 := s) end.
  destruct (setupTheme_world s1) as [Happ2 Hdoc2].
  set (s2 := Theme.setupTheme s1) in *.
  assert (Hgrid2 : is_Some (document (Theme.world s2) !! "crew-grid")).
  { rewrite Hdoc2 by discriminate. unfold s1. cbn [Theme.world]. now rewrite Hdoc. }
  assert (Hpage2 : counters_on_page (Theme.world s2)).
  { revert Hpage. apply counters_on_page_same; rewrite Hdoc2 by discriminate;
      unfold s1; cbn [Theme.world]; now rewrite Hdoc. }
  destruct (renderUI_run (Theme.world s2) Hgrid2 Hpage2)
    as (w3 & Hrender & Happ3 & Hgrid3 & Hshow3).
  rewrite (startup_on_world _ _ _ _ Hrender). cbn [Startup.on_world Theme.world fst snd].
  unfold console_log, modify. cbn [fst snd Theme.world].
  assert (Happ : app w3 = app wl).
  { rewrite Happ3, Happ2. reflexivity. }
  split; [reflexivity|]. split; [|split; [|split]].
  - unfold crew_of. cbn. rewrite Happ. exact Hcrew1.
  - unfold stats_of. cbn. rewrite Happ. exact Hstats1.
  - cbn. rewrite Hgrid3. unfold crew_of. rewrite Happ2. unfold s1. cbn [Theme.world].
    fold (crew_of wl). now rewrite Hcrew1.
  - unfold counters_show in *. cbn. exact Hshow3.
Qed.

Lemma action_is_on_the_page_after_reload_witness :
  let a := Crew (Add Sample.offline "Cy" "Scout") in
  let w' := run (act AppJs a) Sample.two_members in
  let visit := Startup.initializeApp (Theme.load ThemeCases.page w') in
  snd visit = Normal tt
  /\ crew_of (Theme.world (fst visit)) = crew_of w'
  /\ stats_of (Theme.world (fst visit)) = stats_of w'
  /\ document (Theme.world (fst visit)) !! "crew-grid"
     = Some (Cards (map Script.crew_card (crew_of w')))
  /\ counters_show (Theme.world (fst visit)).
Proof.
  apply (action_is_on_the_page_after_reload AppJs (Crew (Add Sample.offline "Cy" "Scout"))
           ThemeCases.page Sample.two_members).
  - split; [unfold crew_fits | unfold stats_fits]; vm_compute; lia.
  - exists Shipped. reflexivity.
  - repeat split; exists Shipped; reflexivity.
Defined.

(** * The two renderers of the NEA revisions, on any body *)

(** ** Optional chains *)





(** ** part_000 *)




(** ** part_001 *)







Section NeaPairPanels.

Variables (env : Env) (w : World) (forecastData readingsData : JsVal).

Let reading : JsVal := field [Dot "items"; Zero; Dot "readings"; Zero] readingsData.
Let today : JsVal := field [Dot "items"; Zero; Dot "forecasts"; Zero] forecastData.

(** The page after the two panels. *)
Let current (d : gmap string Markup) : gmap string Markup :=
  if truthy reading then
    <["current-weather" :=
        Template [field [Dot "value"] reading;
                  js_or (field [Dot "relative_humidity"; Dot "high"] today) (Script.num 75)]]> d
  else d.



Hypothesis Hcurrent : is_Some (document w !! "current-weather").
Hypothesis Hocean : is_Some (document w !! "ocean-conditions").





End NeaPairPanels.



(** What the page shows there: in part_001 the reading 31 beside the
    default 75, the text of the first day with the defaults 70 and 85,
    and the second day with its own band in the grid. *)
Lemma no_band_drawn :
  let w' := run (NeaPair.updateWeatherUI Sample.offline PairCases.no_band
                   PairCases.live_readings) Sample.first_visit in
  document w' !! "current-weather" = Some (Template [Script.num 31; Script.num 75])
  /\ document w' !! "ocean-conditions"
     = Some (Template [JStr "Fair"; Script.num 70; Script.num 85])
  /\ document w' !! "weather-grid"
     = Some (Cards [[JStr "Sun, 1 Nov"; JStr Glyph.generic; JStr "Fair";
                     Script.num 65; Script.num 85; NeaPair.bestLabel 0];
                    [JStr "Sun, 1 Nov"; JStr Glyph.rain; JStr "Showers";
                     Script.num 60; Script.num 95; NeaPair.bestLabel 1]]).
Proof. repeat split; vm_compute; reflexivity. Qed.

